(** * The Television Interface Adaptor of stella-lua (src/emucore/TIA.cxx)

    A shallow embedding of the TIA core: the graphical objects and their
    horizontal-motion state machines, the catch-up renderer [updateFrame],
    the register interface [peek]/[poke], the frame controller and the state
    serialisation, followed by the properties checked against the
    specification.

    Conventions.
    - Unsigned machine integers ([uInt8], [uInt16], [uInt32]) live in [Z] and
      every conversion to them is written out as a reduction modulo 2^w.
      [Int16] positions are wrapped the same way (two's complement).
    - [Int32] clock arithmetic is carried out in [Z]: signed overflow is
      undefined in C++, so the model describes the executions that stay inside
      the 32-bit range.  Conversions from unsigned values to [Int32] are
      written out.
    - C++ [/] and [%] on signed operands are [Z.quot] and [Z.rem]; [>>] is
      [Z.shiftr]; on unsigned operands [/] and [%] are [Z.div] and [Z.modulo].
    - Members of the owning TIA that an object reads through its back
      reference [myTia] are handed to the object methods as a [TIAView]. *)

From Stdlib Require Import ZArith Bool List Lia String Ascii.
From Stdlib Require Import Floats.SpecFloat.
Import ListNotations.
Local Open Scope Z_scope.

(** ** Machine integers *)

Definition uInt8 (x : Z) : Z := x mod 256.
Definition uInt16 (x : Z) : Z := x mod 65536.
Definition uInt32 (x : Z) : Z := x mod 4294967296.
Definition Int16 (x : Z) : Z := (x + 32768) mod 65536 - 32768.
Definition Int32 (x : Z) : Z := (x + 2147483648) mod 4294967296 - 2147483648.

(** A C++ integer used as a condition. *)
Definition nonzero (x : Z) : bool := negb (x =? 0).

(** ** Constants of TIA.cxx *)

Definition PIXEL_CLOCKS : Z := 3.
Definition SCANLINE_CYCLES : Z := 76.
Definition SCANLINE_CLOCKS : Z := PIXEL_CLOCKS * SCANLINE_CYCLES.
Definition SCANLINE_PIXEL : Z := 160.
Definition HBLANK_CLOCKS : Z := SCANLINE_CLOCKS - SCANLINE_PIXEL.
Definition BUFFER_LINES : Z := 320.
Definition BUFFER_SIZE : Z := SCANLINE_PIXEL * BUFFER_LINES.

(** [0x7FFFFFFF] marks "no HMOVE" in [myCurrentHMOVEPos]/[myPreviousHMOVEPos]
    and "no deadline" in [myVSYNCFinishClock]. *)
Definition NO_HMOVE : Z := 0x7FFFFFFF.

(** [#define CLAMP_POS(reg) if(reg < 0) { reg += SCANLINE_PIXEL; }  reg %= SCANLINE_PIXEL;]
    applied to an [Int16] register. *)
Definition CLAMP_POS (reg : Z) : Z :=
  let reg := if reg <? 0 then Int16 (reg + SCANLINE_PIXEL) else reg in
  Int16 (Z.rem reg SCANLINE_PIXEL).

(** ** Enumerations

    The enumerations are declared in TIATables.hxx, which is not part of the
    sources; they are inductive types here and their numeric values are
    supplied by the environment record [Env] below. *)

Inductive TIABit :=
  P0Bit | M0Bit | P1Bit | M1Bit | BLBit | PFBit | ScoreBit | PriorityBit.

Inductive TIAColor :=
  BKColor | PFColor | P0Color | P1Color | M0Color | M1Color | BLColor | HBLANKColor.

Inductive CollisionBit :=
  | Cx_M0P1 | Cx_M0P0 | Cx_M1P0 | Cx_M1P1 | Cx_P0PF | Cx_P0BL | Cx_P1PF
  | Cx_P1BL | Cx_M0PF | Cx_M0BL | Cx_M1PF | Cx_M1BL | Cx_BLPF | Cx_P0P1
  | Cx_M0M1.

(** Write registers ([poke]); [BadWrite] is the [default:] label. *)
Inductive TIARegister :=
  | VSYNC | VBLANK | WSYNC | RSYNC | NUSIZ0 | NUSIZ1 | COLUP0 | COLUP1
  | COLUPF | COLUBK | CTRLPF | REFP0 | REFP1 | PF0 | PF1 | PF2
  | RESP0 | RESP1 | RESM0 | RESM1 | RESBL
  | AUDC0 | AUDC1 | AUDF0 | AUDF1 | AUDV0 | AUDV1
  | GRP0 | GRP1 | ENAM0 | ENAM1 | ENABL
  | HMP0 | HMP1 | HMM0 | HMM1 | HMBL
  | VDELP0 | VDELP1 | VDELBL | RESMP0 | RESMP1
  | HMOVE | HMCLR | CXCLR | BadWrite.

(** Read registers ([peek]); [BadRead] is the [default:] label. *)
Inductive TIAReadRegister :=
  | CXM0P | CXM1P | CXP0FB | CXP1FB | CXM0FB | CXM1FB | CXBLPF | CXPPMM
  | INPT0 | INPT1 | INPT2 | INPT3 | INPT4 | INPT5 | BadRead.

Definition TIABit_eqb (a b : TIABit) : bool :=
  match a, b with
  | P0Bit, P0Bit | M0Bit, M0Bit | P1Bit, P1Bit | M1Bit, M1Bit
  | BLBit, BLBit | PFBit, PFBit | ScoreBit, ScoreBit
  | PriorityBit, PriorityBit => true
  | _, _ => false
  end.

(** ** Record update helper

    [build_setter eta proj] produces [fun v s => s with proj := v] from the
    eta-expansion [eta] of a record. *)

Ltac build_setter eta proj :=
  let body := eval cbv beta delta [eta] in (fun s => eta s) in
  lazymatch eval pattern proj in body with
  | ?ctx _ =>
      let t := eval cbv beta in (fun v s => ctx (fun _ => v) s) in
      exact t
  end.

(** ** What an object sees of its owning TIA *)

Record TIAView := mkTIAView
  { v_clock : Z                  (* myTia.mySystem->cycles() * PIXEL_CLOCKS *)
  ; v_clockWhenFrameStarted : Z  (* myTia.myClockWhenFrameStarted *)
  ; v_currentHMOVEPos : Z        (* myTia.myCurrentHMOVEPos *)
  ; v_previousHMOVEPos : Z       (* myTia.myPreviousHMOVEPos *)
  }.

(** [(clock - myClockWhenFrameStarted) % SCANLINE_CLOCKS - HBLANK_CLOCKS] *)
Definition hposAt (clock frameStart : Z) : Z :=
  Z.rem (clock - frameStart) SCANLINE_CLOCKS - HBLANK_CLOCKS.

Definition v_hpos (v : TIAView) : Z :=
  hposAt (v_clock v) (v_clockWhenFrameStarted v).

(** ** AbstractMoveableTIAObject *)

Module Moveable.

Record t := mk
  { isEnabled : bool      (* AbstractTIAObject::isEnabled *)
  ; myHM : Z              (* uInt8 *)
  ; myVDEL : bool
  ; myPos : Z             (* Int16 *)
  ; myMotionClock : Z     (* Int32 *)
  ; myStart : Z           (* Int32, unused *)
  ; myHMmmr : bool }.

Definition eta (o : t) : t :=
  mk (isEnabled o) (myHM o) (myVDEL o) (myPos o) (myMotionClock o)
     (myStart o) (myHMmmr o).

Definition set_isEnabled : bool -> t -> t := ltac:(build_setter eta isEnabled).
Definition set_myHM : Z -> t -> t := ltac:(build_setter eta myHM).
Definition set_myVDEL : bool -> t -> t := ltac:(build_setter eta myVDEL).
Definition set_myPos : Z -> t -> t := ltac:(build_setter eta myPos).
Definition set_myMotionClock : Z -> t -> t := ltac:(build_setter eta myMotionClock).
Definition set_myHMmmr : bool -> t -> t := ltac:(build_setter eta myHMmmr).

(** [myPos = myMotionClock = myHM = myVDEL = 0; myHMmmr = false;] *)
Definition reset (o : t) : t :=
  mk (isEnabled o) 0 false 0 0 (myStart o) false.

(** [AbstractTIAObject::handleEnabled] *)
Definition handleEnabled (value : Z) (o : t) : t :=
  set_isEnabled (nonzero value) o.

Definition handleVDEL (value : Z) (o : t) : t :=
  set_myVDEL (nonzero (Z.land value 0x01)) o.

Definition handleHM (v : TIAView) (value : Z) (o : t) : t :=
  let value := Z.land value 0xF0 in
  if myHM o =? value then o
  else
    let hpos := v_hpos v in
    let cur := v_currentHMOVEPos v in
    let o :=
      (* Check if HMOVE is currently active *)
      if negb (cur =? NO_HMOVE)
         && (hpos <? Z.min (cur + 6 + myMotionClock o * 4) 7)
      then
        let newMotion := Z.shiftr (Z.lxor value 0x80) 4 in
        let o :=
          (* Check if new horizontal move can still be applied normally *)
          if (newMotion >? myMotionClock o)
             || (hpos <=? Z.min (cur + 6 + newMotion * 4) 7)
          then
            let o := set_myPos (Int16 (myPos o - (newMotion - myMotionClock o))) o in
            set_myMotionClock newMotion o
          else
            let o := set_myPos (Int16 (myPos o - (15 - myMotionClock o))) o in
            let o := set_myMotionClock 15 o in
            if negb (value =? 0x70) && negb (value =? 0x80)
            then set_myHMmmr true o
            else o
        in
        set_myPos (CLAMP_POS (myPos o)) o
      else o
    in
    set_myHM value o.

Definition handleHMOVE (v : TIAView) (o : t) : t :=
  let hpos := v_hpos v in
  (* undo some of the already applied cycles from an active graphics latch *)
  let o :=
    if (hpos + HBLANK_CLOCKS <? HBLANK_CLOCKS) && myHMmmr o then
      let cycle_fix := Int16 (17 - Z.quot (hpos + HBLANK_CLOCKS + 7) 4) in
      set_myPos (Int16 (Z.rem (myPos o + cycle_fix) SCANLINE_PIXEL)) o
    else o in
  let o := set_myHMmmr false o in
  (* Can HMOVE activities be ignored? *)
  if (hpos >=? -5) && (hpos <? 97) then
    set_myMotionClock 0 o
  else
    let o := set_myMotionClock (Z.shiftr (Z.lxor (myHM o) 0x80) 4) o in
    (* Adjust number of graphics motion clocks for active display *)
    let o :=
      if (hpos >=? 97) && (hpos <? 151) then
        let skip_motclks := Int16 (Z.shiftr (SCANLINE_PIXEL - hpos - 6) 2) in
        let o := set_myMotionClock (myMotionClock o - skip_motclks) o in
        if myMotionClock o <? 0 then set_myMotionClock 0 o else o
      else o in
    let o :=
      if (hpos >=? -56) && (hpos <? -5) then
        let max_motclks := Int16 (Z.shiftr (7 - (hpos + 5)) 2) in
        if myMotionClock o >? max_motclks
        then set_myMotionClock max_motclks o else o
      else o in
    (* Apply horizontal motion *)
    let o :=
      if (hpos <? -5) || (hpos >=? 157)
      then set_myPos (Int16 (myPos o + (8 - myMotionClock o))) o
      else o in
    (* Make sure position is in range *)
    set_myPos (CLAMP_POS (myPos o)) o.

(** [pos] is the [Int16&] argument; the updated value is returned. *)
Definition applyActiveHMOVEMotion (v : TIAView) (o : t) (hpos pos : Z) : Z :=
  let cur := v_currentHMOVEPos v in
  if hpos <? Z.min (cur + 6 + 16 * 4) 7 then
    let decrements_passed := Z.shiftr (hpos - (cur + 4)) 2 in
    let pos := Int16 (pos + 8) in
    if myMotionClock o - decrements_passed >? 0 then
      let pos := Int16 (pos - (myMotionClock o - decrements_passed)) in
      if pos <? 0 then Int16 (pos + SCANLINE_PIXEL) else pos
    else pos
  else pos.

Definition applyPreviousHMOVEMotion (v : TIAView) (o : t) (hpos pos : Z) : Z :=
  let prev := v_previousHMOVEPos v in
  if negb (prev =? NO_HMOVE) then
    let motclk := uInt8 (Z.shiftr (Z.lxor (myHM o) 0x80) 4) in
    if hpos <=? prev - SCANLINE_CLOCKS + 5 + motclk * 4 then
      let motclk_passed :=
        uInt8 (Z.shiftr (hpos - (prev - SCANLINE_CLOCKS + 6)) 2) in
      Int16 (pos - (motclk - motclk_passed))
    else pos
  else pos.

Definition handleRESChange (newx : Z) (o : t) : t :=
  set_myPos (Int16 newx) o.

(** [getActiveHPos] and [getPreviousHPos] are the pure virtual members the
    concrete class supplies.  [handleRESChange] is not virtual in TIA.hxx,
    so the call below is the one of this class. *)
Definition handleRES (getActiveHPos getPreviousHPos : Z -> Z)
    (v : TIAView) (o : t) : t :=
  let hpos := v_hpos v in
  let newx :=
    (* Check if HMOVE is currently active *)
    if negb (v_currentHMOVEPos v =? NO_HMOVE) then
      applyActiveHMOVEMotion v o hpos (Int16 (getActiveHPos hpos))
    else
      applyPreviousHMOVEMotion v o hpos (Int16 (getPreviousHPos hpos)) in
  if negb (newx =? myPos o) then handleRESChange newx o else o.

(** [cur] is [myTia.myCurrentHMOVEPos] at the scanline boundary. *)
Definition handlePendingMotions (cur : Z) (o : t) : t :=
  let o :=
    if negb (cur =? NO_HMOVE) && ((cur >=? 97) && (cur <? 157)) then
      let o := set_myPos (Int16 (myPos o - myMotionClock o)) o in
      if myPos o <? 0 then set_myPos (Int16 (myPos o + SCANLINE_PIXEL)) o else o
    else o in
  (* Apply extra clocks for 'more motion required/mmr' *)
  if myHMmmr o then
    let o := set_myPos (Int16 (myPos o - 17)) o in
    if myPos o <? 0 then set_myPos (Int16 (myPos o + SCANLINE_PIXEL)) o else o
  else o.

(** [HMCLR] reaches [handleHM(value)] with the 0 that [poke] passes;
    [handleHMOVE] is not virtual, so [HMOVE] runs the member of this
    class for every object. *)
Definition handleRegisterUpdate (v : TIAView) (addr : TIARegister)
    (value : Z) (o : t) : t :=
  match addr with
  | HMCLR => handleHM v value o
  | HMOVE => handleHMOVE v o
  | _ => o
  end.

End Moveable.


(** ** Lookup tables and enumeration values (TIATables)

    TIATables.hxx/.cxx are not part of the sources.  The tables and the
    numeric values of the enumerations that TIA.cxx reads are the fields of
    this record; every function below takes it as a parameter. *)

Record TIATables := mkTIATables
  { bitVal : TIABit -> Z                    (* enum TIABit *)
  ; cxVal : CollisionBit -> Z               (* enum CollisionBit (Cx_...) *)
  ; writeRegister : Z -> TIARegister        (* address (0..63) -> write register *)
  ; readRegister : Z -> TIAReadRegister     (* address (0..15) -> read register *)
  ; PokeDelay : Z -> Z                      (* TIATables::PokeDelay[64] *)
  ; HMOVEBlankEnableCycles : Z -> bool      (* TIATables::HMOVEBlankEnableCycles[76] *)
  ; PxPosResetWhen : Z -> Z -> Z -> Z       (* TIATables::PxPosResetWhen[8][160][160] *)
  ; GRPReflect : Z -> Z                     (* TIATables::GRPReflect[256] *)
  ; CollisionMask : Z -> Z                  (* TIATables::CollisionMask[64] *)
  }.

(** ** Playfield *)

Module Playfield.

Record t := mk
  { isEnabled : bool
  ; myCTRLPF : Z              (* uInt8 *)
  ; myPF : Z                  (* uInt32 (19-12:PF2 11-4:PF1 3-0:PF0) *)
  ; myPriorityAndScore : Z    (* uInt8 *)
  ; myMask : Z }.             (* index i of TIATables::PFMask[i] *)

Definition getPriorityAndScore (p : t) : Z := myPriorityAndScore p.

Definition reset (p : t) : t := mk (isEnabled p) 0 0 0 0.

Definition handleEnabled (value : Z) (p : t) : t :=
  mk (nonzero value) (myCTRLPF p) (myPF p) (myPriorityAndScore p) (myMask p).

Definition set_myPF (value : Z) (p : t) : t :=
  mk (isEnabled p) (myCTRLPF p) value (myPriorityAndScore p) (myMask p).

Definition handleCTRLPF (value : Z) (p : t) : t :=
  let ctrlpf := value in
  mk (isEnabled p) ctrlpf (myPF p)
     (uInt8 (Z.shiftl (Z.land ctrlpf 0x06) 5))
     (Z.land ctrlpf 0x01).

Definition handleRegisterUpdate (addr : TIARegister) (value : Z) (p : t) : t :=
  match addr with
  | CTRLPF => handleCTRLPF value p
  | PF0 =>
      let p := set_myPF (Z.lor (Z.land (myPF p) 0x000FFFF0)
                               (Z.land (Z.shiftr value 4) 0x0F)) p in
      handleEnabled (myPF p) p
  | PF1 =>
      let p := set_myPF (Z.lor (Z.land (myPF p) 0x000FF00F)
                               (uInt32 (Z.shiftl value 4))) p in
      handleEnabled (myPF p) p
  | PF2 =>
      let p := set_myPF (Z.lor (Z.land (myPF p) 0x00000FFF)
                               (uInt32 (Z.shiftl value 12))) p in
      handleEnabled (myPF p) p
  | _ => p
  end.

End Playfield.

(** ** AbstractPlayer, Player0, Player1 *)

Module Player.

Record t := mk
  { base : Moveable.t
  ; myGRP : Z               (* uInt8 *)
  ; myDGRP : Z              (* uInt8 *)
  ; myNUSIZ : Z             (* uInt8 *)
  ; myREFP : bool
  ; mySuppress : Z          (* uInt8 *)
  ; myCurrentGRP : Z        (* uInt8 *)
  ; myMask : Z * Z * Z * Z }.  (* indices of &TIATables::PxMask[a][b][c][d] *)

Definition eta (p : t) : t :=
  mk (base p) (myGRP p) (myDGRP p) (myNUSIZ p) (myREFP p) (mySuppress p)
     (myCurrentGRP p) (myMask p).

Definition set_base : Moveable.t -> t -> t := ltac:(build_setter eta base).
Definition set_myGRP : Z -> t -> t := ltac:(build_setter eta myGRP).
Definition set_myDGRP : Z -> t -> t := ltac:(build_setter eta myDGRP).
Definition set_myNUSIZ : Z -> t -> t := ltac:(build_setter eta myNUSIZ).
Definition set_myREFP : bool -> t -> t := ltac:(build_setter eta myREFP).
Definition set_mySuppress : Z -> t -> t := ltac:(build_setter eta mySuppress).
Definition set_myCurrentGRP : Z -> t -> t := ltac:(build_setter eta myCurrentGRP).
Definition set_myMask : Z * Z * Z * Z -> t -> t := ltac:(build_setter eta myMask).

Definition getPos (p : t) : Z := Moveable.myPos (base p).
Definition getMotionClock (p : t) : Z := Moveable.myMotionClock (base p).
Definition getSuppress (p : t) : Z := mySuppress p.

Definition reset (p : t) : t :=
  mk (Moveable.reset (base p)) 0 0 0 false 0 0 (0, 0, 0, 0).

Definition handleEnabled (value : Z) (p : t) : t :=
  set_base (Moveable.handleEnabled value (base p)) p.

Definition handleCurrentGRP (T : TIATables) (p : t) : t :=
  (* Get the "current" data for GRP based on delay register and reflect *)
  let grp0 := if Moveable.myVDEL (base p) then myDGRP p else myGRP p in
  set_myCurrentGRP (if myREFP p then uInt8 (GRPReflect T grp0) else grp0) p.

Definition handleGRP (T : TIATables) (value : Z) (p : t) : t :=
  let p := set_myGRP value p in
  let p := handleCurrentGRP T p in
  handleEnabled (myCurrentGRP p) p.

Definition handleDelayedGRP (T : TIATables) (value : Z) (p : t) : t :=
  let p := set_myDGRP (myGRP p) p in
  let p := handleCurrentGRP T p in
  handleEnabled (myCurrentGRP p) p.

Definition handleHMOVE (v : TIAView) (p : t) : t :=
  let p := set_base (Moveable.handleHMOVE v (base p)) p in
  set_mySuppress 0 p.

Definition handleNUSIZ (value : Z) (p : t) : t := set_myNUSIZ value p.

Definition handleREFP (T : TIATables) (value : Z) (p : t) : t :=
  let p := set_myREFP (nonzero (Z.land value 0x08)) p in
  handleCurrentGRP T p.

Definition handleVDEL (T : TIATables) (value : Z) (p : t) : t :=
  let p := set_base (Moveable.handleVDEL value (base p)) p in
  let p := handleCurrentGRP T p in
  handleEnabled (myCurrentGRP p) p.

Definition getActiveHPos (hpos : Z) : Z :=
  if hpos <? 7 then 3 else Z.rem (hpos + 5) SCANLINE_PIXEL.

Definition getPreviousHPos (hpos : Z) : Z :=
  if hpos <? -2 then 3 else Z.rem (hpos + 5) SCANLINE_PIXEL.

Definition handleRESChange (T : TIATables) (newx : Z) (p : t) : t :=
  (* Find out under what condition the player is being reset *)
  let delay := Int16 (PxPosResetWhen T (Z.land (myNUSIZ p) 7) (getPos p) newx) in
  let p :=
    if delay =? 1 then set_mySuppress 1 p
    else if delay =? 0 then set_mySuppress 1 p
    else if delay =? -1 then set_mySuppress 0 p
    else p in
  set_base (Moveable.handleRESChange newx (base p)) p.

Definition updateMask (p : t) : t :=
  set_myMask (Z.land (getPos p) 0x03, getSuppress p, Z.land (myNUSIZ p) 0x07,
              SCANLINE_PIXEL - Z.land (getPos p) 0xFC) p.

(** [AbstractPlayer::handleRegisterUpdate] *)
Definition handleRegisterUpdate (v : TIAView) (addr : TIARegister)
    (value : Z) (p : t) : t :=
  set_base (Moveable.handleRegisterUpdate v addr value (base p)) p.

Definition Player0_handleRegisterUpdate (T : TIATables) (v : TIAView)
    (addr : TIARegister) (value : Z) (p : t) : t :=
  let p := handleRegisterUpdate v addr value p in
  match addr with
  | HMP0 => set_base (Moveable.handleHM v value (base p)) p
  | GRP0 => handleGRP T value p
  | GRP1 => handleDelayedGRP T value p
  | NUSIZ0 => set_mySuppress 0 (handleNUSIZ value p)
  | REFP0 => handleREFP T value p
  | VDELP0 => handleVDEL T value p
  | _ => p
  end.

Definition Player1_handleRegisterUpdate (T : TIATables) (v : TIAView)
    (addr : TIARegister) (value : Z) (p : t) : t :=
  let p := handleRegisterUpdate v addr value p in
  match addr with
  | HMP1 => set_base (Moveable.handleHM v value (base p)) p
  | GRP1 => handleGRP T value p
  | GRP0 => handleDelayedGRP T value p
  | NUSIZ1 => set_mySuppress 0 (handleNUSIZ value p)
  | REFP1 => handleREFP T value p
  | VDELP1 => handleVDEL T value p
  | _ => p
  end.

End Player.

(** A pointer into the missile mask tables. *)
Inductive MissileMask :=
  | MxMask (a b c d : Z)      (* &TIATables::MxMask[a][b][c][d] *)
  | DisabledMask (i : Z).     (* &TIATables::DisabledMask[i] *)

(** ** AbstractParticle, AbstractMissile, Missile0, Missile1 *)

Module Missile.

Record t := mk
  { base : Moveable.t
  ; myENABLE : bool         (* AbstractParticle::myENABLE *)
  ; myNUSIZ : Z             (* uInt8 *)
  ; myRESMP : bool
  ; myMask : MissileMask }.

Definition eta (m : t) : t :=
  mk (base m) (myENABLE m) (myNUSIZ m) (myRESMP m) (myMask m).

Definition set_base : Moveable.t -> t -> t := ltac:(build_setter eta base).
Definition set_myENABLE : bool -> t -> t := ltac:(build_setter eta myENABLE).
Definition set_myNUSIZ : Z -> t -> t := ltac:(build_setter eta myNUSIZ).
Definition set_myRESMP : bool -> t -> t := ltac:(build_setter eta myRESMP).
Definition set_myMask : MissileMask -> t -> t := ltac:(build_setter eta myMask).

Definition getPos (m : t) : Z := Moveable.myPos (base m).

Definition reset (m : t) : t :=
  mk (Moveable.reset (base m)) false 0 false (MxMask 0 0 0 0).

(** [AbstractParticle::handleENABLE] *)
Definition handleENABLE (value : Z) (m : t) : t :=
  set_myENABLE (nonzero (Z.land value 0x02)) m.

(** [AbstractTIAObject::handleEnabled(myENABLE && !myRESMP)] *)
Definition handleEnabled (m : t) : t :=
  set_base (Moveable.set_isEnabled (myENABLE m && negb (myRESMP m)) (base m)) m.

Definition handleNUSIZ (value : Z) (m : t) : t := set_myNUSIZ value m.

(** [player] is [getMyPlayer()]. *)
Definition handleRESMP (v : TIAView) (player : Player.t) (value : Z) (m : t) : t :=
  let m :=
    if myRESMP m && negb (nonzero (Z.land value 0x02)) then
      let nusiz := Z.land (myNUSIZ m) 0x07 in
      let middle :=
        if nusiz =? 0x05 then 8          (* double size *)
        else if nusiz =? 0x07 then 16    (* quad size *)
        else 4 in
      let pos := Int16 (Player.getPos player + middle) in
      let pos :=
        if negb (v_currentHMOVEPos v =? NO_HMOVE) then
          let pos := Int16 (pos - (8 - Player.getMotionClock player)) in
          Int16 (pos + (8 - Moveable.myMotionClock (base m)))
        else pos in
      set_base (Moveable.set_myPos (CLAMP_POS pos) (base m)) m
    else m in
  set_myRESMP (nonzero (Z.land value 0x02)) m.

Definition getActiveHPos (hpos : Z) : Z :=
  if hpos <? 7 then 2 else Z.rem (hpos + 4) SCANLINE_PIXEL.

Definition getPreviousHPos (hpos : Z) : Z :=
  if hpos <? -1 then 2 else Z.rem (hpos + 4) SCANLINE_PIXEL.

Definition handleRES (v : TIAView) (m : t) : t :=
  set_base (Moveable.handleRES getActiveHPos getPreviousHPos v (base m)) m.

Definition updateMask (m : t) : t :=
  let pos := getPos m in
  let nusiz := myNUSIZ m in
  let plain :=
    MxMask (Z.land pos 0x03) (Z.land nusiz 0x07)
           (Z.shiftr (Z.land nusiz 0x30) 4)
           (SCANLINE_PIXEL - Z.land pos 0xFC) in
  if Moveable.myHMmmr (base m) then
    let r := Z.rem pos 4 in
    if r =? 3 then
      (* Stretch this missle so it's 2 pixels wide and shifted one pixel
         to the left *)
      set_myMask
        (MxMask (Z.land (pos - 1) 0x03) (Z.land nusiz 0x07)
                (Z.lor (Z.shiftr (Z.land nusiz 0x30) 4) 1)
                (SCANLINE_PIXEL - Z.land (pos - 1) 0xFC)) m
    else if r =? 2 then
      (* Missle is disabled on this line *)
      set_myMask (DisabledMask 0) m
    else set_myMask plain m
  else set_myMask plain m.

(** [AbstractMissile::handleRegisterUpdate], through AbstractParticle. *)
Definition handleRegisterUpdate (v : TIAView) (addr : TIARegister)
    (value : Z) (m : t) : t :=
  set_base (Moveable.handleRegisterUpdate v addr value (base m)) m.

Definition Missile0_handleRegisterUpdate (v : TIAView) (player : Player.t)
    (addr : TIARegister) (value : Z) (m : t) : t :=
  let m := handleRegisterUpdate v addr value m in
  match addr with
  | ENAM0 => handleEnabled (handleENABLE value m)
  | HMM0 => set_base (Moveable.handleHM v value (base m)) m
  | NUSIZ0 => handleNUSIZ value m
  | RESM0 => handleRES v m
  | RESMP0 => handleRESMP v player value m
  | _ => m
  end.

Definition Missile1_handleRegisterUpdate (v : TIAView) (player : Player.t)
    (addr : TIARegister) (value : Z) (m : t) : t :=
  let m := handleRegisterUpdate v addr value m in
  match addr with
  | ENAM1 => handleEnabled (handleENABLE value m)
  | HMM1 => set_base (Moveable.handleHM v value (base m)) m
  | NUSIZ1 => handleNUSIZ value m
  | RESM1 => handleRES v m
  | RESMP1 => handleRESMP v player value m
  | _ => m
  end.

End Missile.

(** ** Ball *)

Module Ball.

Record t := mk
  { base : Moveable.t
  ; myENABLE : bool         (* AbstractParticle::myENABLE *)
  ; myCTRLPF : Z            (* uInt8 *)
  ; myDENABLE : bool
  ; myCurrentEnabled : bool
  ; myMask : Z * Z * Z }.   (* indices of &TIATables::BLMask[a][b][c] *)

Definition eta (b : t) : t :=
  mk (base b) (myENABLE b) (myCTRLPF b) (myDENABLE b) (myCurrentEnabled b)
     (myMask b).

Definition set_base : Moveable.t -> t -> t := ltac:(build_setter eta base).
Definition set_myENABLE : bool -> t -> t := ltac:(build_setter eta myENABLE).
Definition set_myCTRLPF : Z -> t -> t := ltac:(build_setter eta myCTRLPF).
Definition set_myDENABLE : bool -> t -> t := ltac:(build_setter eta myDENABLE).
Definition set_myCurrentEnabled : bool -> t -> t :=
  ltac:(build_setter eta myCurrentEnabled).
Definition set_myMask : Z * Z * Z -> t -> t := ltac:(build_setter eta myMask).

Definition getPos (b : t) : Z := Moveable.myPos (base b).

Definition reset (b : t) : t :=
  mk (Moveable.reset (base b)) false 0 false false (0, 0, 0).

Definition handleENABLE (value : Z) (b : t) : t :=
  set_myENABLE (nonzero (Z.land value 0x02)) b.

Definition handleCurrentEnabled (b : t) : t :=
  let b := set_myCurrentEnabled
             (if Moveable.myVDEL (base b) then myDENABLE b else myENABLE b) b in
  set_base (Moveable.set_isEnabled (myCurrentEnabled b) (base b)) b.

Definition handleCTRLPF (value : Z) (b : t) : t := set_myCTRLPF value b.

Definition handleGRP1 (value : Z) (b : t) : t :=
  (* Copy ball graphics into its delayed register *)
  handleCurrentEnabled (set_myDENABLE (myENABLE b) b).

Definition getActiveHPos (hpos : Z) : Z :=
  if hpos <? 7 then 2 else Z.rem (hpos + 4) SCANLINE_PIXEL.

Definition getPreviousHPos (hpos : Z) : Z :=
  if hpos <? 0 then 2 else Z.rem (hpos + 4) SCANLINE_PIXEL.

Definition handleRES (v : TIAView) (b : t) : t :=
  set_base (Moveable.handleRES getActiveHPos getPreviousHPos v (base b)) b.

Definition updateMask (b : t) : t :=
  set_myMask (Z.land (getPos b) 0x03, Z.shiftr (Z.land (myCTRLPF b) 0x30) 4,
              SCANLINE_PIXEL - Z.land (getPos b) 0xFC) b.

Definition handleRegisterUpdate (v : TIAView) (addr : TIARegister)
    (value : Z) (b : t) : t :=
  let b := set_base (Moveable.handleRegisterUpdate v addr value (base b)) b in
  match addr with
  | CTRLPF => handleCTRLPF value b
  | ENABL => handleCurrentEnabled (handleENABLE value b)
  | GRP1 => handleGRP1 value b
  | HMBL => set_base (Moveable.handleHM v value (base b)) b
  | RESBL => handleRES v b
  | VDELBL =>
      handleCurrentEnabled
        (set_base (Moveable.handleVDEL value (base b)) b)
  | _ => b
  end.

End Ball.


(** ** The TIA state

    The members of class TIA that the modelled methods read or write, with the
    part of the host they talk to ([mySystem]): the cycle counter and the
    halt request to the CPU.  Frame buffers are maps from byte offset to byte;
    [myFramePointer] is kept as its offset from [myCurrentFrameBuffer].
    [myColorPtr] is kept as the flag "points at myFixedColor", and the table
    [myPriorityEncoder], which [toggleFixedColors] fills as a function of that
    flag, is recomputed where it is read ([priorityEncoder]).  [myFramerate]
    (a float) and the audio device are left out. *)

Definition FrameBuffer := Z -> Z.

Record TIA := mkTIA
  { sys_cycles : Z                   (* mySystem->cycles(), uInt32 *)
  ; sys_stopped : bool               (* mySystem->m6502().stop() was called *)
  ; myCurrentFrameBuffer : FrameBuffer
  ; myPreviousFrameBuffer : FrameBuffer
  ; myFramePointer : Z
  ; myFramePointerOffset : Z         (* uInt32 *)
  ; myFramePointerClocks : Z         (* uInt32 *)
  ; myFrameYStart : Z                (* uInt32 *)
  ; myFrameHeight : Z                (* uInt32 *)
  ; myStopDisplayOffset : Z          (* uInt32 *)
  ; myClockWhenFrameStarted : Z      (* Int32 *)
  ; myClockStartDisplay : Z          (* Int32 *)
  ; myClockStopDisplay : Z           (* Int32 *)
  ; myClockAtLastUpdate : Z          (* Int32 *)
  ; myClocksToEndOfScanLine : Z      (* Int32 *)
  ; myScanlineCountForLastFrame : Z  (* uInt32 *)
  ; myMaximumNumberOfScanlines : Z   (* uInt32 *)
  ; myStartScanline : Z              (* uInt32 *)
  ; myVSYNCFinishClock : Z           (* Int32 *)
  ; myVSYNC : Z                      (* uInt8 *)
  ; myVBLANK : Z                     (* uInt8 *)
  ; myColor : Z -> Z                 (* uInt32 myColor[8] *)
  ; myFixedColor : Z -> Z            (* uInt32 myFixedColor[8] *)
  ; myColorPtrIsFixed : bool         (* myColorPtr == myFixedColor *)
  ; myCollision : Z                  (* uInt16 *)
  ; myCollisionEnabledMask : Z       (* uInt32 *)
  ; myDumpDisabledCycle : Z          (* Int32 *)
  ; myDumpEnabled : bool
  ; myINPT4 : Z                      (* uInt8 *)
  ; myINPT5 : Z                      (* uInt8 *)
  ; myHMOVEBlankEnabled : bool
  ; myAllowHMOVEBlanks : bool
  ; myTIAPinsDriven : bool
  ; myDisabledObjects : Z            (* uInt8 *)
  ; myColorLossEnabled : bool
  ; myPartialFrameFlag : bool
  ; myAutoFrameEnabled : bool
  ; myFrameCounter : Z               (* uInt32 *)
  ; myPALFrameCounter : Z            (* uInt32 *)
  ; myBitsEnabled : bool
  ; myCollisionsEnabled : bool
  ; myCurrentHMOVEPos : Z            (* Int32 *)
  ; myPreviousHMOVEPos : Z           (* Int32 *)
  ; myPlayer0 : Player.t
  ; myPlayer1 : Player.t
  ; myMissile0 : Missile.t
  ; myMissile1 : Missile.t
  ; myBall : Ball.t
  ; myPlayfield : Playfield.t }.

Definition eta_TIA (s : TIA) : TIA :=
  mkTIA (sys_cycles s) (sys_stopped s) (myCurrentFrameBuffer s)
    (myPreviousFrameBuffer s) (myFramePointer s) (myFramePointerOffset s)
    (myFramePointerClocks s) (myFrameYStart s) (myFrameHeight s)
    (myStopDisplayOffset s) (myClockWhenFrameStarted s) (myClockStartDisplay s)
    (myClockStopDisplay s) (myClockAtLastUpdate s) (myClocksToEndOfScanLine s)
    (myScanlineCountForLastFrame s) (myMaximumNumberOfScanlines s)
    (myStartScanline s) (myVSYNCFinishClock s) (myVSYNC s) (myVBLANK s)
    (myColor s) (myFixedColor s) (myColorPtrIsFixed s) (myCollision s)
    (myCollisionEnabledMask s) (myDumpDisabledCycle s) (myDumpEnabled s)
    (myINPT4 s) (myINPT5 s) (myHMOVEBlankEnabled s) (myAllowHMOVEBlanks s)
    (myTIAPinsDriven s) (myDisabledObjects s) (myColorLossEnabled s)
    (myPartialFrameFlag s) (myAutoFrameEnabled s) (myFrameCounter s)
    (myPALFrameCounter s) (myBitsEnabled s) (myCollisionsEnabled s)
    (myCurrentHMOVEPos s) (myPreviousHMOVEPos s) (myPlayer0 s) (myPlayer1 s)
    (myMissile0 s) (myMissile1 s) (myBall s) (myPlayfield s).

Definition set_sys_cycles : Z -> TIA -> TIA := ltac:(build_setter eta_TIA sys_cycles).
Definition set_sys_stopped : bool -> TIA -> TIA := ltac:(build_setter eta_TIA sys_stopped).
Definition set_myCurrentFrameBuffer : FrameBuffer -> TIA -> TIA :=
  ltac:(build_setter eta_TIA myCurrentFrameBuffer).
Definition set_myPreviousFrameBuffer : FrameBuffer -> TIA -> TIA :=
  ltac:(build_setter eta_TIA myPreviousFrameBuffer).
Definition set_myFramePointer : Z -> TIA -> TIA := ltac:(build_setter eta_TIA myFramePointer).
Definition set_myFramePointerOffset : Z -> TIA -> TIA :=
  ltac:(build_setter eta_TIA myFramePointerOffset).
Definition set_myFramePointerClocks : Z -> TIA -> TIA :=
  ltac:(build_setter eta_TIA myFramePointerClocks).
Definition set_myStopDisplayOffset : Z -> TIA -> TIA :=
  ltac:(build_setter eta_TIA myStopDisplayOffset).
Definition set_myClockWhenFrameStarted : Z -> TIA -> TIA :=
  ltac:(build_setter eta_TIA myClockWhenFrameStarted).
Definition set_myClockStartDisplay : Z -> TIA -> TIA :=
  ltac:(build_setter eta_TIA myClockStartDisplay).
Definition set_myClockStopDisplay : Z -> TIA -> TIA :=
  ltac:(build_setter eta_TIA myClockStopDisplay).
Definition set_myClockAtLastUpdate : Z -> TIA -> TIA :=
  ltac:(build_setter eta_TIA myClockAtLastUpdate).
Definition set_myClocksToEndOfScanLine : Z -> TIA -> TIA :=
  ltac:(build_setter eta_TIA myClocksToEndOfScanLine).
Definition set_myScanlineCountForLastFrame : Z -> TIA -> TIA :=
  ltac:(build_setter eta_TIA myScanlineCountForLastFrame).
Definition set_myMaximumNumberOfScanlines : Z -> TIA -> TIA :=
  ltac:(build_setter eta_TIA myMaximumNumberOfScanlines).
Definition set_myStartScanline : Z -> TIA -> TIA := ltac:(build_setter eta_TIA myStartScanline).
Definition set_myVSYNCFinishClock : Z -> TIA -> TIA :=
  ltac:(build_setter eta_TIA myVSYNCFinishClock).
Definition set_myVSYNC : Z -> TIA -> TIA := ltac:(build_setter eta_TIA myVSYNC).
Definition set_myVBLANK : Z -> TIA -> TIA := ltac:(build_setter eta_TIA myVBLANK).
Definition set_myColor : (Z -> Z) -> TIA -> TIA := ltac:(build_setter eta_TIA myColor).
Definition set_myFixedColor : (Z -> Z) -> TIA -> TIA := ltac:(build_setter eta_TIA myFixedColor).
Definition set_myColorPtrIsFixed : bool -> TIA -> TIA :=
  ltac:(build_setter eta_TIA myColorPtrIsFixed).
Definition set_myCollision : Z -> TIA -> TIA := ltac:(build_setter eta_TIA myCollision).
Definition set_myCollisionEnabledMask : Z -> TIA -> TIA :=
  ltac:(build_setter eta_TIA myCollisionEnabledMask).
Definition set_myDumpDisabledCycle : Z -> TIA -> TIA :=
  ltac:(build_setter eta_TIA myDumpDisabledCycle).
Definition set_myDumpEnabled : bool -> TIA -> TIA := ltac:(build_setter eta_TIA myDumpEnabled).
Definition set_myINPT4 : Z -> TIA -> TIA := ltac:(build_setter eta_TIA myINPT4).
Definition set_myINPT5 : Z -> TIA -> TIA := ltac:(build_setter eta_TIA myINPT5).
Definition set_myHMOVEBlankEnabled : bool -> TIA -> TIA :=
  ltac:(build_setter eta_TIA myHMOVEBlankEnabled).
Definition set_myAllowHMOVEBlanks : bool -> TIA -> TIA :=
  ltac:(build_setter eta_TIA myAllowHMOVEBlanks).
Definition set_myTIAPinsDriven : bool -> TIA -> TIA :=
  ltac:(build_setter eta_TIA myTIAPinsDriven).
Definition set_myDisabledObjects : Z -> TIA -> TIA :=
  ltac:(build_setter eta_TIA myDisabledObjects).
Definition set_myColorLossEnabled : bool -> TIA -> TIA :=
  ltac:(build_setter eta_TIA myColorLossEnabled).
Definition set_myPartialFrameFlag : bool -> TIA -> TIA :=
  ltac:(build_setter eta_TIA myPartialFrameFlag).
Definition set_myAutoFrameEnabled : bool -> TIA -> TIA :=
  ltac:(build_setter eta_TIA myAutoFrameEnabled).
Definition set_myFrameCounter : Z -> TIA -> TIA := ltac:(build_setter eta_TIA myFrameCounter).
Definition set_myPALFrameCounter : Z -> TIA -> TIA :=
  ltac:(build_setter eta_TIA myPALFrameCounter).
Definition set_myBitsEnabled : bool -> TIA -> TIA := ltac:(build_setter eta_TIA myBitsEnabled).
Definition set_myCollisionsEnabled : bool -> TIA -> TIA :=
  ltac:(build_setter eta_TIA myCollisionsEnabled).
Definition set_myCurrentHMOVEPos : Z -> TIA -> TIA :=
  ltac:(build_setter eta_TIA myCurrentHMOVEPos).
Definition set_myPreviousHMOVEPos : Z -> TIA -> TIA :=
  ltac:(build_setter eta_TIA myPreviousHMOVEPos).
Definition set_myPlayer0 : Player.t -> TIA -> TIA := ltac:(build_setter eta_TIA myPlayer0).
Definition set_myPlayer1 : Player.t -> TIA -> TIA := ltac:(build_setter eta_TIA myPlayer1).
Definition set_myMissile0 : Missile.t -> TIA -> TIA := ltac:(build_setter eta_TIA myMissile0).
Definition set_myMissile1 : Missile.t -> TIA -> TIA := ltac:(build_setter eta_TIA myMissile1).
Definition set_myBall : Ball.t -> TIA -> TIA := ltac:(build_setter eta_TIA myBall).
Definition set_myPlayfield : Playfield.t -> TIA -> TIA := ltac:(build_setter eta_TIA myPlayfield).

(** ** The environment: tables and the members defined outside TIA.cxx

    [getEnabled(hpos)] of the playfield and of the moveable objects is
    declared in TIA.hxx and called by [updateFrame]; its definition is not
    part of the sources.  The analog ports of the controllers and the
    resistance bounds come from Control.hxx. *)

Record Env := mkEnv
  { tables :> TIATables
  ; colorIndex : TIAColor -> Z       (* enum TIAColor, index into myColor *)
  ; Playfield_getEnabled : Playfield.t -> Z -> Z
  ; Player0_getEnabled : Player.t -> Z -> Z
  ; Player1_getEnabled : Player.t -> Z -> Z
  ; Missile0_getEnabled : Missile.t -> Z -> Z
  ; Missile1_getEnabled : Missile.t -> Z -> Z
  ; Ball_getEnabled : Ball.t -> Z -> Z
  ; minimumResistance : Z            (* Controller::minimumResistance *)
  ; maximumResistance : Z }.         (* Controller::maximumResistance *)

(** What the host supplies to one [peek] or [poke]. *)
Record BusInputs := mkBusInputs
  { in_dataBus : Z              (* mySystem->getDataBusState() *)
  ; in_dataBusDriven : Z        (* mySystem->getDataBusState(0xFF) *)
  ; in_lastAccessWasRead : bool (* mySystem->m6502().lastAccessWasRead() *)
  ; in_leftNine : Z             (* controller(Left).read(Nine), a resistance *)
  ; in_leftFive : Z
  ; in_rightNine : Z
  ; in_rightFive : Z
  ; in_leftSix : bool           (* controller(Left).read(Six) *)
  ; in_rightSix : bool
  ; in_needed : Z -> Z }.       (* (uInt32)(1.216e-6 * resistance *
                                   myScanlineCountForLastFrame * myFramerate),
                                   a floating-point product *)

(** ** Clock model *)

(** [Int32 clock = mySystem->cycles() * PIXEL_CLOCKS] *)
Definition colorClock (s : TIA) : Z :=
  Int32 (uInt32 (sys_cycles s * PIXEL_CLOCKS)).

Definition viewOf (s : TIA) : TIAView :=
  mkTIAView (colorClock s) (myClockWhenFrameStarted s) (myCurrentHMOVEPos s)
            (myPreviousHMOVEPos s).

(** [hpos] as [poke] and the objects compute it at a register write. *)
Definition hposOf (s : TIA) : Z :=
  hposAt (colorClock s) (myClockWhenFrameStarted s).

Definition clocksThisLine (s : TIA) : Z :=
  uInt32 (sys_cycles s * PIXEL_CLOCKS - myClockWhenFrameStarted s)
    mod SCANLINE_CLOCKS.

Definition scanlines (s : TIA) : Z :=
  uInt32 (sys_cycles s * PIXEL_CLOCKS - myClockWhenFrameStarted s)
    / SCANLINE_CLOCKS.

Definition partialFrame (s : TIA) : bool := myPartialFrameFlag s.

(** ** Object and collision switches *)

Definition toggleBit (T : TIATables) (b : TIABit) (mode : Z) (s : TIA)
  : bool * TIA :=
  let bv := bitVal T b in
  let on := if (mode =? 0) || (mode =? 1) then nonzero mode
            else negb (nonzero (Z.land (myDisabledObjects s) bv)) in
  (on,
   if on then set_myDisabledObjects (uInt8 (Z.lor (myDisabledObjects s) bv)) s
   else set_myDisabledObjects (uInt8 (Z.land (myDisabledObjects s) (Z.lnot bv))) s).

Definition enableBits (T : TIATables) (mode : bool) (s : TIA) : TIA :=
  let m := if mode then 1 else 0 in
  let s := snd (toggleBit T P0Bit m s) in
  let s := snd (toggleBit T P1Bit m s) in
  let s := snd (toggleBit T M0Bit m s) in
  let s := snd (toggleBit T M1Bit m s) in
  let s := snd (toggleBit T BLBit m s) in
  snd (toggleBit T PFBit m s).

Definition cxOr (T : TIATables) (l : list CollisionBit) : Z :=
  fold_right (fun c acc => Z.lor (cxVal T c) acc) 0 l.

(** The collision bits [toggleCollision] removes for a disabled object. *)
Definition cxOf (b : TIABit) : list CollisionBit :=
  match b with
  | P0Bit => [Cx_M0P0; Cx_M1P0; Cx_P0PF; Cx_P0BL; Cx_P0P1]
  | P1Bit => [Cx_M0P1; Cx_M1P1; Cx_P1PF; Cx_P1BL; Cx_P0P1]
  | M0Bit => [Cx_M0P0; Cx_M0P1; Cx_M0PF; Cx_M0BL; Cx_M0M1]
  | M1Bit => [Cx_M1P0; Cx_M1P1; Cx_M1PF; Cx_M1BL; Cx_M0M1]
  | BLBit => [Cx_P0BL; Cx_P1BL; Cx_M0BL; Cx_M1BL; Cx_BLPF]
  | PFBit => [Cx_P0PF; Cx_P1PF; Cx_M0PF; Cx_M1PF; Cx_BLPF]
  | _ => []
  end.

(** [if(!(enabled & b)) mask &= ~(...)] *)
Definition maskOut (T : TIATables) (enabled : Z) (b : TIABit) (mask : Z) : Z :=
  if negb (nonzero (Z.land enabled (bitVal T b)))
  then uInt16 (Z.land mask (Z.lnot (cxOr T (cxOf b))))
  else mask.

Definition toggleCollision (T : TIATables) (b : TIABit) (mode : Z) (s : TIA)
  : bool * TIA :=
  let bv := bitVal T b in
  let enabled := uInt16 (Z.shiftr (myCollisionEnabledMask s) 16) in
  let on := if (mode =? 0) || (mode =? 1) then nonzero mode
            else negb (nonzero (Z.land enabled bv)) in
  let enabled := if on then uInt16 (Z.lor enabled bv)
                 else uInt16 (Z.land enabled (Z.lnot bv)) in
  (* Assume all collisions are on, then selectively turn the desired ones off *)
  let mask := 0xffff in
  let mask := maskOut T enabled P0Bit mask in
  let mask := maskOut T enabled P1Bit mask in
  let mask := maskOut T enabled M0Bit mask in
  let mask := maskOut T enabled M1Bit mask in
  let mask := maskOut T enabled BLBit mask in
  let mask := maskOut T enabled PFBit mask in
  (* Now combine the masks *)
  (on, set_myCollisionEnabledMask (uInt32 (Z.lor (Z.shiftl enabled 16) mask)) s).

Definition enableCollisions (T : TIATables) (mode : bool) (s : TIA) : TIA :=
  let m := if mode then 1 else 0 in
  let s := snd (toggleCollision T P0Bit m s) in
  let s := snd (toggleCollision T P1Bit m s) in
  let s := snd (toggleCollision T M0Bit m s) in
  let s := snd (toggleCollision T M1Bit m s) in
  let s := snd (toggleCollision T BLBit m s) in
  snd (toggleCollision T PFBit m s).

Definition toggleFixedColors (mode : Z) (s : TIA) : bool * TIA :=
  let on := if (mode =? 0) || (mode =? 1) then nonzero mode
            else negb (myColorPtrIsFixed s) in
  (on, set_myColorPtrIsFixed on s).

(** [myPriorityEncoder[x][enabled]] as [toggleFixedColors(on)] fills it. *)
Definition priorityEncoder (T : TIATables) (on : bool) (x enabled : Z) : TIAColor :=
  let has b := nonzero (Z.land enabled (bitVal T b)) in
  if has PriorityBit then
    (* Priority from highest to lowest: PF/BL => P0/M0 => P1/M1 => BK *)
    let color := BKColor in
    let color := if has M1Bit then M1Color else color in
    let color := if has P1Bit then P1Color else color in
    let color := if has M0Bit then M0Color else color in
    let color := if has P0Bit then P0Color else color in
    let color := if has BLBit then BLColor else color in
    if has PFBit then PFColor else color
  else
    (* Priority from highest to lowest: P0/M0 => P1/M1 => PF/BL => BK *)
    let color := BKColor in
    let color := if has BLBit then BLColor else color in
    let color :=
      if has PFBit then
        if negb on && has ScoreBit
        then (if x =? 0 then P0Color else P1Color)
        else PFColor
      else color in
    let color := if has M1Bit then M1Color else color in
    let color := if has P1Bit then P1Color else color in
    let color := if has M0Bit then M0Color else color in
    if has P0Bit then P0Color else color.


(** ** The catch-up renderer *)

(** [memset(buffer + off, c, n)] *)
Definition memset (fb : FrameBuffer) (off c n : Z) : FrameBuffer :=
  fun i => if (off <=? i) && (i <? off + n) then uInt8 c else fb i.

(** [*(buffer + off) = c] *)
Definition store (fb : FrameBuffer) (off c : Z) : FrameBuffer :=
  fun i => if i =? off then uInt8 c else fb i.

(** [myColorPtr[c]] *)
Definition colorPtr (E : Env) (s : TIA) (c : TIAColor) : Z :=
  if myColorPtrIsFixed s then myFixedColor s (colorIndex E c)
  else myColor s (colorIndex E c).

(** The objects enabled at [hpos], OR-ed in the order of [updateFrame]. *)
Definition enabledAt (E : Env) (s : TIA) (hpos : Z) : Z :=
  let enabled := uInt8 (Playfield_getEnabled E (myPlayfield s) hpos) in
  let enabled := uInt8 (Z.lor enabled (Ball_getEnabled E (myBall s) hpos)) in
  let enabled := uInt8 (Z.lor enabled (Player1_getEnabled E (myPlayer1 s) hpos)) in
  let enabled := uInt8 (Z.lor enabled (Missile1_getEnabled E (myMissile1 s) hpos)) in
  let enabled := uInt8 (Z.lor enabled (Player0_getEnabled E (myPlayer0 s) hpos)) in
  uInt8 (Z.lor enabled (Missile0_getEnabled E (myMissile0 s) hpos)).

(** One turn of [for(; myFramePointer < ending; ++myFramePointer, ++hpos)]. *)
Definition drawPixel (E : Env) (hpos : Z) (s : TIA) : TIA :=
  let enabled := enabledAt E s hpos in
  let s := set_myCollision
             (uInt16 (Z.lor (myCollision s) (CollisionMask E enabled))) s in
  let x := if hpos <? SCANLINE_PIXEL / 2 then 0 else 1 in
  let color :=
    priorityEncoder E (myColorPtrIsFixed s) x
      (uInt8 (Z.lor enabled (Playfield.getPriorityAndScore (myPlayfield s)))) in
  let s := set_myCurrentFrameBuffer
             (store (myCurrentFrameBuffer s) (myFramePointer s)
                    (colorPtr E s color)) s in
  set_myFramePointer (myFramePointer s + 1) s.

Fixpoint drawPixels (E : Env) (n : nat) (hpos : Z) (s : TIA) : TIA :=
  match n with
  | O => s
  | S n' => drawPixels E n' (uInt32 (hpos + 1)) (drawPixel E hpos s)
  end.

Definition updateMasks (s : TIA) : TIA :=
  let s := set_myPlayer0 (Player.updateMask (myPlayer0 s)) s in
  let s := set_myPlayer1 (Player.updateMask (myPlayer1 s)) s in
  let s := set_myMissile0 (Missile.updateMask (myMissile0 s)) s in
  let s := set_myMissile1 (Missile.updateMask (myMissile1 s)) s in
  set_myBall (Ball.updateMask (myBall s)) s.

(** [handlePendingMotions] of the five moveable objects, each reading
    [myTia.myCurrentHMOVEPos]. *)
Definition handlePendingMotions (s : TIA) : TIA :=
  let cur := myCurrentHMOVEPos s in
  let onP p := Player.set_base (Moveable.handlePendingMotions cur (Player.base p)) p in
  let onM m := Missile.set_base (Moveable.handlePendingMotions cur (Missile.base m)) m in
  let onB b := Ball.set_base (Moveable.handlePendingMotions cur (Ball.base b)) b in
  let s := set_myPlayer0 (onP (myPlayer0 s)) s in
  let s := set_myPlayer1 (onP (myPlayer1 s)) s in
  let s := set_myMissile0 (onM (myMissile0 s)) s in
  let s := set_myMissile1 (onM (myMissile1 s)) s in
  set_myBall (onB (myBall s)) s.

(** The [if(line != startLine)] block of [updateFrame]. *)
Definition scanlineBoundary (s : TIA) : TIA :=
  (* We're no longer concerned with previously issued HMOVE's *)
  let s := set_myPreviousHMOVEPos NO_HMOVE s in
  (* Apply pending motion clocks from a HMOVE initiated during the scanline *)
  let s := handlePendingMotions s in
  if negb (myCurrentHMOVEPos s =? NO_HMOVE) then
    let s :=
      if (myCurrentHMOVEPos s >=? 97) && (myCurrentHMOVEPos s <? 157)
      then set_myPreviousHMOVEPos (myCurrentHMOVEPos s) s
      else s in
    (* Indicate that the HMOVE has been completed *)
    set_myCurrentHMOVEPos NO_HMOVE s
  else s.

(** The body of [for(uInt32 line = startLine; line <= endLine; ++line)] is
    [updateLine]; its statements are grouped into the five steps below. *)

(** How many clocks this turn covers, and the clock bookkeeping. *)
Definition lineClocks (clock : Z) (s : TIA) : Z * TIA :=
  (* See if we're updating more than the current scanline *)
  if clock >? myClockAtLastUpdate s + myClocksToEndOfScanLine s then
    (* Yes, we have more than one scanline to update so finish current one *)
    let clocksToUpdate := myClocksToEndOfScanLine s in
    let s := set_myClocksToEndOfScanLine SCANLINE_CLOCKS s in
    (clocksToUpdate, set_myClockAtLastUpdate (myClockAtLastUpdate s + clocksToUpdate) s)
  else
    (* No, so do as much of the current scanline as possible *)
    let clocksToUpdate := clock - myClockAtLastUpdate s in
    let s := set_myClocksToEndOfScanLine (myClocksToEndOfScanLine s - clocksToUpdate) s in
    (clocksToUpdate, set_myClockAtLastUpdate clock s).

(** Skip over as many horizontal blank clocks as we can; the result is the
    new [(clocksFromStartOfScanLine, clocksToUpdate)]. *)
Definition skipHBlank (clocksFromStartOfScanLine clocksToUpdate : Z) : Z * Z :=
  let startOfScanLine := HBLANK_CLOCKS in
  if clocksFromStartOfScanLine <? startOfScanLine then
    let tmp :=
      if startOfScanLine - clocksFromStartOfScanLine <? clocksToUpdate
      then uInt32 (startOfScanLine - clocksFromStartOfScanLine)
      else uInt32 clocksToUpdate in
    (Int32 (uInt32 (clocksFromStartOfScanLine + tmp)),
     Int32 (uInt32 (clocksToUpdate - tmp)))
  else (clocksFromStartOfScanLine, clocksToUpdate).

(** Update as much of the scanline as we can. *)
Definition renderClocks (E : Env) (clocksFromStartOfScanLine clocksToUpdate : Z)
    (s : TIA) : TIA :=
  if negb (clocksToUpdate =? 0) then
    (* Calculate the ending frame pointer value *)
    let ending := myFramePointer s + clocksToUpdate in
    let s := set_myFramePointerClocks
               (uInt32 (myFramePointerClocks s + clocksToUpdate)) s in
    let s :=
      (* See if we're in the vertical blank region *)
      if nonzero (Z.land (myVBLANK s) 0x02) then
        set_myCurrentFrameBuffer
          (memset (myCurrentFrameBuffer s) (myFramePointer s) 0 clocksToUpdate) s
      else
        let s := updateMasks s in
        drawPixels E (Z.to_nat (ending - myFramePointer s))
          (uInt32 (clocksFromStartOfScanLine - HBLANK_CLOCKS)) s in
    set_myFramePointer ending s
  else s.

(** Handle HMOVE blanks if they are enabled. *)
Definition hmoveBlanks (E : Env)
    (oldFramePointer clocksFromStartOfScanLine clocksToUpdate : Z) (s : TIA) : TIA :=
  let startOfScanLine := HBLANK_CLOCKS in
  if myHMOVEBlankEnabled s && (startOfScanLine <? HBLANK_CLOCKS + 8)
     && (clocksFromStartOfScanLine <? HBLANK_CLOCKS + 8) then
    let blanks := HBLANK_CLOCKS + 8 - clocksFromStartOfScanLine in
    let s := set_myCurrentFrameBuffer
               (memset (myCurrentFrameBuffer s) oldFramePointer
                       (colorPtr E s HBLANKColor) blanks) s in
    if clocksToUpdate + clocksFromStartOfScanLine >=? HBLANK_CLOCKS + 8
    then set_myHMOVEBlankEnabled false s
    else s
  else s.

(** See if we're at the end of a scanline. *)
Definition endOfScanline (s : TIA) : TIA :=
  if myClocksToEndOfScanLine s =? SCANLINE_CLOCKS then
    let s := set_myPlayer1 (Player.set_mySuppress 0 (myPlayer1 s)) s in
    set_myPlayer0 (Player.set_mySuppress 0 (myPlayer0 s)) s
  else s.

(** [first] is [line == startLine] and [clock] the truncated target. *)
Definition updateLine (E : Env) (first : bool) (clock : Z) (s : TIA) : TIA :=
  (* Only check for inter-line changes after the current scanline *)
  let s := if first then s else scanlineBoundary s in
  (* Remember how many clocks we are from the left side of the screen *)
  let clocksFromStartOfScanLine := SCANLINE_CLOCKS - myClocksToEndOfScanLine s in
  let '(clocksToUpdate, s) := lineClocks clock s in
  let '(clocksFromStartOfScanLine, clocksToUpdate) :=
    skipHBlank clocksFromStartOfScanLine clocksToUpdate in
  (* Remember frame pointer in case HMOVE blanks need to be handled *)
  let oldFramePointer := myFramePointer s in
  let s := renderClocks E clocksFromStartOfScanLine clocksToUpdate s in
  let s := hmoveBlanks E oldFramePointer clocksFromStartOfScanLine clocksToUpdate s in
  endOfScanline s.

Fixpoint updateLines (E : Env) (n : nat) (first : bool) (clock : Z) (s : TIA)
  : TIA :=
  match n with
  | O => s
  | S n' => updateLines E n' false clock (updateLine E first clock s)
  end.

Definition updateFrame (E : Env) (clock : Z) (s : TIA) : TIA :=
  (* See if we've already updated this portion of the screen *)
  if (clock <? myClockStartDisplay s)
     || (myClockAtLastUpdate s >=? myClockStopDisplay s)
     || (myClockAtLastUpdate s >=? clock)
  then s
  else
    (* Truncate the number of cycles to update to the stop display point *)
    let clock := if clock >? myClockStopDisplay s
                 then myClockStopDisplay s else clock in
    (* Determine how many scanlines to process *)
    let startLine :=
      uInt32 (Z.quot (myClockAtLastUpdate s - myClockWhenFrameStarted s)
                     SCANLINE_CLOCKS) in
    let endLine :=
      uInt32 (Z.quot (clock - myClockWhenFrameStarted s) SCANLINE_CLOCKS) in
    (* Update frame one scanline at a time *)
    updateLines E (Z.to_nat (endLine - startLine + 1)) true clock s.


(** ** Frame controller *)

(** [a[i] = v] on an array kept as an index function. *)
Definition arraySet (a : Z -> Z) (i v : Z) : Z -> Z :=
  fun j => if j =? i then v else a j.

Definition arraySetAll (E : Env) (a : Z -> Z) (cs : list TIAColor)
    (f : Z -> Z) : Z -> Z :=
  fold_left (fun a c => arraySet a (colorIndex E c) (f (a (colorIndex E c)))) cs a.

(** The settings and console values [reset] and [frameReset] query. *)
Record HostConfig := mkHostConfig
  { cfg_tiadriven : bool          (* mySettings.getBool("tiadriven") *)
  ; cfg_framerate : Z             (* mySettings.getInt("framerate") *)
  ; cfg_consoleAbove55 : bool     (* myConsole.getFramerate() > 55.0 *)
  ; cfg_colorloss : bool }.       (* mySettings.getBool("colorloss") *)

Definition clearBuffers (s : TIA) : TIA :=
  let s := set_myCurrentFrameBuffer
             (memset (myCurrentFrameBuffer s) 0 0 BUFFER_SIZE) s in
  set_myPreviousFrameBuffer
    (memset (myPreviousFrameBuffer s) 0 0 BUFFER_SIZE) s.

Definition frameReset (E : Env) (cfg : HostConfig) (s : TIA) : TIA :=
  (* Clear frame buffers *)
  let s := clearBuffers s in
  (* Reset pixel pointer and drawing flag *)
  let s := set_myFramePointer 0 s in
  let s := set_myFramePointerOffset (uInt32 (SCANLINE_PIXEL * myFrameYStart s)) s in
  let s := set_myAutoFrameEnabled (cfg_framerate cfg <=? 0) s in
  let fixed vs :=
    fold_left (fun a cv => arraySet a (colorIndex E (fst cv)) (snd cv)) vs
              (myFixedColor s) in
  let s :=
    if cfg_consoleAbove55 cfg then  (* NTSC *)
      let s := set_myFixedColor
        (fixed [(P0Color, 0x30303030); (P1Color, 0x16161616);
                (M0Color, 0x38383838); (M1Color, 0x12121212);
                (BLColor, 0x7e7e7e7e); (PFColor, 0x76767676);
                (BKColor, 0x0a0a0a0a); (HBLANKColor, 0x0e0e0e0e)]) s in
      let s := set_myColorLossEnabled false s in
      set_myMaximumNumberOfScanlines 290 s
    else
      let s := set_myFixedColor
        (fixed [(P0Color, 0x62626262); (P1Color, 0x26262626);
                (M0Color, 0x68686868); (M1Color, 0x2e2e2e2e);
                (BLColor, 0xdededede); (PFColor, 0xd8d8d8d8);
                (BKColor, 0x1c1c1c1c); (HBLANKColor, 0x0e0e0e0e)]) s in
      let s := set_myColorLossEnabled (cfg_colorloss cfg) s in
      set_myMaximumNumberOfScanlines 342 s in
  (* NTSC screens will process at least 262 scanlines, while PAL will have
     at least 312; in any event, at most 320 lines can be processed *)
  let scanlines := uInt32 (myFrameYStart s + myFrameHeight s) in
  let scanlines :=
    if myMaximumNumberOfScanlines s =? 290
    then Z.max scanlines 262 else Z.max scanlines 312 in
  let s := set_myStopDisplayOffset
             (uInt32 (SCANLINE_CLOCKS * Z.min scanlines BUFFER_LINES)) s in
  (* Reasonable values to start and stop the current frame drawing *)
  let s := set_myClockWhenFrameStarted (colorClock s) s in
  let s := set_myClockStartDisplay (myClockWhenFrameStarted s) s in
  let s := set_myClockStopDisplay
             (Int32 (uInt32 (myClockWhenFrameStarted s + myStopDisplayOffset s))) s in
  let s := set_myClockAtLastUpdate (myClockWhenFrameStarted s) s in
  let s := set_myClocksToEndOfScanLine SCANLINE_CLOCKS s in
  set_myVSYNCFinishClock NO_HMOVE s.

Definition allColors : list TIAColor :=
  [P0Color; P1Color; PFColor; BKColor; M0Color; M1Color; BLColor; HBLANKColor].

Definition reset (E : Env) (cfg : HostConfig) (s : TIA) : TIA :=
  (* Currently no objects are selectively disabled *)
  let s := set_myDisabledObjects 0xFF s in
  let s := set_myAllowHMOVEBlanks true s in
  (* Some default values for the registers *)
  let s := set_myVSYNC 0 s in
  let s := set_myVBLANK 0 s in
  let s := set_myColor (arraySetAll E (myColor s) allColors (fun _ => 0)) s in
  let s := set_myCollision 0 s in
  let s := set_myCollisionEnabledMask 0xFFFFFFFF s in
  let s := set_myCurrentHMOVEPos NO_HMOVE s in
  let s := set_myPreviousHMOVEPos NO_HMOVE s in
  let s := set_myHMOVEBlankEnabled false s in
  let s := enableBits E true s in
  let s := set_myDumpEnabled false s in
  let s := set_myDumpDisabledCycle 0 s in
  let s := set_myINPT4 0x80 s in
  let s := set_myINPT5 0x80 s in
  (* Should undriven pins be randomly driven high or low? *)
  let s := set_myTIAPinsDriven (cfg_tiadriven cfg) s in
  let s := set_myFrameCounter 0 s in
  let s := set_myPALFrameCounter 0 s in
  let s := set_myScanlineCountForLastFrame 0 s in
  (* reset all graphic objects *)
  let s := set_myPlayfield (Playfield.reset (myPlayfield s)) s in
  let s := set_myPlayer0 (Player.reset (myPlayer0 s)) s in
  let s := set_myPlayer1 (Player.reset (myPlayer1 s)) s in
  let s := set_myMissile0 (Missile.reset (myMissile0 s)) s in
  let s := set_myMissile1 (Missile.reset (myMissile1 s)) s in
  let s := set_myBall (Ball.reset (myBall s)) s in
  (* Recalculate the size of the display *)
  let s := snd (toggleFixedColors 0 s) in
  frameReset E cfg s.

(** [TIA::systemCyclesReset]: the System calls it, then sets its cycle
    counter to 0.  [mySound.adjustCycleCounter] reaches the sound device
    only.  The operands of [-=] are an [Int32] member and a [uInt32] local:
    the subtraction is unsigned and the result is converted back. *)
Definition systemCyclesReset (s : TIA) : TIA :=
  (* Get the current system cycle *)
  let cycles := uInt32 (sys_cycles s) in
  (* Adjust the dump cycle *)
  let s := set_myDumpDisabledCycle
             (Int32 (uInt32 (myDumpDisabledCycle s - cycles))) s in
  (* Get the current color clock the system is using *)
  let clocks := uInt32 (cycles * PIXEL_CLOCKS) in
  (* Adjust the clocks by this amount since we're reseting the clock to zero *)
  let s := set_myClockWhenFrameStarted
             (Int32 (uInt32 (myClockWhenFrameStarted s - clocks))) s in
  let s := set_myClockStartDisplay
             (Int32 (uInt32 (myClockStartDisplay s - clocks))) s in
  let s := set_myClockStopDisplay
             (Int32 (uInt32 (myClockStopDisplay s - clocks))) s in
  let s := set_myClockAtLastUpdate
             (Int32 (uInt32 (myClockAtLastUpdate s - clocks))) s in
  set_myVSYNCFinishClock (Int32 (uInt32 (myVSYNCFinishClock s - clocks))) s.

(** [System::resetCycles] as the TIA sees it. *)
Definition resetCycles (s : TIA) : TIA :=
  set_sys_cycles 0 (systemCyclesReset s).

Definition lossColors : list TIAColor :=
  [P0Color; P1Color; PFColor; BKColor; M0Color; M1Color; BLColor].

Definition startFrame (E : Env) (s : TIA) : TIA :=
  (* This stuff should only happen at the beginning of a new frame. *)
  let tmp := myCurrentFrameBuffer s in
  let s := set_myCurrentFrameBuffer (myPreviousFrameBuffer s) s in
  let s := set_myPreviousFrameBuffer tmp s in
  (* Remember the number of clocks which have passed on the current scanline
     so that we can adjust the frame's starting clock by this amount. *)
  let clocks := clocksThisLine s in
  (* Ask the system to reset the cycle count so it doesn't overflow; the
     system notifies the TIA first ([systemCyclesReset]) *)
  let s := resetCycles s in
  (* Setup clocks that'll be used for drawing this frame *)
  let s := set_myClockWhenFrameStarted (Int32 (uInt32 (-1 * clocks))) s in
  let s := set_myClockStartDisplay (myClockWhenFrameStarted s) s in
  let s := set_myClockStopDisplay
             (Int32 (uInt32 (myClockWhenFrameStarted s + myStopDisplayOffset s))) s in
  let s := set_myClockAtLastUpdate (myClockStartDisplay s) s in
  let s := set_myClocksToEndOfScanLine SCANLINE_CLOCKS s in
  (* Reset frame buffer pointer *)
  let s := set_myFramePointer 0 s in
  let s := set_myFramePointerClocks 0 s in
  (* If color loss is enabled then update the color registers based on
     the number of scanlines in the last frame that was generated *)
  let s :=
    if myColorLossEnabled s then
      if nonzero (Z.land (myScanlineCountForLastFrame s) 0x01)
      then set_myColor (arraySetAll E (myColor s) lossColors
                          (fun c => Z.lor c 0x01010101)) s
      else set_myColor (arraySetAll E (myColor s) lossColors
                          (fun c => Z.land c 0xfefefefe)) s
    else s in
  set_myStartScanline 0 s.

Definition endFrame (E : Env) (s : TIA) : TIA :=
  let currentlines := scanlines s in
  (* The TIA may generate frames that are 'invisible' to TV (they complete
     before the first visible scanline) *)
  if currentlines <=? myStartScanline s then
    (* Skip display of this frame, as if it wasn't generated at all *)
    startFrame E s
  else
    (* Compute the number of scanlines in the frame *)
    let previousCount := myScanlineCountForLastFrame s in
    let s := set_myScanlineCountForLastFrame currentlines s in
    let s :=
      (* Did we generate too many scanlines? *)
      if myScanlineCountForLastFrame s >? uInt32 (myMaximumNumberOfScanlines s + 1) then
        let s := set_myScanlineCountForLastFrame (myMaximumNumberOfScanlines s) s in
        if previousCount <? myMaximumNumberOfScanlines s then
          let s := set_myCurrentFrameBuffer
                     (memset (myCurrentFrameBuffer s) 0 0 BUFFER_SIZE) s in
          set_myPreviousFrameBuffer
            (memset (myPreviousFrameBuffer s) 0 1 BUFFER_SIZE) s
        else s
      (* Did the number of scanlines decrease? *)
      else if (myScanlineCountForLastFrame s <? previousCount)
              && (myScanlineCountForLastFrame s <? BUFFER_LINES)
              && (previousCount <? BUFFER_LINES) then
        let offset := uInt32 (myScanlineCountForLastFrame s * SCANLINE_PIXEL) in
        let stride :=
          uInt32 ((previousCount - myScanlineCountForLastFrame s) * SCANLINE_PIXEL) in
        let s := set_myCurrentFrameBuffer
                   (memset (myCurrentFrameBuffer s) offset 0 stride) s in
        set_myPreviousFrameBuffer
          (memset (myPreviousFrameBuffer s) offset 1 stride) s
      else s in
    (* Stats counters *)
    let s := set_myFrameCounter (uInt32 (myFrameCounter s + 1)) s in
    let s :=
      if myScanlineCountForLastFrame s >=? 287
      then set_myPALFrameCounter (uInt32 (myPALFrameCounter s + 1)) s
      else s in
    (* Recalculate framerate, attempting to auto-correct for scanline 'jumps' *)
    if myAutoFrameEnabled s then
      (* Adjust end-of-frame pointer *)
      let offset := uInt32 (SCANLINE_CLOCKS * myScanlineCountForLastFrame s) in
      if (offset >? myStopDisplayOffset s)
         && (offset <? SCANLINE_CLOCKS * BUFFER_LINES)
      then set_myStopDisplayOffset offset s
      else s
    else s.

(** ** PAL classification

    [isPAL] is [float(myPALFrameCounter) / myFrameCounter >= (25.0/60.0)]:
    both counters are converted to single precision, divided in single
    precision, and the quotient is widened to double for the comparison with
    the double constant.  The arithmetic is IEEE 754 binary32/binary64,
    round to nearest even ([SpecFloat]). *)

Definition float_of_uInt32 (n : Z) : spec_float :=
  binary_normalize 24 128 n 0 false.

Definition double_of_Z (n : Z) : spec_float :=
  binary_normalize 53 1024 n 0 false.

Definition double_of_float (x : spec_float) : spec_float :=
  match x with
  | S754_finite sg m e => binary_normalize 53 1024 (cond_Zopp sg (Zpos m)) e sg
  | _ => x
  end.

(** [25.0/60.0] *)
Definition PAL_threshold : spec_float :=
  SFdiv 53 1024 (double_of_Z 25) (double_of_Z 60).

(** [float(myPALFrameCounter) / myFrameCounter] *)
Definition isPAL_quotient (s : TIA) : spec_float :=
  SFdiv 24 128 (float_of_uInt32 (myPALFrameCounter s))
               (float_of_uInt32 (myFrameCounter s)).

Definition isPAL (s : TIA) : bool :=
  SFleb PAL_threshold (double_of_float (isPAL_quotient s)).


(** ** Register interface *)

Definition dumpedInputPort (E : Env) (io : BusInputs) (resistance : Z)
    (s : TIA) : Z :=
  if resistance =? minimumResistance E then 0x80
  else if (resistance =? maximumResistance E) || myDumpEnabled s then 0x00
  else
    let needed := uInt32 (in_needed io resistance) in
    if uInt32 (sys_cycles s - myDumpDisabledCycle s) >? needed
    then 0x80 else 0x00.

Definition peek (E : Env) (io : BusInputs) (addr : Z) (s : TIA) : Z * TIA :=
  (* Update frame to current color clock before we look at anything! *)
  let s := updateFrame E (colorClock s) s in
  (* We start out with D7 and D6 disabled (the only valid bits in a TIA
     read), and selectively enable them *)
  let value :=
    Z.land 0x3F (if negb (myTIAPinsDriven s) then in_dataBus io
                 else in_dataBusDriven io) in
  let collision := Z.land (myCollision s) (uInt16 (myCollisionEnabledMask s)) in
  let cx c := nonzero (Z.land collision (cxVal E c)) in
  let two hi lo :=
    Z.lor value (Z.lor (if cx hi then 0x80 else 0x00)
                       (if cx lo then 0x40 else 0x00)) in
  match readRegister E (Z.land addr 0x000f) with
  | CXM0P => (two Cx_M0P1 Cx_M0P0, s)
  | CXM1P => (two Cx_M1P0 Cx_M1P1, s)
  | CXP0FB => (two Cx_P0PF Cx_P0BL, s)
  | CXP1FB => (two Cx_P1PF Cx_P1BL, s)
  | CXM0FB => (two Cx_M0PF Cx_M0BL, s)
  | CXM1FB => (two Cx_M1PF Cx_M1BL, s)
  | CXBLPF =>
      (Z.lor (Z.land value 0x7F) (if cx Cx_BLPF then 0x80 else 0x00), s)
  | CXPPMM => (two Cx_P0P1 Cx_M0M1, s)
  | INPT0 =>
      (Z.lor (Z.land value 0x7F) (dumpedInputPort E io (in_leftNine io) s), s)
  | INPT1 =>
      (Z.lor (Z.land value 0x7F) (dumpedInputPort E io (in_leftFive io) s), s)
  | INPT2 =>
      (Z.lor (Z.land value 0x7F) (dumpedInputPort E io (in_rightNine io) s), s)
  | INPT3 =>
      (Z.lor (Z.land value 0x7F) (dumpedInputPort E io (in_rightFive io) s), s)
  | INPT4 =>
      let button := if in_leftSix io then 0x80 else 0x00 in
      let s := set_myINPT4
                 (if nonzero (Z.land (myVBLANK s) 0x40)
                  then Z.land (myINPT4 s) button else button) s in
      (Z.lor (Z.land value 0x7F) (myINPT4 s), s)
  | INPT5 =>
      let button := if in_rightSix io then 0x80 else 0x00 in
      let s := set_myINPT5
                 (if nonzero (Z.land (myVBLANK s) 0x40)
                  then Z.land (myINPT5 s) button else button) s in
      (Z.lor (Z.land value 0x7F) (myINPT5 s), s)
  | BadRead => (value, s)
  end.

Definition waitHorizontalSync (s : TIA) : TIA :=
  let cyclesToEndOfLine :=
    uInt32 (SCANLINE_CYCLES
            - uInt32 (sys_cycles s - Z.quot (myClockWhenFrameStarted s) PIXEL_CLOCKS)
              mod SCANLINE_CYCLES) in
  if cyclesToEndOfLine <? SCANLINE_CYCLES
  then set_sys_cycles (uInt32 (sys_cycles s + cyclesToEndOfLine)) s
  else s.

(** [TIA::applyActiveHMOVEMotion] and [TIA::applyPreviousHMOVEMotion], the
    copies used by the RESP0/RESP1 cases of [poke]. *)
Definition applyActiveHMOVEMotion (s : TIA) (hpos pos motionClock : Z) : Z :=
  if hpos <? Z.min (myCurrentHMOVEPos s + 6 + 16 * 4) 7 then
    let decrements_passed := Z.shiftr (hpos - (myCurrentHMOVEPos s + 4)) 2 in
    let pos := Int16 (pos + 8) in
    if motionClock - decrements_passed >? 0 then
      let pos := Int16 (pos - (motionClock - decrements_passed)) in
      if pos <? 0 then Int16 (pos + SCANLINE_PIXEL) else pos
    else pos
  else pos.

Definition applyPreviousHMOVEMotion (s : TIA) (hpos pos motion : Z) : Z :=
  if negb (myPreviousHMOVEPos s =? NO_HMOVE) then
    let motclk := uInt8 (Z.shiftr (Z.lxor motion 0x80) 4) in
    if hpos <=? myPreviousHMOVEPos s - SCANLINE_CLOCKS + 5 + motclk * 4 then
      let motclk_passed :=
        uInt8 (Z.shiftr (hpos - (myPreviousHMOVEPos s - SCANLINE_CLOCKS + 6)) 2) in
      Int16 (pos - (motclk - motclk_passed))
    else pos
  else pos.

(** The RESP0 and RESP1 cases of [poke], which differ only in the player
    ([get]/[set] select [myPlayer0] or [myPlayer1]). *)
Definition pokeRESP (E : Env) (clock : Z) (get : TIA -> Player.t)
    (set : Player.t -> TIA -> TIA) (s : TIA) : TIA :=
  let hpos := hposAt clock (myClockWhenFrameStarted s) in
  let p := get s in
  let newx :=
    (* Check if HMOVE is currently active *)
    if negb (myCurrentHMOVEPos s =? NO_HMOVE) then
      applyActiveHMOVEMotion s hpos
        (Int16 (if hpos <? 7 then 3 else Z.rem (hpos + 5) SCANLINE_PIXEL))
        (Player.getMotionClock p)
    else
      applyPreviousHMOVEMotion s hpos
        (Int16 (if hpos <? -2 then 3 else Z.rem (hpos + 5) SCANLINE_PIXEL))
        (Moveable.myHM (Player.base p)) in
  if negb (Player.getPos p =? newx) then
    (* Find out under what condition the player is being reset *)
    let delay :=
      Int16 (PxPosResetWhen E (Z.land (Player.myNUSIZ p) 7) (Player.getPos p) newx) in
    let s :=
      if delay =? 1 then
        (* Player is being reset during the display of one of its copies *)
        let s := updateFrame E (clock + 11) s in
        set (Player.set_mySuppress 1 (get s)) s
      else if delay =? 0 then
        (* Player is being reset in neither the delay nor display section *)
        set (Player.set_mySuppress 1 (get s)) s
      else if delay =? -1 then
        (* Player is being reset during the delay section of one of its copies *)
        set (Player.set_mySuppress 0 (get s)) s
      else s in
    set (Player.set_base (Moveable.set_myPos newx (Player.base (get s))) (get s)) s
  else s.

(** [(((((color << 8) | color) << 8) | color) << 8) | color] *)
Definition colorWord (color : Z) : Z :=
  uInt32 (Z.lor (Z.shiftl (Z.lor (Z.shiftl (Z.lor (Z.shiftl color 8) color) 8) color) 8) color).

Definition pokeColor (E : Env) (value : Z) (cs : list TIAColor) (s : TIA) : TIA :=
  let color := Z.land value 0xfe in
  let color :=
    if myColorLossEnabled s
       && nonzero (Z.land (myScanlineCountForLastFrame s) 0x01)
    then Z.lor color 0x01 else color in
  set_myColor (arraySetAll E (myColor s) cs (fun _ => colorWord color)) s.

(** What [poke] does before it looks at the register: the delay of the
    write, the catch-up render, and the end of a frame without VSYNC. *)
Definition pokeDelay (E : Env) (addr : Z) (s : TIA) : Z :=
  let clock := colorClock s in
  let delay := Int16 (PokeDelay E addr) in
  (* See if this is a poke to a PF register *)
  if delay =? -1 then
    let x := Z.rem (clock - myClockWhenFrameStarted s) SCANLINE_CLOCKS in
    let i := Z.land (Z.quot x 3) 3 in
    Int16 (if i =? 0 then 4 else if i =? 1 then 5 else if i =? 2 then 2 else 3)
  else delay.

Definition pokeCatchUp (E : Env) (addr : Z) (s : TIA) : TIA :=
  let clock := colorClock s in
  (* Update frame to current CPU cycle before we make any changes! *)
  let s := updateFrame E (clock + pokeDelay E addr s) s in
  (* If a VSYNC hasn't been generated in time go ahead and end the frame *)
  if Z.quot (clock - myClockWhenFrameStarted s) SCANLINE_CLOCKS
     >=? Int32 (myMaximumNumberOfScanlines s)
  then set_myPartialFrameFlag false (set_sys_stopped true s)
  else s.

(** The [switch(addr)] of [poke]; [clock] is the color clock of the write. *)
Definition pokeRegister (E : Env) (io : BusInputs) (addr : TIARegister)
    (value clock : Z) (s : TIA) : TIA :=
  let P0 a v s := set_myPlayer0
    (Player.Player0_handleRegisterUpdate E (viewOf s) a v (myPlayer0 s)) s in
  let P1 a v s := set_myPlayer1
    (Player.Player1_handleRegisterUpdate E (viewOf s) a v (myPlayer1 s)) s in
  let M0 a v s := set_myMissile0
    (Missile.Missile0_handleRegisterUpdate (viewOf s) (myPlayer0 s) a v (myMissile0 s)) s in
  let M1 a v s := set_myMissile1
    (Missile.Missile1_handleRegisterUpdate (viewOf s) (myPlayer1 s) a v (myMissile1 s)) s in
  let BL a v s := set_myBall
    (Ball.handleRegisterUpdate (viewOf s) a v (myBall s)) s in
  let PF a v s := set_myPlayfield
    (Playfield.handleRegisterUpdate a v (myPlayfield s)) s in
  match addr with
  | VSYNC =>
      let s := set_myVSYNC value s in
      if nonzero (Z.land (myVSYNC s) 0x02) then
        (* Indicate when VSYNC should be finished. *)
        set_myVSYNCFinishClock (clock + SCANLINE_CLOCKS) s
      else if negb (nonzero (Z.land (myVSYNC s) 0x02))
              && (clock >=? myVSYNCFinishClock s) then
        (* We're no longer interested in myVSYNCFinishClock *)
        let s := set_myVSYNCFinishClock NO_HMOVE s in
        (* Since we're finished with the frame tell the processor to halt *)
        set_myPartialFrameFlag false (set_sys_stopped true s)
      else s
  | VBLANK =>
      let s :=
        (* Is the dump to ground path being set for I0, I1, I2, and I3? *)
        if negb (nonzero (Z.land (myVBLANK s) 0x80)) && nonzero (Z.land value 0x80)
        then set_myDumpEnabled true s
        (* Is the dump to ground path being removed from I0, I1, I2, and I3? *)
        else if nonzero (Z.land (myVBLANK s) 0x80) && negb (nonzero (Z.land value 0x80))
        then set_myDumpDisabledCycle (Int32 (sys_cycles s)) (set_myDumpEnabled false s)
        else s in
      (* Are the latches for I4 and I5 being reset? *)
      let s :=
        if negb (nonzero (Z.land (myVBLANK s) 0x40))
        then set_myINPT5 0x80 (set_myINPT4 0x80 s)
        else s in
      (* Check for the first scanline at which VBLANK is disabled. *)
      let s :=
        if (myStartScanline s =? 0) && negb (nonzero (Z.land value 0x10))
        then set_myStartScanline (scanlines s) s
        else s in
      set_myVBLANK value s
  | WSYNC =>
      if in_lastAccessWasRead io then waitHorizontalSync s else s
  | RSYNC => s
  | NUSIZ0 =>
      let s := updateFrame E (clock + 8) s in
      let s := P0 addr value s in
      let s := M0 addr value s in
      set_myPlayer0 (Player.set_mySuppress 0 (myPlayer0 s)) s
  | NUSIZ1 =>
      let s := updateFrame E (clock + 8) s in
      let s := P1 addr value s in
      M1 addr value s
  | COLUP0 => pokeColor E value [M0Color; P0Color] s
  | COLUP1 => pokeColor E value [M1Color; P1Color] s
  | COLUPF => pokeColor E value [BLColor; PFColor] s
  | COLUBK => pokeColor E value [BKColor] s
  | CTRLPF => BL addr value (PF addr value s)
  | REFP0 => P0 addr value s
  | REFP1 => P1 addr value s
  | PF0 | PF1 | PF2 => PF addr value s
  | RESP0 => pokeRESP E clock myPlayer0 set_myPlayer0 s
  | RESP1 => pokeRESP E clock myPlayer1 set_myPlayer1 s
  | RESM0 => M0 addr value s
  | RESM1 => M1 addr value s
  | RESBL => BL addr value s
  | GRP0 => P1 addr value (P0 addr value s)
  | GRP1 => BL addr value (P0 addr value (P1 addr value s))
  | ENAM0 => M0 addr value s
  | ENAM1 => M1 addr value s
  | ENABL => BL addr value s
  | HMP0 => P0 addr value s
  | HMP1 => P1 addr value s
  | HMM0 => M0 addr value s
  | HMM1 => M1 addr value s
  | HMBL => BL addr value s
  | VDELP0 => P0 addr value s
  | VDELP1 => P1 addr value s
  | VDELBL => BL addr value s
  | RESMP0 => M0 addr value s
  | RESMP1 => M1 addr value s
  | HMOVE =>
      let hpos := hposAt clock (myClockWhenFrameStarted s) in
      let s := set_myCurrentHMOVEPos hpos s in
      (* See if we need to enable the HMOVE blank bug *)
      let s := set_myHMOVEBlankEnabled
                 (if myAllowHMOVEBlanks s then
                    HMOVEBlankEnableCycles E
                      (Z.quot (Z.rem (clock - myClockWhenFrameStarted s) SCANLINE_CLOCKS)
                              PIXEL_CLOCKS)
                  else false) s in
      let s := P0 addr 0 s in
      let s := P1 addr 0 s in
      let s := M0 addr 0 s in
      let s := M1 addr 0 s in
      let s := BL addr 0 s in
      (* Can HMOVE activities be ignored? *)
      if (hpos >=? -5) && (hpos <? 97) then
        set_myCurrentHMOVEPos NO_HMOVE (set_myHMOVEBlankEnabled false s)
      else s
  | HMCLR =>
      let s := P0 addr 0 s in
      let s := P1 addr 0 s in
      let s := M0 addr 0 s in
      let s := M1 addr 0 s in
      BL addr 0 s
  | CXCLR => set_myCollision 0 s
  (* the audio registers only reach mySound and the debugger's mirror *)
  | AUDC0 | AUDC1 | AUDF0 | AUDF1 | AUDV0 | AUDV1 => s
  | BadWrite => s
  end.

(** [poke] always returns [true]; the model returns the state it leaves. *)
Definition poke (E : Env) (io : BusInputs) (addr value : Z) (s : TIA) : TIA :=
  let addr := Z.land addr 0x003f in
  let clock := colorClock s in
  pokeRegister E io (writeRegister E addr) value clock (pokeCatchUp E addr s).

(** The host lets [n] CPU cycles pass. *)
Definition tick (n : Z) (s : TIA) : TIA :=
  set_sys_cycles (uInt32 (sys_cycles s + n)) s.


(** ** State serialisation

    Serializer.hxx and Sound.hxx are not part of the sources.  A stream
    operation either succeeds or throws; [None] stands for the exception.
    The sound device writes and reads its own block through the same stream
    and may throw as well. *)

Class Serializer (Stream : Type) := mkSerializer
  { getByte : Stream -> option (Z * Stream)
  ; getShort : Stream -> option (Z * Stream)
  ; getInt : Stream -> option (Z * Stream)
  ; getBool : Stream -> option (bool * Stream)
  ; getString : Stream -> option (string * Stream)
  ; getIntArray : nat -> Stream -> option (list Z * Stream)
  ; putByte : Z -> Stream -> option Stream
  ; putShort : Z -> Stream -> option Stream
  ; putInt : Z -> Stream -> option Stream
  ; putBool : bool -> Stream -> option Stream
  ; putString : string -> Stream -> option Stream
  ; putIntArray : list Z -> Stream -> option Stream }.

Class SoundDevice (Stream : Type) := mkSoundDevice
  { Sound_save : Stream -> option Stream       (* mySound.save(out) *)
  ; Sound_load : Stream -> option Stream }.    (* mySound.load(in) *)

(** The kinds of field a state block is made of. *)
Inductive FieldKind :=
  KByte | KShort | KInt | KBool | KString | KIntArray (n : nat) | KSound.

(** A field with its value, as [save] writes it. *)
Inductive Field :=
  | FByte (z : Z) | FShort (z : Z) | FInt (z : Z) | FBool (b : bool)
  | FString (str : string) | FIntArray (l : list Z) | FSound.

(** The outcome of a block of statements inside [try]: it runs to its end
    with a value, or an exception leaves it; the object is in the state the
    assignments made so far have left it in either way. *)
Inductive Outcome (St Stream A : Type) :=
  | Done (a : A) (st : St) (io : Stream)
  | Thrown (st : St).
Arguments Done {St Stream A} a st io.
Arguments Thrown {St Stream A} st.

Definition Ser (St Stream A : Type) := St -> Stream -> Outcome St Stream A.

Definition ret {St Stream A} (a : A) : Ser St Stream A := fun st io => Done a st io.

Definition bind {St Stream A B} (m : Ser St Stream A) (k : A -> Ser St Stream B) : Ser St Stream B :=
  fun st io =>
    match m st io with
    | Done a st' io' => k a st' io'
    | Thrown st' => Thrown st'
    end.

(** A stream read. *)
Definition rd {St Stream A} (f : Stream -> option (A * Stream)) : Ser St Stream A :=
  fun st io =>
    match f io with
    | Some (a, io') => Done a st io'
    | None => Thrown st
    end.

(** A stream write. *)
Definition wr {St Stream} (f : Stream -> option Stream) : Ser St Stream unit :=
  fun st io =>
    match f io with
    | Some io' => Done tt st io'
    | None => Thrown st
    end.

(** An assignment to a member. *)
Definition upd {St Stream} (f : St -> St) : Ser St Stream unit :=
  fun st io => Done tt (f st) io.

(** A call of a method of the member selected by [get]/[set]. *)
Definition zoom {St O Stream A} (get : St -> O) (set : O -> St -> St)
    (m : Ser O Stream A) : Ser St Stream A :=
  fun st io =>
    match m (get st) io with
    | Done a o io' => Done a (set o st) io'
    | Thrown o => Thrown (set o st)
    end.

Declare Scope ser_scope.
Delimit Scope ser_scope with ser.
Notation "x <- m ;; k" := (bind m (fun x => k))
  (at level 61, m at next level, right associativity) : ser_scope.
Notation "m ;;; k" := (bind m (fun _ => k))
  (at level 61, right associativity) : ser_scope.

Definition Moveable_set_myStart (v : Z) (o : Moveable.t) : Moveable.t :=
  Moveable.mk (Moveable.isEnabled o) (Moveable.myHM o) (Moveable.myVDEL o)
    (Moveable.myPos o) (Moveable.myMotionClock o) v (Moveable.myHMmmr o).

Definition Playfield_assign (ctrlpf pf pas : Z) (p : Playfield.t) : Playfield.t :=
  Playfield.mk (Playfield.isEnabled p) ctrlpf pf pas (Playfield.myMask p).

Fixpoint arrayList (a : Z -> Z) (i : Z) (n : nat) : list Z :=
  match n with
  | O => []
  | S n' => a i :: arrayList a (i + 1) n'
  end.

Definition arrayOfList (l : list Z) (a : Z -> Z) : Z -> Z :=
  fun i =>
    if (0 <=? i) && (i <? Z.of_nat (List.length l))
    then nth (Z.to_nat i) l 0 else a i.

Section Serialisation.

Context {Stream : Type} `{Serializer Stream} `{SoundDevice Stream}.

Local Open Scope ser_scope.

Definition readKind (k : FieldKind) (io : Stream) : option Stream :=
  match k with
  | KByte => option_map snd (getByte io)
  | KShort => option_map snd (getShort io)
  | KInt => option_map snd (getInt io)
  | KBool => option_map snd (getBool io)
  | KString => option_map snd (getString io)
  | KIntArray n => option_map snd (getIntArray n io)
  | KSound => Sound_load io
  end.

(** The stream holds the fields of the layout [l], one after the other. *)
Fixpoint readAll (l : list FieldKind) (io : Stream) : option Stream :=
  match l with
  | [] => Some io
  | k :: l' =>
      match readKind k io with
      | Some io' => readAll l' io'
      | None => None
      end
  end.

Definition writeField (f : Field) (io : Stream) : option Stream :=
  match f with
  | FByte z => putByte z io
  | FShort z => putShort z io
  | FInt z => putInt z io
  | FBool b => putBool b io
  | FString str => putString str io
  | FIntArray l => putIntArray l io
  | FSound => Sound_save io
  end.

(** The stream accepts the fields [l], one after the other. *)
Fixpoint writeAll (l : list Field) (io : Stream) : option Stream :=
  match l with
  | [] => Some io
  | f :: l' =>
      match writeField f io with
      | Some io' => writeAll l' io'
      | None => None
      end
  end.

(** *** load *)

Definition Moveable_load : Ser Moveable.t Stream unit :=
  x <- rd getByte ;; upd (Moveable.set_myHM x) ;;;
  x <- rd getBool ;; upd (Moveable.set_myVDEL x) ;;;
  x <- rd getShort ;; upd (Moveable.set_myPos (Int16 x)) ;;;
  x <- rd getInt ;; upd (Moveable.set_myMotionClock (Int32 x)) ;;;
  x <- rd getInt ;; upd (Moveable_set_myStart (Int32 x)) ;;;
  x <- rd getBool ;; upd (Moveable.set_myHMmmr x).

Definition Playfield_load : Ser Playfield.t Stream unit :=
  c <- rd getByte ;;
  upd (fun p => Playfield_assign c (Playfield.myPF p)
                  (Playfield.myPriorityAndScore p) p) ;;;
  f <- rd getInt ;;
  upd (fun p => Playfield_assign (Playfield.myCTRLPF p) f
                  (Playfield.myPriorityAndScore p) p) ;;;
  a <- rd getByte ;;
  upd (fun p => Playfield_assign (Playfield.myCTRLPF p) (Playfield.myPF p) a p).

Definition Player_load : Ser Player.t Stream unit :=
  zoom Player.base Player.set_base Moveable_load ;;;
  x <- rd getByte ;; upd (Player.set_myGRP x) ;;;
  x <- rd getByte ;; upd (Player.set_myDGRP x) ;;;
  x <- rd getByte ;; upd (Player.set_myNUSIZ x) ;;;
  x <- rd getBool ;; upd (Player.set_myREFP x) ;;;
  x <- rd getByte ;; upd (Player.set_mySuppress x) ;;;
  x <- rd getByte ;; upd (Player.set_myCurrentGRP x).

(** [AbstractParticle::load] followed by [AbstractMissile::load]. *)
Definition Missile_load : Ser Missile.t Stream unit :=
  zoom Missile.base Missile.set_base Moveable_load ;;;
  x <- rd getBool ;; upd (Missile.set_myENABLE x) ;;;
  x <- rd getByte ;; upd (Missile.set_myNUSIZ x) ;;;
  x <- rd getBool ;; upd (Missile.set_myRESMP x).

Definition Ball_load : Ser Ball.t Stream unit :=
  zoom Ball.base Ball.set_base Moveable_load ;;;
  x <- rd getBool ;; upd (Ball.set_myENABLE x) ;;;
  x <- rd getByte ;; upd (Ball.set_myCTRLPF x) ;;;
  x <- rd getBool ;; upd (Ball.set_myDENABLE x) ;;;
  x <- rd getBool ;; upd (Ball.set_myCurrentEnabled x).

(** The statements of [TIA::load] after the tag has been accepted. *)
Definition loadFields (T : TIATables) : Ser TIA Stream unit :=
  x <- rd getInt ;; upd (set_myClockWhenFrameStarted (Int32 x)) ;;;
  x <- rd getInt ;; upd (set_myClockStartDisplay (Int32 x)) ;;;
  x <- rd getInt ;; upd (set_myClockStopDisplay (Int32 x)) ;;;
  x <- rd getInt ;; upd (set_myClockAtLastUpdate (Int32 x)) ;;;
  x <- rd getInt ;; upd (set_myClocksToEndOfScanLine (Int32 x)) ;;;
  x <- rd getInt ;; upd (set_myScanlineCountForLastFrame x) ;;;
  x <- rd getInt ;; upd (set_myVSYNCFinishClock (Int32 x)) ;;;
  x <- rd getByte ;; upd (set_myDisabledObjects x) ;;;
  x <- rd getByte ;; upd (set_myVSYNC x) ;;;
  x <- rd getByte ;; upd (set_myVBLANK x) ;;;
  l <- rd (getIntArray 8) ;; upd (fun s => set_myColor (arrayOfList l (myColor s)) s) ;;;
  x <- rd getShort ;; upd (set_myCollision x) ;;;
  x <- rd getInt ;; upd (set_myCollisionEnabledMask x) ;;;
  x <- rd getBool ;; upd (set_myDumpEnabled x) ;;;
  x <- rd getInt ;; upd (set_myDumpDisabledCycle (Int32 x)) ;;;
  x <- rd getInt ;; upd (set_myCurrentHMOVEPos (Int32 x)) ;;;
  x <- rd getInt ;; upd (set_myPreviousHMOVEPos (Int32 x)) ;;;
  x <- rd getBool ;; upd (set_myHMOVEBlankEnabled x) ;;;
  x <- rd getInt ;; upd (set_myFrameCounter x) ;;;
  x <- rd getInt ;; upd (set_myPALFrameCounter x) ;;;
  (* load all graphic objects *)
  zoom myPlayfield set_myPlayfield Playfield_load ;;;
  zoom myPlayer0 set_myPlayer0 Player_load ;;;
  zoom myPlayer1 set_myPlayer1 Player_load ;;;
  zoom myMissile0 set_myMissile0 Missile_load ;;;
  zoom myMissile1 set_myMissile1 Missile_load ;;;
  zoom myBall set_myBall Ball_load ;;;
  (* Load the sound sample stuff ... *)
  wr Sound_load ;;;
  (* Reset TIA bits to be on *)
  upd (enableBits T true) ;;;
  upd (fun s => snd (toggleFixedColors 0 s)) ;;;
  upd (set_myAllowHMOVEBlanks true).

(** The [try] block of [TIA::load]; the value is what [return] gives. *)
Definition loadBody (T : TIATables) : Ser TIA Stream bool :=
  device <- rd getString ;;
  if negb (String.eqb device "TIA") then ret false
  else loadFields T ;;; ret true.

(** [TIA::load]: the result and the state it leaves.  [catch(...)] turns
    every exception into [false]. *)
Definition load (T : TIATables) (s : TIA) (io : Stream) : bool * TIA :=
  match loadBody T s io with
  | Done b s' _ => (b, s')
  | Thrown s' => (false, s')
  end.

(** *** save *)

Definition Moveable_save (o : Moveable.t) : Ser unit Stream unit :=
  wr (putByte (Moveable.myHM o)) ;;;
  wr (putBool (Moveable.myVDEL o)) ;;;
  wr (putShort (Moveable.myPos o)) ;;;
  wr (putInt (Moveable.myMotionClock o)) ;;;
  wr (putInt (Moveable.myStart o)) ;;;
  wr (putBool (Moveable.myHMmmr o)).

Definition Playfield_save (p : Playfield.t) : Ser unit Stream unit :=
  wr (putByte (Playfield.myCTRLPF p)) ;;;
  wr (putInt (Playfield.myPF p)) ;;;
  wr (putByte (Playfield.myPriorityAndScore p)).

Definition Player_save (p : Player.t) : Ser unit Stream unit :=
  Moveable_save (Player.base p) ;;;
  wr (putByte (Player.myGRP p)) ;;;
  wr (putByte (Player.myDGRP p)) ;;;
  wr (putByte (Player.myNUSIZ p)) ;;;
  wr (putBool (Player.myREFP p)) ;;;
  wr (putByte (Player.mySuppress p)) ;;;
  wr (putByte (Player.myCurrentGRP p)).

Definition Missile_save (m : Missile.t) : Ser unit Stream unit :=
  Moveable_save (Missile.base m) ;;;
  wr (putBool (Missile.myENABLE m)) ;;;
  wr (putByte (Missile.myNUSIZ m)) ;;;
  wr (putBool (Missile.myRESMP m)).

Definition Ball_save (b : Ball.t) : Ser unit Stream unit :=
  Moveable_save (Ball.base b) ;;;
  wr (putBool (Ball.myENABLE b)) ;;;
  wr (putByte (Ball.myCTRLPF b)) ;;;
  wr (putBool (Ball.myDENABLE b)) ;;;
  wr (putBool (Ball.myCurrentEnabled b)).

(** The [try] block of [TIA::save]. *)
Definition saveBody (s : TIA) : Ser unit Stream unit :=
  wr (putString "TIA") ;;;
  wr (putInt (myClockWhenFrameStarted s)) ;;;
  wr (putInt (myClockStartDisplay s)) ;;;
  wr (putInt (myClockStopDisplay s)) ;;;
  wr (putInt (myClockAtLastUpdate s)) ;;;
  wr (putInt (myClocksToEndOfScanLine s)) ;;;
  wr (putInt (myScanlineCountForLastFrame s)) ;;;
  wr (putInt (myVSYNCFinishClock s)) ;;;
  wr (putByte (myDisabledObjects s)) ;;;
  wr (putByte (myVSYNC s)) ;;;
  wr (putByte (myVBLANK s)) ;;;
  wr (putIntArray (arrayList (myColor s) 0 8)) ;;;
  wr (putShort (myCollision s)) ;;;
  wr (putInt (myCollisionEnabledMask s)) ;;;
  wr (putBool (myDumpEnabled s)) ;;;
  wr (putInt (myDumpDisabledCycle s)) ;;;
  wr (putInt (myCurrentHMOVEPos s)) ;;;
  wr (putInt (myPreviousHMOVEPos s)) ;;;
  wr (putBool (myHMOVEBlankEnabled s)) ;;;
  wr (putInt (myFrameCounter s)) ;;;
  wr (putInt (myPALFrameCounter s)) ;;;
  (* save all graphic objects *)
  Playfield_save (myPlayfield s) ;;;
  Player_save (myPlayer0 s) ;;;
  Player_save (myPlayer1 s) ;;;
  Missile_save (myMissile0 s) ;;;
  Missile_save (myMissile1 s) ;;;
  Ball_save (myBall s) ;;;
  (* Save the sound sample stuff ... *)
  wr Sound_save.

(** [TIA::save]: the result and the stream when no write failed. *)
Definition save (s : TIA) (io : Stream) : bool * option Stream :=
  match saveBody s tt io with
  | Done _ _ io' => (true, Some io')
  | Thrown _ => (false, None)
  end.

(** *** The layout of a state block *)

Definition Moveable_layout : list FieldKind :=
  [KByte; KBool; KShort; KInt; KInt; KBool].

Definition Playfield_layout : list FieldKind := [KByte; KInt; KByte].

Definition Player_layout : list FieldKind :=
  Moveable_layout ++ [KByte; KByte; KByte; KBool; KByte; KByte].

Definition Missile_layout : list FieldKind :=
  Moveable_layout ++ [KBool; KByte; KBool].

Definition Ball_layout : list FieldKind :=
  Moveable_layout ++ [KBool; KByte; KBool; KBool].

(** What follows the device tag. *)
Definition TIA_layout : list FieldKind :=
  [KInt; KInt; KInt; KInt; KInt; KInt; KInt; KByte; KByte; KByte;
   KIntArray 8; KShort; KInt; KBool; KInt; KInt; KInt; KBool; KInt; KInt]
  ++ Playfield_layout ++ Player_layout ++ Player_layout
  ++ Missile_layout ++ Missile_layout ++ Ball_layout ++ [KSound].

Definition Moveable_fields (o : Moveable.t) : list Field :=
  [FByte (Moveable.myHM o); FBool (Moveable.myVDEL o);
   FShort (Moveable.myPos o); FInt (Moveable.myMotionClock o);
   FInt (Moveable.myStart o); FBool (Moveable.myHMmmr o)].

Definition Playfield_fields (p : Playfield.t) : list Field :=
  [FByte (Playfield.myCTRLPF p); FInt (Playfield.myPF p);
   FByte (Playfield.myPriorityAndScore p)].

Definition Player_fields (p : Player.t) : list Field :=
  Moveable_fields (Player.base p)
  ++ [FByte (Player.myGRP p); FByte (Player.myDGRP p);
      FByte (Player.myNUSIZ p); FBool (Player.myREFP p);
      FByte (Player.mySuppress p); FByte (Player.myCurrentGRP p)].

Definition Missile_fields (m : Missile.t) : list Field :=
  Moveable_fields (Missile.base m)
  ++ [FBool (Missile.myENABLE m); FByte (Missile.myNUSIZ m);
      FBool (Missile.myRESMP m)].

Definition Ball_fields (b : Ball.t) : list Field :=
  Moveable_fields (Ball.base b)
  ++ [FBool (Ball.myENABLE b); FByte (Ball.myCTRLPF b);
      FBool (Ball.myDENABLE b); FBool (Ball.myCurrentEnabled b)].

(** The fields of a saved state, in stream order. *)
Definition TIA_fields (s : TIA) : list Field :=
  [FString "TIA";
   FInt (myClockWhenFrameStarted s); FInt (myClockStartDisplay s);
   FInt (myClockStopDisplay s); FInt (myClockAtLastUpdate s);
   FInt (myClocksToEndOfScanLine s); FInt (myScanlineCountForLastFrame s);
   FInt (myVSYNCFinishClock s); FByte (myDisabledObjects s);
   FByte (myVSYNC s); FByte (myVBLANK s);
   FIntArray (arrayList (myColor s) 0 8); FShort (myCollision s);
   FInt (myCollisionEnabledMask s); FBool (myDumpEnabled s);
   FInt (myDumpDisabledCycle s); FInt (myCurrentHMOVEPos s);
   FInt (myPreviousHMOVEPos s); FBool (myHMOVEBlankEnabled s);
   FInt (myFrameCounter s); FInt (myPALFrameCounter s)]
  ++ Playfield_fields (myPlayfield s)
  ++ Player_fields (myPlayer0 s) ++ Player_fields (myPlayer1 s)
  ++ Missile_fields (myMissile0 s) ++ Missile_fields (myMissile1 s)
  ++ Ball_fields (myBall s) ++ [FSound].

End Serialisation.


(** ** The collision table

    Modelled from the spec: TIATables::CollisionMask is not part of the
    sources.  Section 4.2 describes it as "indexed by the 8-bit 'which
    objects are enabled at this pixel' value, yields which of the 15 pairwise
    collision bits to set": the bit of a pair is in the entry exactly when
    the bits of both objects are in the index. *)

Definition cxPair (c : CollisionBit) : TIABit * TIABit :=
  match c with
  | Cx_M0P1 => (M0Bit, P1Bit) | Cx_M0P0 => (M0Bit, P0Bit)
  | Cx_M1P0 => (M1Bit, P0Bit) | Cx_M1P1 => (M1Bit, P1Bit)
  | Cx_P0PF => (P0Bit, PFBit) | Cx_P0BL => (P0Bit, BLBit)
  | Cx_P1PF => (P1Bit, PFBit) | Cx_P1BL => (P1Bit, BLBit)
  | Cx_M0PF => (M0Bit, PFBit) | Cx_M0BL => (M0Bit, BLBit)
  | Cx_M1PF => (M1Bit, PFBit) | Cx_M1BL => (M1Bit, BLBit)
  | Cx_BLPF => (BLBit, PFBit) | Cx_P0P1 => (P0Bit, P1Bit)
  | Cx_M0M1 => (M0Bit, M1Bit)
  end.

Definition allCollisionBits : list CollisionBit :=
  [Cx_M0P1; Cx_M0P0; Cx_M1P0; Cx_M1P1; Cx_P0PF; Cx_P0BL; Cx_P1PF; Cx_P1BL;
   Cx_M0PF; Cx_M0BL; Cx_M1PF; Cx_M1BL; Cx_BLPF; Cx_P0P1; Cx_M0M1].

(** Both objects of the pair [c] are enabled in [enabled]. *)
Definition bothEnabled (bv : TIABit -> Z) (c : CollisionBit) (enabled : Z) : bool :=
  nonzero (Z.land enabled (bv (fst (cxPair c))))
  && nonzero (Z.land enabled (bv (snd (cxPair c)))).

Definition collisionMaskOf (bv : TIABit -> Z) (cx : CollisionBit -> Z)
    (enabled : Z) : Z :=
  fold_right
    (fun c acc => if bothEnabled bv c enabled then Z.lor (cx c) acc else acc)
    0 allCollisionBits.

(** The bit of the pair [c] is latched in the collision register [reg]. *)
Definition latched (T : TIATables) (c : CollisionBit) (reg : Z) : bool :=
  nonzero (Z.land reg (cxVal T c)).

(** The collision flag of object [b] (upper half of
    [myCollisionEnabledMask]). *)
Definition collisionFlag (T : TIATables) (b : TIABit) (s : TIA) : bool :=
  nonzero (Z.land (uInt16 (Z.shiftr (myCollisionEnabledMask s) 16)) (bitVal T b)).

(** The read register and data bit ([0x80] or [0x40]) that report the pair. *)
Definition cxPort (c : CollisionBit) : TIAReadRegister * Z :=
  match c with
  | Cx_M0P1 => (CXM0P, 0x80) | Cx_M0P0 => (CXM0P, 0x40)
  | Cx_M1P0 => (CXM1P, 0x80) | Cx_M1P1 => (CXM1P, 0x40)
  | Cx_P0PF => (CXP0FB, 0x80) | Cx_P0BL => (CXP0FB, 0x40)
  | Cx_P1PF => (CXP1FB, 0x80) | Cx_P1BL => (CXP1FB, 0x40)
  | Cx_M0PF => (CXM0FB, 0x80) | Cx_M0BL => (CXM0FB, 0x40)
  | Cx_M1PF => (CXM1FB, 0x80) | Cx_M1BL => (CXM1FB, 0x40)
  | Cx_BLPF => (CXBLPF, 0x80)
  | Cx_P0P1 => (CXPPMM, 0x80) | Cx_M0M1 => (CXPPMM, 0x40)
  end.

(** The pair [c] reads as set: [peek] at an address that decodes to the
    register of the pair returns its data bit. *)
Definition readsSet (E : Env) (io : BusInputs) (addr : Z) (c : CollisionBit)
    (s : TIA) : bool :=
  nonzero (Z.land (fst (peek E io addr s)) (snd (cxPort c))).

(** ** A concrete environment for the examples

    The theorems below hold for every environment.  The examples are
    evaluated in this one: the registers at the addresses in the order in
    which section 6 of the specification lists them, one bit per object and
    per collision pair, the collision table of section 4.2, and objects that
    show one copy at their position. *)

Definition stella_bitVal (b : TIABit) : Z :=
  match b with
  | P0Bit => 0x01 | M0Bit => 0x02 | P1Bit => 0x04 | M1Bit => 0x08
  | BLBit => 0x10 | PFBit => 0x20 | ScoreBit => 0x40 | PriorityBit => 0x80
  end.

Definition stella_cxVal (c : CollisionBit) : Z :=
  match c with
  | Cx_M0P1 => 0x0001 | Cx_M0P0 => 0x0002 | Cx_M1P0 => 0x0004
  | Cx_M1P1 => 0x0008 | Cx_P0PF => 0x0010 | Cx_P0BL => 0x0020
  | Cx_P1PF => 0x0040 | Cx_P1BL => 0x0080 | Cx_M0PF => 0x0100
  | Cx_M0BL => 0x0200 | Cx_M1PF => 0x0400 | Cx_M1BL => 0x0800
  | Cx_BLPF => 0x1000 | Cx_P0P1 => 0x2000 | Cx_M0M1 => 0x4000
  end.

Definition stella_writeRegister (a : Z) : TIARegister :=
  match a with
  | 0x00 => VSYNC | 0x01 => VBLANK | 0x02 => WSYNC | 0x03 => RSYNC
  | 0x04 => NUSIZ0 | 0x05 => NUSIZ1 | 0x06 => COLUP0 | 0x07 => COLUP1
  | 0x08 => COLUPF | 0x09 => COLUBK | 0x0A => CTRLPF | 0x0B => REFP0
  | 0x0C => REFP1 | 0x0D => PF0 | 0x0E => PF1 | 0x0F => PF2
  | 0x10 => RESP0 | 0x11 => RESP1 | 0x12 => RESM0 | 0x13 => RESM1
  | 0x14 => RESBL | 0x15 => AUDC0 | 0x16 => AUDC1 | 0x17 => AUDF0
  | 0x18 => AUDF1 | 0x19 => AUDV0 | 0x1A => AUDV1 | 0x1B => GRP0
  | 0x1C => GRP1 | 0x1D => ENAM0 | 0x1E => ENAM1 | 0x1F => ENABL
  | 0x20 => HMP0 | 0x21 => HMP1 | 0x22 => HMM0 | 0x23 => HMM1
  | 0x24 => HMBL | 0x25 => VDELP0 | 0x26 => VDELP1 | 0x27 => VDELBL
  | 0x28 => RESMP0 | 0x29 => RESMP1 | 0x2A => HMOVE | 0x2B => HMCLR
  | 0x2C => CXCLR | _ => BadWrite
  end.

Definition stella_readRegister (a : Z) : TIAReadRegister :=
  match a with
  | 0x00 => CXM0P | 0x01 => CXM1P | 0x02 => CXP0FB | 0x03 => CXP1FB
  | 0x04 => CXM0FB | 0x05 => CXM1FB | 0x06 => CXBLPF | 0x07 => CXPPMM
  | 0x08 => INPT0 | 0x09 => INPT1 | 0x0A => INPT2 | 0x0B => INPT3
  | 0x0C => INPT4 | 0x0D => INPT5 | _ => BadRead
  end.

(** The playfield registers take the position-dependent delay ([-1]); the
    other delays are sample values. *)
Definition stella_PokeDelay (a : Z) : Z :=
  match stella_writeRegister a with
  | PF0 | PF1 | PF2 => -1
  | VBLANK | REFP0 | REFP1 | GRP0 | GRP1 => 1
  | RESM0 | RESM1 => 8
  | HMOVE => 3
  | _ => 0
  end.

Fixpoint reflectBits (n : nat) (x acc : Z) : Z :=
  match n with
  | O => acc
  | S n' => reflectBits n' (Z.shiftr x 1) (Z.lor (Z.shiftl acc 1) (Z.land x 1))
  end.

Definition stellaTables : TIATables :=
  {| bitVal := stella_bitVal
   ; cxVal := stella_cxVal
   ; writeRegister := stella_writeRegister
   ; readRegister := stella_readRegister
   ; PokeDelay := stella_PokeDelay
   ; HMOVEBlankEnableCycles := fun c => (c <? 21) || (74 <? c)
   ; PxPosResetWhen := fun _ _ _ => 0
   ; GRPReflect := fun g => reflectBits 8 g 0
   ; CollisionMask := collisionMaskOf stella_bitVal stella_cxVal |}.

Definition stella_colorIndex (c : TIAColor) : Z :=
  match c with
  | BKColor => 0 | PFColor => 1 | P0Color => 2 | P1Color => 3
  | M0Color => 4 | M1Color => 5 | BLColor => 6 | HBLANKColor => 7
  end.

(** One copy, eight pixels wide, of the current graphics. *)
Definition samplePlayerEnabled (bit : Z) (p : Player.t) (hpos : Z) : Z :=
  let d := hpos - Player.getPos p in
  if Moveable.isEnabled (Player.base p) && (0 <=? d) && (d <? 8)
     && Z.testbit (Player.myCurrentGRP p) (7 - d)
  then bit else 0.

Definition sampleMissileEnabled (bit : Z) (m : Missile.t) (hpos : Z) : Z :=
  if Moveable.isEnabled (Missile.base m) && (hpos =? Missile.getPos m)
  then bit else 0.

Definition sampleBallEnabled (bit : Z) (b : Ball.t) (hpos : Z) : Z :=
  if Moveable.isEnabled (Ball.base b) && (hpos =? Ball.getPos b)
  then bit else 0.

(** Twenty playfield bits of four pixels, repeated or mirrored on the right. *)
Definition samplePlayfieldEnabled (bit : Z) (p : Playfield.t) (hpos : Z) : Z :=
  let i := if hpos <? 80 then hpos / 4
           else if Playfield.myMask p =? 0 then (hpos - 80) / 4
           else 19 - (hpos - 80) / 4 in
  if Playfield.isEnabled p && Z.testbit (Playfield.myPF p) i then bit else 0.

Definition stellaEnv : Env :=
  {| tables := stellaTables
   ; colorIndex := stella_colorIndex
   ; Playfield_getEnabled := samplePlayfieldEnabled 0x20
   ; Player0_getEnabled := samplePlayerEnabled 0x01
   ; Player1_getEnabled := samplePlayerEnabled 0x04
   ; Missile0_getEnabled := sampleMissileEnabled 0x02
   ; Missile1_getEnabled := sampleMissileEnabled 0x08
   ; Ball_getEnabled := sampleBallEnabled 0x10
   ; minimumResistance := 0
   ; maximumResistance := 0x7FFFFFFF |}.

Definition ntscConfig : HostConfig :=
  {| cfg_tiadriven := false; cfg_framerate := 60
   ; cfg_consoleAbove55 := true; cfg_colorloss := false |}.

(** A bus on which nothing is pressed and the last data byte was 0. *)
Definition quietBus : BusInputs :=
  {| in_dataBus := 0; in_dataBusDriven := 0; in_lastAccessWasRead := false
   ; in_leftNine := 0x7FFFFFFF; in_leftFive := 0x7FFFFFFF
   ; in_rightNine := 0x7FFFFFFF; in_rightFive := 0x7FFFFFFF
   ; in_leftSix := true; in_rightSix := true
   ; in_needed := fun _ => 0 |}.

Definition newMoveable : Moveable.t := Moveable.mk false 0 false 0 0 0 false.

(** The TIA as its constructor leaves it (members the constructor does not
    initialise are 0), in a system whose cycle counter is 0. *)
Definition constructed : TIA :=
  {| sys_cycles := 0; sys_stopped := false
   ; myCurrentFrameBuffer := fun _ => 0; myPreviousFrameBuffer := fun _ => 0
   ; myFramePointer := 0; myFramePointerOffset := 0; myFramePointerClocks := 0
   ; myFrameYStart := 34; myFrameHeight := 210; myStopDisplayOffset := 0
   ; myClockWhenFrameStarted := 0; myClockStartDisplay := 0
   ; myClockStopDisplay := 0; myClockAtLastUpdate := 0
   ; myClocksToEndOfScanLine := 0; myScanlineCountForLastFrame := 0
   ; myMaximumNumberOfScanlines := 262; myStartScanline := 0
   ; myVSYNCFinishClock := 0; myVSYNC := 0; myVBLANK := 0
   ; myColor := fun _ => 0; myFixedColor := fun _ => 0
   ; myColorPtrIsFixed := false; myCollision := 0
   ; myCollisionEnabledMask := 0; myDumpDisabledCycle := 0
   ; myDumpEnabled := false; myINPT4 := 0; myINPT5 := 0
   ; myHMOVEBlankEnabled := false; myAllowHMOVEBlanks := false
   ; myTIAPinsDriven := false; myDisabledObjects := 0xFF
   ; myColorLossEnabled := false; myPartialFrameFlag := false
   ; myAutoFrameEnabled := false; myFrameCounter := 0; myPALFrameCounter := 0
   ; myBitsEnabled := true; myCollisionsEnabled := true
   ; myCurrentHMOVEPos := 0; myPreviousHMOVEPos := 0
   ; myPlayer0 := Player.reset (Player.mk newMoveable 0 0 0 false 0 0 (0, 0, 0, 0))
   ; myPlayer1 := Player.reset (Player.mk newMoveable 0 0 0 false 0 0 (0, 0, 0, 0))
   ; myMissile0 := Missile.reset (Missile.mk newMoveable false 0 false (MxMask 0 0 0 0))
   ; myMissile1 := Missile.reset (Missile.mk newMoveable false 0 false (MxMask 0 0 0 0))
   ; myBall := Ball.reset (Ball.mk newMoveable false 0 false false (0, 0, 0))
   ; myPlayfield := Playfield.reset (Playfield.mk false 0 0 0 0) |}.

(** The TIA after [reset()] on an NTSC console. *)
Definition powerOn : TIA := reset stellaEnv ntscConfig constructed.

(** [poke] at CPU cycle [cycle] of the current frame. *)
Definition pokeAt (cycle addr value : Z) (s : TIA) : TIA :=
  poke stellaEnv quietBus addr value (set_sys_cycles cycle s).


(** ** Scenarios

    Register writes of a program, cycle by cycle, from power-on. *)

(** HMM0 = 0x70 (fifteen motion clocks), HMOVE strobed at cycle 74 of the
    first scanline (hpos 154), RESM0 three cycles later, at cycle 1 of the
    next scanline (hpos -65). *)
Definition lateHMOVE_then_RESM0 : TIA :=
  pokeAt 77 0x12 0 (pokeAt 74 0x2A 0 (pokeAt 0 0x22 0x70 powerOn)).

(** The same with player 0: HMP0 = 0x70, HMOVE, RESP0. *)
Definition lateHMOVE_then_RESP0 : TIA :=
  pokeAt 77 0x10 0 (pokeAt 74 0x2A 0 (pokeAt 0 0x20 0x70 powerOn)).

(** COLUBK = 0x1A, then a catch-up to color clock 228, the first clock of the
    second scanline. *)
Definition atScanlineBoundary : TIA :=
  updateFrame stellaEnv 228 (pokeAt 0 0x09 0x1A powerOn).

(** Both players show eight pixels at position 0; CXCLR is written at cycle
    76, the first cycle of the second scanline; the CPU is then at cycle 110
    (hpos 34 of the second scanline). *)
Definition overlapAfterCXCLR : TIA :=
  set_sys_cycles 110
    (pokeAt 76 0x2C 0 (pokeAt 0 0x1C 0xFF (pokeAt 0 0x1B 0xFF powerOn))).

(** Any state in which 25 of 60 completed frames were PAL frames. *)
Definition after25of60 (s : TIA) : TIA :=
  set_myFrameCounter 60 (set_myPALFrameCounter 25 s).

(** A floating-point value that is a number (neither NaN nor an infinity). *)
Definition isNumber (x : spec_float) : bool :=
  match x with
  | S754_zero _ | S754_finite _ _ _ => true
  | S754_infinity _ | S754_nan => false
  end.

(** ** Further operations of TIA.cxx *)

(** [TIA::scanlinePos]: the result and the [uInt16] coordinates [(x, y)]. *)
Definition scanlinePos (s : TIA) : bool * (Z * Z) :=
  if myPartialFrameFlag s then
    (* We only care about the scanline position when it's in the viewable area *)
    if myFramePointerClocks s >=? myFramePointerOffset s then
      (true,
       (uInt16 (uInt32 (myFramePointerClocks s - myFramePointerOffset s)
                mod SCANLINE_PIXEL),
        uInt16 (uInt32 (myFramePointerClocks s - myFramePointerOffset s)
                / SCANLINE_PIXEL)))
    else (false, (0, 0))
  else (false, (uInt16 160, uInt16 (myFrameHeight s))).

(** [TIA::toggleBits] *)
Definition toggleBits (T : TIATables) (s : TIA) : bool * TIA :=
  let s := set_myBitsEnabled (negb (myBitsEnabled s)) s in
  let s := enableBits T (myBitsEnabled s) s in
  (myBitsEnabled s, s).

(** [TIA::toggleCollisions] *)
Definition toggleCollisions (T : TIATables) (s : TIA) : bool * TIA :=
  let s := set_myCollisionsEnabled (negb (myCollisionsEnabled s)) s in
  let s := enableCollisions T (myCollisionsEnabled s) s in
  (myCollisionsEnabled s, s).

(** [TIA::toggleHMOVEBlank] *)
Definition toggleHMOVEBlank (s : TIA) : bool * TIA :=
  let s := set_myAllowHMOVEBlanks
             (if myAllowHMOVEBlanks s then false else true) s in
  (myAllowHMOVEBlanks s, s).

(** [TIA::update]; [execute] is [mySystem->m6502().execute(25000)], the
    program of the cartridge running against this TIA. *)
Definition update (E : Env) (execute : TIA -> TIA) (s : TIA) : TIA :=
  (* if we've finished a frame, start a new one *)
  let s := if negb (myPartialFrameFlag s) then startFrame E s else s in
  let s := set_myPartialFrameFlag true s in
  (* Execute instructions until frame is finished, or a breakpoint/trap hits *)
  let s := execute s in
  endFrame E s.

(** ** Traces, scenarios and predicates of the properties *)

(** [f] reads a part of the state that none of the assignments of
    [updateFrame] touches. *)
Record RenderStable {A : Type} (f : TIA -> A) : Prop := mkRenderStable
  { rs_collision : forall v s, f (set_myCollision v s) = f s
  ; rs_frameBuffer : forall v s, f (set_myCurrentFrameBuffer v s) = f s
  ; rs_framePointer : forall v s, f (set_myFramePointer v s) = f s
  ; rs_framePointerClocks : forall v s, f (set_myFramePointerClocks v s) = f s
  ; rs_player0 : forall v s, f (set_myPlayer0 v s) = f s
  ; rs_player1 : forall v s, f (set_myPlayer1 v s) = f s
  ; rs_missile0 : forall v s, f (set_myMissile0 v s) = f s
  ; rs_missile1 : forall v s, f (set_myMissile1 v s) = f s
  ; rs_ball : forall v s, f (set_myBall v s) = f s
  ; rs_previousHMOVE : forall v s, f (set_myPreviousHMOVEPos v s) = f s
  ; rs_currentHMOVE : forall v s, f (set_myCurrentHMOVEPos v s) = f s
  ; rs_clocksToEnd : forall v s, f (set_myClocksToEndOfScanLine v s) = f s
  ; rs_lastUpdate : forall v s, f (set_myClockAtLastUpdate v s) = f s
  ; rs_blank : forall v s, f (set_myHMOVEBlankEnabled v s) = f s }.

(** [f] is also out of reach of the register writes other than VSYNC and
    VBLANK. *)
Record PokeStable {A : Type} (f : TIA -> A) : Prop := mkPokeStable
  { ps_render : RenderStable f
  ; ps_playfield : forall v s, f (set_myPlayfield v s) = f s
  ; ps_color : forall v s, f (set_myColor v s) = f s
  ; ps_cycles : forall v s, f (set_sys_cycles v s) = f s }.

(** The five moveable objects, as [poke] visits them. *)
Definition moveables (s : TIA) : list Moveable.t :=
  [Player.base (myPlayer0 s); Player.base (myPlayer1 s);
   Missile.base (myMissile0 s); Missile.base (myMissile1 s);
   Ball.base (myBall s)].

(** A state in which the computed hpos is -3 (the frame start is not a
    multiple of three color clocks away from the write, as a restored state
    may have it): every object carries the motion clock 8 of an earlier
    HMOVE, and missile 0 stands at 80 with its latch set. *)
Definition hmoveAtMinus3 : TIA :=
  let s := pokeAt 0 0x2A 0 powerOn in
  let m := myMissile0 s in
  set_myMissile0
    (Missile.set_base
       (Moveable.set_myHMmmr true (Moveable.set_myPos 80 (Missile.base m))) m)
    (set_myClockWhenFrameStarted (-2) (set_sys_cycles 21 s)).

(** What the 6507 does on the bus, as far as the TIA sees it. *)
Inductive BusOp : Type :=
| Peek (io : BusInputs) (addr : Z)
| Poke (io : BusInputs) (addr value : Z)
| Tick (cycles : Z).

(** One bus operation; a read reports the register it decoded to and the
    latched bit (D7) of the byte it returned. *)
Definition busStep (E : Env) (op : BusOp) (s : TIA)
  : option (TIAReadRegister * Z) * TIA :=
  match op with
  | Peek io addr =>
      let r := peek E io addr s in
      (Some (readRegister E (Z.land addr 0x000f), Z.land (fst r) 0x80), snd r)
  | Poke io addr value => (None, poke E io addr value s)
  | Tick n => (None, tick n s)
  end.

Definition isPort (port r : TIAReadRegister) : bool :=
  match port, r with
  | INPT4, INPT4 | INPT5, INPT5 => true
  | _, _ => false
  end.

(** Bit 7 of the successive reads of [port] during a run. *)
Fixpoint observed (E : Env) (port : TIAReadRegister) (ops : list BusOp)
    (s : TIA) : list Z :=
  match ops with
  | [] => []
  | op :: rest =>
      let r := busStep E op s in
      match fst r with
      | Some (reg, bit) =>
          if isPort port reg then bit :: observed E port rest (snd r)
          else observed E port rest (snd r)
      | None => observed E port rest (snd r)
      end
  end.

(** The operation does not take VBLANK bit 6 away. *)
Definition keepsLatchMode (E : Env) (op : BusOp) : Prop :=
  match op with
  | Poke _ addr value =>
      writeRegister E (Z.land addr 0x003f) = VBLANK ->
      nonzero (Z.land value 0x40) = true
  | _ => True
  end.

(** Once a read has returned the bit cleared, every later read has too. *)
Definition neverSetAgain (bits : list Z) : Prop :=
  forall pre post, bits = pre ++ 0 :: post -> Forall (fun b => b = 0) post.

Definition latchMode (s : TIA) : bool := nonzero (Z.land (myVBLANK s) 0x40).

Definition latchOf (port : TIAReadRegister) (s : TIA) : Z :=
  match port with INPT5 => myINPT5 s | _ => myINPT4 s end.

(** The left fire button held down (the pin reads low). *)
Definition leftFirePressed : BusInputs :=
  {| in_dataBus := 0; in_dataBusDriven := 0; in_lastAccessWasRead := false
   ; in_leftNine := 0x7FFFFFFF; in_leftFive := 0x7FFFFFFF
   ; in_rightNine := 0x7FFFFFFF; in_rightFive := 0x7FFFFFFF
   ; in_leftSix := false; in_rightSix := true
   ; in_needed := fun _ => 0 |}.

(** VBLANK = 0x40 after power-on. *)
Definition latchedModeOn : TIA := pokeAt 0 0x01 0x40 powerOn.

(** Read INPT4, press the button and read, rewrite VBLANK with bit 6 kept,
    release the button and read; read INPT5. *)
Definition fireAndRelease : list BusOp :=
  [ Peek quietBus 0x0C; Tick 10; Peek leftFirePressed 0x0C; Tick 10
  ; Poke quietBus 0x01 0x42; Peek quietBus 0x0C; Peek quietBus 0x0D ].

(** The horizontal positions of a run of [n] pixels that starts at [hpos]. *)
Fixpoint positions (n : nat) (hpos : Z) : list Z :=
  match n with
  | O => []
  | S n' => hpos :: positions n' (uInt32 (hpos + 1))
  end.

(** The collision pairs have one bit each of the 16-bit register. *)
Definition oneBitPerPair (T : TIATables) (idx : CollisionBit -> Z) : Prop :=
  (forall c, 0 <= idx c < 16 /\ cxVal T c = Z.shiftl 1 (idx c))
  /\ (forall c c', idx c = idx c' -> c = c').

(** The collision table has, for a set of enabled objects, the bits of the
    pairs of which both objects are enabled. *)
Definition tableOfPairs (T : TIATables) : Prop :=
  forall enabled,
    CollisionMask T enabled = collisionMaskOf (bitVal T) (cxVal T) enabled.

(** The pair's bit in the lower half of [myCollisionEnabledMask]. *)
Definition maskBit (T : TIATables) (c : CollisionBit) (s : TIA) : bool :=
  nonzero (Z.land (uInt16 (myCollisionEnabledMask s)) (cxVal T c)).

Definition inPair (o : TIABit) (c : CollisionBit) : Prop :=
  o = fst (cxPair c) \/ o = snd (cxPair c).

(** The mask has no bit of a pair with an object whose flag is off. *)
Definition masksCoherent (T : TIATables) (s : TIA) : Prop :=
  forall c o, inPair o c -> collisionFlag T o s = false -> maskBit T c s = false.

(** The register bit of each pair in the sample environment. *)
Definition stella_cxIndex (c : CollisionBit) : Z :=
  match c with
  | Cx_M0P1 => 0 | Cx_M0P0 => 1 | Cx_M1P0 => 2 | Cx_M1P1 => 3
  | Cx_P0PF => 4 | Cx_P0BL => 5 | Cx_P1PF => 6 | Cx_P1BL => 7
  | Cx_M0PF => 8 | Cx_M0BL => 9 | Cx_M1PF => 10 | Cx_M1BL => 11
  | Cx_BLPF => 12 | Cx_P0P1 => 13 | Cx_M0M1 => 14
  end.

(** Both players show eight pixels at position 0; the CPU is at cycle 150,
    in the second scanline. *)
Definition playersOverlap : TIA :=
  set_sys_cycles 150 (pokeAt 0 0x1C 0xFF (pokeAt 0 0x1B 0xFF powerOn)).

(** After a read of CXPPMM both graphics registers are cleared, the next
    frame is started and the CPU runs to cycle 150 of it. *)
Definition nextFrameWithoutGraphics : TIA :=
  set_sys_cycles 150
    (startFrame stellaEnv
       (pokeAt 150 0x1C 0 (pokeAt 150 0x1B 0
          (snd (peek stellaEnv quietBus 0x07 playersOverlap))))).

(** The collision flag of player 1 switched off while the players overlap. *)
Definition player1CollisionsOff : TIA :=
  snd (toggleCollision stellaEnv P1Bit 0 playersOverlap).

Definition isSome {A : Type} (o : option A) : bool :=
  match o with Some _ => true | None => false end.

Section SerialisationRelations.

Context {Stream : Type} `{Serializer Stream} `{SoundDevice Stream}.

(** The block [m] reads the fields of the layout [L]: it runs to its end
    exactly when the stream holds them all, and leaves the stream after
    them. *)
Definition reads {St A : Type} (m : Ser St Stream A) (L : list FieldKind) : Prop :=
  forall st io,
    match m st io, readAll L io with
    | Done _ _ io', Some io'' => io' = io''
    | Thrown _, None => True
    | _, _ => False
    end.

(** The block [m] writes the fields [L]. *)
Definition writes {St A : Type} (m : Ser St Stream A) (L : list Field) : Prop :=
  forall st io,
    match m st io, writeAll L io with
    | Done _ _ io', Some io'' => io' = io''
    | Thrown _, None => True
    | _, _ => False
    end.

End SerialisationRelations.

(** A stream in memory: the fields it holds, and the number of fields it
    still has room for.  A read of the wrong kind or past the end fails, a
    write without room fails. *)
Definition MemoryStream : Type := (list Field * nat)%type.

Definition takeField {A : Type} (sel : Field -> option A) (io : MemoryStream)
  : option (A * MemoryStream) :=
  match fst io with
  | f :: rest =>
      match sel f with
      | Some a => Some (a, (rest, snd io))
      | None => None
      end
  | [] => None
  end.

Definition putField (f : Field) (io : MemoryStream) : option MemoryStream :=
  match snd io with
  | O => None
  | S room => Some (fst io ++ [f], room)
  end.

#[global] Instance MemorySerializer : Serializer MemoryStream :=
  {| getByte := takeField (fun f => match f with FByte z => Some z | _ => None end)
   ; getShort := takeField (fun f => match f with FShort z => Some z | _ => None end)
   ; getInt := takeField (fun f => match f with FInt z => Some z | _ => None end)
   ; getBool := takeField (fun f => match f with FBool b => Some b | _ => None end)
   ; getString := takeField (fun f => match f with FString str => Some str | _ => None end)
   ; getIntArray := fun n =>
       takeField (fun f => match f with
                           | FIntArray l =>
                               if Nat.eqb (List.length l) n then Some l else None
                           | _ => None
                           end)
   ; putByte := fun z => putField (FByte z)
   ; putShort := fun z => putField (FShort z)
   ; putInt := fun z => putField (FInt z)
   ; putBool := fun b => putField (FBool b)
   ; putString := fun str => putField (FString str)
   ; putIntArray := fun l => putField (FIntArray l) |}.

#[global] Instance MemorySound : SoundDevice MemoryStream :=
  {| Sound_save := putField FSound
   ; Sound_load := fun io =>
       option_map snd
         (takeField (fun f => match f with FSound => Some tt | _ => None end) io) |}.

(** The state block of [lateHMOVE_then_RESM0], saved into an empty stream
    with room for 200 fields. *)
Definition savedState : option MemoryStream :=
  snd (save lateHMOVE_then_RESM0 ([], 200%nat)).

Definition streamOf (o : option MemoryStream) : MemoryStream :=
  match o with Some io => io | None => ([], O) end.

(** The pair [c] is latched in the collision register of [u]. *)
Definition latchedIn (T : TIATables) (c : CollisionBit) (u : TIA) : Prop :=
  latched T c (myCollision u) = true.

(** The operation is not a write to CXCLR. *)
Definition keepsLatches (E : Env) (op : BusOp) : Prop :=
  match op with
  | Poke _ addr _ => writeRegister E (Z.land addr 0x003f) <> CXCLR
  | _ => True
  end.

(** ** Predicates and scenarios of the further properties *)

Definition midScanline : TIA := set_sys_cycles 100 powerOn.

Definition beamInPicture : TIA :=
  set_myPartialFrameFlag true
    (set_myFramePointerOffset 5440 (set_myFramePointerClocks 6000 powerOn)).

(** The bits a register drives on top of the bus: D7 and D6 only. *)
Definition drivenBits (x : Z) : Prop :=
  Z.land x 0x3F = 0 /\ Z.land x 0xFF = x.

Definition objectBits : list TIABit := [P0Bit; P1Bit; M0Bit; M1Bit; BLBit; PFBit].

(** The upper half of [myCollisionEnabledMask]: the objects whose
    collisions are enabled. *)
Definition collisionFlags (s : TIA) : Z :=
  uInt16 (Z.shiftr (myCollisionEnabledMask s) 16).

(** The registers of a moveable object as the header describes them: a
    position of 0 to 159, a motion clock of 0 to 15, and HM a byte. *)
Definition inRange (o : Moveable.t) : Prop :=
  0 <= Moveable.myPos o < 160
  /\ 0 <= Moveable.myMotionClock o <= 15
  /\ 0 <= Moveable.myHM o < 256.

Definition restingObject : Moveable.t := Moveable.mk true 0x00 false 0 8 0 false.

(** HM of every object set, as a program leaves them before HMCLR. *)
Definition allMotionsSet : TIA :=
  pokeAt 20 0x24 0xF0 (pokeAt 18 0x23 0x10 (pokeAt 16 0x22 0x70
    (pokeAt 14 0x21 0x80 (pokeAt 12 0x20 0x30 powerOn)))).

(** The latch of player 0 set by a late HMP0 write during an HMOVE. *)
Definition latchOfPlayer0Set : TIA := pokeAt 12 0x20 0x90 (pokeAt 0 0x2A 0 powerOn).

(** The dump flag is bit 7 of VBLANK. *)
Definition dumpCoherent (s : TIA) : Prop :=
  myDumpEnabled s = nonzero (Z.land (myVBLANK s) 0x80).

(** VBLANK written with bit 7 set, a paddle in the middle of its range. *)
Definition paddlesGrounded : TIA := pokeAt 10 0x01 0x80 powerOn.

Definition paddleBus : BusInputs :=
  {| in_dataBus := 0; in_dataBusDriven := 0; in_lastAccessWasRead := false
   ; in_leftNine := 500000; in_leftFive := 0x7FFFFFFF
   ; in_rightNine := 0x7FFFFFFF; in_rightFive := 0x7FFFFFFF
   ; in_leftSix := true; in_rightSix := true
   ; in_needed := fun _ => 0 |}.

(** A PAL-length frame: 312 scanlines after power-on. *)
Definition after312Lines : TIA := set_sys_cycles (312 * 76) powerOn.

(** VBLANK was switched off on scanline 40; the frame ends on scanline 30
    of the next pass. *)
Definition endsBeforePicture : TIA :=
  set_sys_cycles (30 * 76) (set_myStartScanline 40 powerOn).

(** [f] reads a part of the state out of reach of the objects, the frame
    buffer and the HMOVE bookkeeping; the collision register and the two
    scanline clocks may be such parts. *)
Record ObjectStable {A : Type} (f : TIA -> A) : Prop := mkObjectStable
  { os_frameBuffer : forall v s, f (set_myCurrentFrameBuffer v s) = f s
  ; os_framePointer : forall v s, f (set_myFramePointer v s) = f s
  ; os_framePointerClocks : forall v s, f (set_myFramePointerClocks v s) = f s
  ; os_player0 : forall v s, f (set_myPlayer0 v s) = f s
  ; os_player1 : forall v s, f (set_myPlayer1 v s) = f s
  ; os_missile0 : forall v s, f (set_myMissile0 v s) = f s
  ; os_missile1 : forall v s, f (set_myMissile1 v s) = f s
  ; os_ball : forall v s, f (set_myBall v s) = f s
  ; os_previousHMOVE : forall v s, f (set_myPreviousHMOVEPos v s) = f s
  ; os_currentHMOVE : forall v s, f (set_myCurrentHMOVEPos v s) = f s
  ; os_blank : forall v s, f (set_myHMOVEBlankEnabled v s) = f s }.

(** Both players show eight pixels at position 0 with VBLANK bit 1 set. *)
Definition overlapInBlank : TIA :=
  pokeAt 0 0x1C 0xFF (pokeAt 0 0x1B 0xFF (pokeAt 0 0x01 0x02 powerOn)).

(** The frame pointer has not moved back from [fp], and the pixels below
    [fp] are those of [fb]. *)
Definition drawnKept (fp : Z) (fb : FrameBuffer) (u : TIA) : Prop :=
  fp <= myFramePointer u
  /\ forall i, i < fp -> myCurrentFrameBuffer u i = fb i.

(** The bookkeeping of the renderer on scanline [line] of the frame: the
    last-updated clock, the clocks left on the scanline and the frame pointer
    describe the same beam position, 160 pixels to a scanline of 228 clocks,
    and the display stops within the 320 lines of the buffer. *)
Definition beamAt (line : Z) (u : TIA) : Prop :=
  0 <= line
  /\ 0 <= myClocksToEndOfScanLine u <= 228
  /\ myClockAtLastUpdate u
     = myClockWhenFrameStarted u + 228 * line
       + (228 - myClocksToEndOfScanLine u)
  /\ myFramePointer u
     = 160 * line + Z.max 0 (228 - myClocksToEndOfScanLine u - 68)
  /\ myClockAtLastUpdate u <= myClockStopDisplay u
  /\ (myClocksToEndOfScanLine u = 228 ->
      myClockAtLastUpdate u < myClockStopDisplay u)
  /\ myClockStopDisplay u <= myClockWhenFrameStarted u + 228 * 320.

(** The pixels outside the buffer are those of [fb]. *)
Definition outsideKept (fb : FrameBuffer) (u : TIA) : Prop :=
  forall i, i < 0 \/ BUFFER_SIZE <= i -> myCurrentFrameBuffer u i = fb i.

(** The renderer's bookkeeping is coherent on some scanline, and no pixel
    outside the buffer differs from [fb]. *)
Definition inBuffer (fb : FrameBuffer) (u : TIA) : Prop :=
  (exists line, beamAt line u) /\ outsideKept fb u.

(** The members [beamAt] and [outsideKept] read. *)
Definition beamView (u : TIA) : Z * Z * Z * Z * Z * FrameBuffer :=
  (myClockAtLastUpdate u, myClocksToEndOfScanLine u, myClockWhenFrameStarted u,
   myClockStopDisplay u, myFramePointer u, myCurrentFrameBuffer u).

(** A run of bus operations. *)
Definition runBus (E : Env) (ops : list BusOp) (s : TIA) : TIA :=
  fold_left (fun u op => snd (busStep E op u)) ops s.

(** A background colour write, a collision read a few scanlines later and
    a WSYNC write. *)
Definition paintAndPoll : list BusOp :=
  [Poke quietBus 0x09 0x1A; Tick 200; Peek quietBus 0x00; Tick 100;
   Poke quietBus 0x02 0].

(** The graphics a player shows for the byte [g]: reflected when REFP is
    set. *)
Definition shownAs (T : TIATables) (g : Z) (p : Player.t) : Z :=
  if Player.myREFP p then uInt8 (GRPReflect T g) else g.

Definition delayed (p : Player.t) : bool := Moveable.myVDEL (Player.base p).

(** The bits of [myPF] that come from PF0, PF1 and PF2. *)
Definition pf0Bits (p : Playfield.t) : Z := Z.land (Playfield.myPF p) 0x0F.
Definition pf1Bits (p : Playfield.t) : Z :=
  Z.land (Z.shiftr (Playfield.myPF p) 4) 0xFF.
Definition pf2Bits (p : Playfield.t) : Z :=
  Z.land (Z.shiftr (Playfield.myPF p) 12) 0xFF.

(** A playfield with the pattern 0x12345: PF0 holds 5, PF1 0x34 and PF2
    0x12. *)
Definition patterned : Playfield.t := Playfield.mk true 0 0x12345 0 0.

(** The members the bus operations leave alone and [startFrame] and
    [endFrame] work on. *)
Definition frameView (u : TIA) : Z * FrameBuffer :=
  (myStopDisplayOffset u, myPreviousFrameBuffer u).

(** No pixel outside the two buffers differs from [g] and [h], whichever of
    the two is the current one. *)
Definition outsideBoth (g h : FrameBuffer) (u : TIA) : Prop :=
  (forall i, i < 0 \/ BUFFER_SIZE <= i ->
     myCurrentFrameBuffer u i = g i /\ myPreviousFrameBuffer u i = h i)
  \/ (forall i, i < 0 \/ BUFFER_SIZE <= i ->
        myCurrentFrameBuffer u i = h i /\ myPreviousFrameBuffer u i = g i).

(** What [update] needs and leaves: a stop-display offset of at most 320
    scanlines, the frame pointer inside the buffer, and coherent bookkeeping
    when a frame is under way. *)
Definition frameSafe (u : TIA) : Prop :=
  0 < myStopDisplayOffset u <= SCANLINE_CLOCKS * BUFFER_LINES
  /\ 0 <= myFramePointer u <= BUFFER_SIZE
  /\ (myPartialFrameFlag u = true -> exists line, beamAt line u).

(** [update] once per frame, the CPU doing the bus operations of [ops]. *)
Definition runFrames (E : Env) (frames : list (list BusOp)) (s : TIA) : TIA :=
  fold_left (fun u ops => update E (runBus E ops) u) frames s.

(** A frame that paints the background and ends with a VSYNC strobe one
    scanline long. *)
Definition paintAndSync : list BusOp :=
  [Poke quietBus 0x09 0x1A; Tick 200; Poke quietBus 0x00 0x02; Tick 76;
   Poke quietBus 0x00 0x00].

(** ** Properties *)

(** *** Proof tools *)

(** Projections of updated records. *)
Ltac tia_cbn :=
  cbn [
    sys_cycles sys_stopped myCurrentFrameBuffer myPreviousFrameBuffer
    myFramePointer myFramePointerOffset myFramePointerClocks myFrameYStart
    myFrameHeight myStopDisplayOffset myClockWhenFrameStarted
    myClockStartDisplay myClockStopDisplay myClockAtLastUpdate
    myClocksToEndOfScanLine myScanlineCountForLastFrame
    myMaximumNumberOfScanlines myStartScanline myVSYNCFinishClock myVSYNC
    myVBLANK myColor myFixedColor myColorPtrIsFixed myCollision
    myCollisionEnabledMask myDumpDisabledCycle myDumpEnabled myINPT4 myINPT5
    myHMOVEBlankEnabled myAllowHMOVEBlanks myTIAPinsDriven myDisabledObjects
    myColorLossEnabled myPartialFrameFlag myAutoFrameEnabled myFrameCounter
    myPALFrameCounter myBitsEnabled myCollisionsEnabled myCurrentHMOVEPos
    myPreviousHMOVEPos myPlayer0 myPlayer1 myMissile0 myMissile1 myBall
    myPlayfield set_sys_cycles set_sys_stopped set_myCurrentFrameBuffer
    set_myPreviousFrameBuffer set_myFramePointer set_myFramePointerOffset
    set_myFramePointerClocks set_myStopDisplayOffset
    set_myClockWhenFrameStarted set_myClockStartDisplay
    set_myClockStopDisplay set_myClockAtLastUpdate
    set_myClocksToEndOfScanLine set_myScanlineCountForLastFrame
    set_myMaximumNumberOfScanlines set_myStartScanline set_myVSYNCFinishClock
    set_myVSYNC set_myVBLANK set_myColor set_myFixedColor
    set_myColorPtrIsFixed set_myCollision set_myCollisionEnabledMask
    set_myDumpDisabledCycle set_myDumpEnabled set_myINPT4 set_myINPT5
    set_myHMOVEBlankEnabled set_myAllowHMOVEBlanks set_myTIAPinsDriven
    set_myDisabledObjects set_myColorLossEnabled set_myPartialFrameFlag
    set_myAutoFrameEnabled set_myFrameCounter set_myPALFrameCounter
    set_myBitsEnabled set_myCollisionsEnabled set_myCurrentHMOVEPos
    set_myPreviousHMOVEPos set_myPlayer0 set_myPlayer1 set_myMissile0
    set_myMissile1 set_myBall set_myPlayfield Moveable.isEnabled
    Moveable.myHM Moveable.myVDEL Moveable.myPos Moveable.myMotionClock
    Moveable.myStart Moveable.myHMmmr Moveable.set_isEnabled
    Moveable.set_myHM Moveable.set_myVDEL Moveable.set_myPos
    Moveable.set_myMotionClock Moveable.set_myHMmmr Player.base Player.myGRP
    Player.myDGRP Player.myNUSIZ Player.myREFP Player.mySuppress
    Player.myCurrentGRP Player.myMask Player.getPos Player.getMotionClock
    Player.getSuppress Player.set_base Player.set_myGRP Player.set_myDGRP
    Player.set_myNUSIZ Player.set_myREFP Player.set_mySuppress
    Player.set_myCurrentGRP Player.set_myMask Missile.base Missile.myENABLE
    Missile.myNUSIZ Missile.myRESMP Missile.myMask Missile.getPos
    Missile.set_base Missile.set_myENABLE Missile.set_myNUSIZ
    Missile.set_myRESMP Missile.set_myMask Ball.base Ball.myENABLE
    Ball.myCTRLPF Ball.myDENABLE Ball.myCurrentEnabled Ball.myMask
    Ball.getPos Ball.set_base Ball.set_myENABLE Ball.set_myCTRLPF
    Ball.set_myDENABLE Ball.set_myCurrentEnabled Ball.set_myMask
    Playfield.isEnabled Playfield.myCTRLPF Playfield.myPF
    Playfield.myPriorityAndScore Playfield.myMask
    Playfield.getPriorityAndScore Playfield.set_myPF Playfield.handleEnabled
    v_clock v_clockWhenFrameStarted v_currentHMOVEPos v_previousHMOVEPos fst
    snd negb andb orb ].

Ltac tia_cbn_in H :=
  cbn [
    sys_cycles sys_stopped myCurrentFrameBuffer myPreviousFrameBuffer
    myFramePointer myFramePointerOffset myFramePointerClocks myFrameYStart
    myFrameHeight myStopDisplayOffset myClockWhenFrameStarted
    myClockStartDisplay myClockStopDisplay myClockAtLastUpdate
    myClocksToEndOfScanLine myScanlineCountForLastFrame
    myMaximumNumberOfScanlines myStartScanline myVSYNCFinishClock myVSYNC
    myVBLANK myColor myFixedColor myColorPtrIsFixed myCollision
    myCollisionEnabledMask myDumpDisabledCycle myDumpEnabled myINPT4 myINPT5
    myHMOVEBlankEnabled myAllowHMOVEBlanks myTIAPinsDriven myDisabledObjects
    myColorLossEnabled myPartialFrameFlag myAutoFrameEnabled myFrameCounter
    myPALFrameCounter myBitsEnabled myCollisionsEnabled myCurrentHMOVEPos
    myPreviousHMOVEPos myPlayer0 myPlayer1 myMissile0 myMissile1 myBall
    myPlayfield set_sys_cycles set_sys_stopped set_myCurrentFrameBuffer
    set_myPreviousFrameBuffer set_myFramePointer set_myFramePointerOffset
    set_myFramePointerClocks set_myStopDisplayOffset
    set_myClockWhenFrameStarted set_myClockStartDisplay
    set_myClockStopDisplay set_myClockAtLastUpdate
    set_myClocksToEndOfScanLine set_myScanlineCountForLastFrame
    set_myMaximumNumberOfScanlines set_myStartScanline set_myVSYNCFinishClock
    set_myVSYNC set_myVBLANK set_myColor set_myFixedColor
    set_myColorPtrIsFixed set_myCollision set_myCollisionEnabledMask
    set_myDumpDisabledCycle set_myDumpEnabled set_myINPT4 set_myINPT5
    set_myHMOVEBlankEnabled set_myAllowHMOVEBlanks set_myTIAPinsDriven
    set_myDisabledObjects set_myColorLossEnabled set_myPartialFrameFlag
    set_myAutoFrameEnabled set_myFrameCounter set_myPALFrameCounter
    set_myBitsEnabled set_myCollisionsEnabled set_myCurrentHMOVEPos
    set_myPreviousHMOVEPos set_myPlayer0 set_myPlayer1 set_myMissile0
    set_myMissile1 set_myBall set_myPlayfield Moveable.isEnabled
    Moveable.myHM Moveable.myVDEL Moveable.myPos Moveable.myMotionClock
    Moveable.myStart Moveable.myHMmmr Moveable.set_isEnabled
    Moveable.set_myHM Moveable.set_myVDEL Moveable.set_myPos
    Moveable.set_myMotionClock Moveable.set_myHMmmr Player.base Player.myGRP
    Player.myDGRP Player.myNUSIZ Player.myREFP Player.mySuppress
    Player.myCurrentGRP Player.myMask Player.getPos Player.getMotionClock
    Player.getSuppress Player.set_base Player.set_myGRP Player.set_myDGRP
    Player.set_myNUSIZ Player.set_myREFP Player.set_mySuppress
    Player.set_myCurrentGRP Player.set_myMask Missile.base Missile.myENABLE
    Missile.myNUSIZ Missile.myRESMP Missile.myMask Missile.getPos
    Missile.set_base Missile.set_myENABLE Missile.set_myNUSIZ
    Missile.set_myRESMP Missile.set_myMask Ball.base Ball.myENABLE
    Ball.myCTRLPF Ball.myDENABLE Ball.myCurrentEnabled Ball.myMask
    Ball.getPos Ball.set_base Ball.set_myENABLE Ball.set_myCTRLPF
    Ball.set_myDENABLE Ball.set_myCurrentEnabled Ball.set_myMask
    Playfield.isEnabled Playfield.myCTRLPF Playfield.myPF
    Playfield.myPriorityAndScore Playfield.myMask
    Playfield.getPriorityAndScore Playfield.set_myPF Playfield.handleEnabled
    v_clock v_clockWhenFrameStarted v_currentHMOVEPos v_previousHMOVEPos fst
    snd negb andb orb ] in H.

(** Case analysis on a condition that contains no other condition. *)
Ltac split_if :=
  match goal with
  | |- context [if ?c then _ else _] =>
      lazymatch c with
      | context [if _ then _ else _] => fail
      | _ => destruct c eqn:?
      end
  end.

(** *** Position registers (claim C1) *)

(** C1 (the code leaves the range): after HMM0 = 0x70, an HMOVE strobe at
    hpos 154 and a RESM0 write at hpos -65 of the next scanline, the position
    register of missile 0 is -13, outside [0,160): the correction for the
    previous HMOVE in [applyPreviousHMOVEMotion] subtracts the fifteen motion
    clocks from the reset position 2 and is not wrapped. *)
Example C1_RESM0_after_late_HMOVE :
  Missile.getPos (myMissile0 lateHMOVE_then_RESM0) = -13
  /\ Missile.myMask (Missile.updateMask (myMissile0 lateHMOVE_then_RESM0))
     = MxMask 3 0 0 (-80).
Proof. vm_compute. split; reflexivity. Qed.

(** The RESP0 case of [poke] has the same defect: player 0 ends at -12. *)
Example RESP0_after_late_HMOVE :
  Player.getPos (myPlayer0 lateHMOVE_then_RESP0) = -12.
Proof. vm_compute. reflexivity. Qed.

(** *** Catch-up rendering (claim C3) *)

(** C3 (the code is not idempotent): when the previous catch-up ended exactly
    on a scanline boundary ([myClocksToEndOfScanLine] is left at 0), a call of
    [updateFrame] with a target inside the new scanline only re-arms the
    scanline counter, and the same call made again renders: it advances the
    last-updated clock from 228 to 328 and writes 32 pixels.  Through [peek]
    the same happens to the collision register: the first read of CXPPMM
    misses the overlap of the two players, the second reports it. *)
Example C3_second_call_renders :
  let once := updateFrame stellaEnv 328 atScanlineBoundary in
  let twice := updateFrame stellaEnv 328 once in
  myClocksToEndOfScanLine atScanlineBoundary = 0
  /\ myClockAtLastUpdate once = 228 /\ myClockAtLastUpdate twice = 328
  /\ myFramePointerClocks once = 160 /\ myFramePointerClocks twice = 192
  /\ myCurrentFrameBuffer once 160 = 0 /\ myCurrentFrameBuffer twice 160 = 0x1A
  /\ (let first := peek stellaEnv quietBus 0x07 overlapAfterCXCLR in
      let second := peek stellaEnv quietBus 0x07 (snd first) in
      myCollision (snd first) = 0 /\ fst first = 0x00
      /\ myCollision (snd second) = 0x2000 /\ fst second = 0x80).
Proof. vm_compute. repeat split; reflexivity. Qed.

(** *** PAL classification (claims C7 and C10) *)

(** C7 (the code misses the threshold): with 25 PAL frames out of 60 the
    single-precision quotient is 13981013 * 2^-25, below the double constant
    25.0/60.0 = 7505999378950827 * 2^-54, and [isPAL] answers false although
    the ratio is exactly 25/60. *)
Example C7_isPAL_at_threshold (s : TIA) :
  isPAL_quotient (after25of60 s) = S754_finite false 13981013 (-25)
  /\ PAL_threshold = S754_finite false 7505999378950827 (-54)
  /\ isPAL (after25of60 s) = false.
Proof. vm_compute. repeat split; reflexivity. Qed.

(** One more PAL frame is enough. *)
Example isPAL_26_of_60 (s : TIA) :
  isPAL (set_myFrameCounter 60 (set_myPALFrameCounter 26 s)) = true.
Proof. vm_compute. reflexivity. Qed.

(** The scanline count [endFrame] records for a frame it does not skip. *)
Lemma endFrame_recorded (E : Env) (s : TIA) :
  (scanlines s <=? myStartScanline s) = false ->
  myScanlineCountForLastFrame (endFrame E s)
  = if scanlines s >? uInt32 (myMaximumNumberOfScanlines s + 1)
    then myMaximumNumberOfScanlines s else scanlines s.
Proof.
  intros Hshort. unfold endFrame. rewrite Hshort. cbv zeta. tia_cbn.
  destruct (scanlines s >? uInt32 (myMaximumNumberOfScanlines s + 1));
    repeat (tia_cbn; split_if); reflexivity.
Qed.

(** A completed frame counts as a PAL frame exactly when the scanline count
    recorded for it is at least 287; a frame that is skipped (not more
    scanlines than [myStartScanline]) is not counted at all. *)
Lemma endFrame_counters (E : Env) (s : TIA) :
  (scanlines s <=? myStartScanline s) = false ->
  myFrameCounter (endFrame E s) = uInt32 (myFrameCounter s + 1)
  /\ myPALFrameCounter (endFrame E s)
     = if myScanlineCountForLastFrame (endFrame E s) >=? 287
       then uInt32 (myPALFrameCounter s + 1) else myPALFrameCounter s.
Proof.
  intros Hshort. rewrite (endFrame_recorded E s Hshort).
  unfold endFrame. rewrite Hshort. cbv zeta. tia_cbn.
  destruct (scanlines s >? uInt32 (myMaximumNumberOfScanlines s + 1));
    repeat (tia_cbn; split_if); tia_cbn; split; reflexivity.
Qed.

Lemma endFrame_skipped (E : Env) (s : TIA) :
  (scanlines s <=? myStartScanline s) = true ->
  myFrameCounter (endFrame E s) = myFrameCounter s
  /\ myPALFrameCounter (endFrame E s) = myPALFrameCounter s.
Proof.
  intros Hshort. unfold endFrame. rewrite Hshort.
  unfold startFrame, resetCycles, systemCyclesReset. cbv zeta.
  repeat (tia_cbn; split_if); split; reflexivity.
Qed.


(** *** What rendering and register writes leave alone *)

Ltac stable_rewrite Hf :=
  repeat first
    [ rewrite (rs_collision _ Hf) | rewrite (rs_frameBuffer _ Hf)
    | rewrite (rs_framePointer _ Hf) | rewrite (rs_framePointerClocks _ Hf)
    | rewrite (rs_player0 _ Hf) | rewrite (rs_player1 _ Hf)
    | rewrite (rs_missile0 _ Hf) | rewrite (rs_missile1 _ Hf)
    | rewrite (rs_ball _ Hf) | rewrite (rs_previousHMOVE _ Hf)
    | rewrite (rs_currentHMOVE _ Hf) | rewrite (rs_clocksToEnd _ Hf)
    | rewrite (rs_lastUpdate _ Hf) | rewrite (rs_blank _ Hf) ].

(** Rewrite, and split on the condition that selects the state. *)
Ltac stable_steps Hf :=
  repeat (stable_rewrite Hf;
          try match goal with
              | |- ?g (if ?c then _ else _) = _ => destruct c
              end).

Section RenderStability.

Context {A : Type} (f : TIA -> A) (Hf : RenderStable f).

Lemma drawPixel_stable (E : Env) (hpos : Z) (s : TIA) :
  f (drawPixel E hpos s) = f s.
Proof. unfold drawPixel. cbv zeta. stable_rewrite Hf. reflexivity. Qed.

Lemma drawPixels_stable (E : Env) (n : nat) :
  forall hpos s, f (drawPixels E n hpos s) = f s.
Proof.
  induction n as [|n IH]; intros hpos s; cbn [drawPixels].
  - reflexivity.
  - rewrite IH. apply drawPixel_stable.
Qed.

Lemma updateMasks_stable (s : TIA) : f (updateMasks s) = f s.
Proof. unfold updateMasks. cbv zeta. stable_rewrite Hf. reflexivity. Qed.

Lemma handlePendingMotions_stable (s : TIA) : f (handlePendingMotions s) = f s.
Proof. unfold handlePendingMotions. cbv zeta. stable_rewrite Hf. reflexivity. Qed.

Lemma scanlineBoundary_stable (s : TIA) : f (scanlineBoundary s) = f s.
Proof.
  unfold scanlineBoundary. cbv zeta. stable_steps Hf;
    rewrite ?handlePendingMotions_stable; stable_rewrite Hf; reflexivity.
Qed.

Lemma lineClocks_stable (clock : Z) (s : TIA) :
  f (snd (lineClocks clock s)) = f s.
Proof.
  unfold lineClocks. cbv zeta.
  destruct (clock >? _); cbn [snd]; stable_rewrite Hf; reflexivity.
Qed.

Lemma renderClocks_stable (E : Env) (a b : Z) (s : TIA) :
  f (renderClocks E a b s) = f s.
Proof.
  unfold renderClocks. cbv zeta. stable_steps Hf;
    rewrite ?drawPixels_stable, ?updateMasks_stable;
    stable_rewrite Hf; reflexivity.
Qed.

Lemma hmoveBlanks_stable (E : Env) (a b c : Z) (s : TIA) :
  f (hmoveBlanks E a b c s) = f s.
Proof. unfold hmoveBlanks. cbv zeta. stable_steps Hf; reflexivity. Qed.

Lemma endOfScanline_stable (s : TIA) : f (endOfScanline s) = f s.
Proof. unfold endOfScanline. cbv zeta. stable_steps Hf; reflexivity. Qed.

Lemma updateLine_stable (E : Env) (first : bool) (clock : Z) (s : TIA) :
  f (updateLine E first clock s) = f s.
Proof.
  unfold updateLine.
  set (s0 := if first then s else scanlineBoundary s).
  assert (H0 : f s0 = f s).
  { subst s0. destruct first; [reflexivity | apply scanlineBoundary_stable]. }
  clearbody s0.
  pose proof (lineClocks_stable clock s0) as H1.
  destruct (lineClocks clock s0) as [n s1]. cbn [snd] in H1.
  destruct (skipHBlank _ n) as [a b].
  rewrite endOfScanline_stable, hmoveBlanks_stable, renderClocks_stable.
  congruence.
Qed.

Lemma updateLines_stable (E : Env) (n : nat) :
  forall first clock s, f (updateLines E n first clock s) = f s.
Proof.
  induction n as [|n IH]; intros first clock s; cbn [updateLines].
  - reflexivity.
  - rewrite IH. apply updateLine_stable.
Qed.

Lemma updateFrame_stable (E : Env) (clock : Z) (s : TIA) :
  f (updateFrame E clock s) = f s.
Proof.
  unfold updateFrame. cbv zeta.
  destruct (_ || _); [reflexivity | apply updateLines_stable].
Qed.

End RenderStability.

(** The parts of the state the claims below rely on. *)
Lemma stable_sys_cycles : PokeStable myVBLANK /\ RenderStable sys_cycles.
Proof. repeat constructor. Qed.

Lemma stable_frameStart : RenderStable myClockWhenFrameStarted.
Proof. repeat constructor. Qed.

Lemma stable_maxScanlines : RenderStable myMaximumNumberOfScanlines.
Proof. repeat constructor. Qed.

Lemma stable_finishClock : RenderStable myVSYNCFinishClock.
Proof. repeat constructor. Qed.

Lemma stable_stopped : PokeStable sys_stopped.
Proof. repeat constructor. Qed.

Lemma stable_partialFrame : PokeStable myPartialFrameFlag.
Proof. repeat constructor. Qed.

Lemma stable_INPT4 : PokeStable myINPT4.
Proof. repeat constructor. Qed.

Lemma stable_INPT5 : PokeStable myINPT5.
Proof. repeat constructor. Qed.

Lemma stable_enabledMask : RenderStable myCollisionEnabledMask.
Proof. repeat constructor. Qed.

Lemma colorClock_updateFrame (E : Env) (clock : Z) (s : TIA) :
  colorClock (updateFrame E clock s) = colorClock s.
Proof.
  unfold colorClock.
  rewrite (updateFrame_stable sys_cycles (proj2 stable_sys_cycles)).
  reflexivity.
Qed.

Section PokeStability.

Context {A : Type} (f : TIA -> A) (Hf : PokeStable f).

Let Hr : RenderStable f := ps_render f Hf.

Lemma pokeRESP_stable (E : Env) (clock : Z) (s : TIA) :
  f (pokeRESP E clock myPlayer0 set_myPlayer0 s) = f s
  /\ f (pokeRESP E clock myPlayer1 set_myPlayer1 s) = f s.
Proof.
  unfold pokeRESP. cbv zeta.
  split; stable_steps Hr; rewrite ?(updateFrame_stable f Hr); reflexivity.
Qed.

(** A write to a register other than VSYNC and VBLANK. *)
Lemma pokeRegister_stable (E : Env) (io : BusInputs) (addr : TIARegister)
    (value clock : Z) (s : TIA) :
  addr <> VSYNC -> addr <> VBLANK ->
  f (pokeRegister E io addr value clock s) = f s.
Proof.
  intros Hv Hb.
  destruct addr; try congruence; clear Hv Hb;
    unfold pokeRegister, pokeColor, waitHorizontalSync; cbv zeta beta;
    try apply pokeRESP_stable;
    repeat (stable_rewrite Hr;
            rewrite ?(ps_playfield f Hf), ?(ps_color f Hf), ?(ps_cycles f Hf),
              ?(updateFrame_stable f Hr);
            try match goal with
                | |- f (if ?c then _ else _) = _ => destruct c
                end);
    reflexivity.
Qed.

End PokeStability.

(** *** Machine integer facts *)

Lemma Int16_small (x : Z) : -32768 <= x < 32768 -> Int16 x = x.
Proof. intros H. unfold Int16. rewrite Z.mod_small; lia. Qed.

Lemma CLAMP_POS_mod (x : Z) :
  -160 <= x < 32768 -> CLAMP_POS x = x mod 160.
Proof.
  intros H. unfold CLAMP_POS, SCANLINE_PIXEL.
  destruct (x <? 0) eqn:Hneg.
  - apply Z.ltb_lt in Hneg.
    rewrite (Int16_small (x + 160)) by lia.
    rewrite Z.rem_mod_nonneg by lia.
    rewrite Int16_small by (pose proof (Z.mod_pos_bound (x + 160) 160); lia).
    rewrite <- (Z.mod_add x 1 160) by lia. reflexivity.
  - apply Z.ltb_ge in Hneg.
    rewrite Z.rem_mod_nonneg by lia.
    apply Int16_small. pose proof (Z.mod_pos_bound x 160). lia.
Qed.

(** *** Horizontal motion (claims C4 and C5) *)

(** An HMOVE strobe inside the window the code ignores, seen by one object:
    the motion clock is cleared, not kept; the latch is cleared; the position
    is kept when the latch was clear. *)
Lemma handleHMOVE_ignored (v : TIAView) (o : Moveable.t) :
  -5 <= v_hpos v < 97 ->
  Moveable.myMotionClock (Moveable.handleHMOVE v o) = 0
  /\ Moveable.myHMmmr (Moveable.handleHMOVE v o) = false
  /\ (Moveable.myHMmmr o = false ->
      Moveable.myPos (Moveable.handleHMOVE v o) = Moveable.myPos o).
Proof.
  intros [Hlo Hhi]. unfold Moveable.handleHMOVE. cbv zeta.
  assert (Hin : (v_hpos v >=? -5) && (v_hpos v <? 97) = true).
  { apply andb_true_iff. split; [apply Z.geb_le | apply Z.ltb_lt]; lia. }
  destruct (Moveable.myHMmmr o) eqn:Hmmr.
  - rewrite andb_true_r. destruct (_ <? _); tia_cbn; rewrite Hin; tia_cbn;
      repeat split; intros; discriminate.
  - rewrite andb_false_r. tia_cbn. rewrite Hin. tia_cbn. repeat split.
Qed.

Lemma pokeCatchUp_clock (E : Env) (addr : Z) (s : TIA) :
  sys_cycles (pokeCatchUp E addr s) = sys_cycles s
  /\ myClockWhenFrameStarted (pokeCatchUp E addr s) = myClockWhenFrameStarted s.
Proof.
  unfold pokeCatchUp. cbv zeta.
  destruct (_ >=? _); tia_cbn;
    rewrite (updateFrame_stable sys_cycles (proj2 stable_sys_cycles)),
            (updateFrame_stable _ stable_frameStart); split; reflexivity.
Qed.

(** C4 (as amended): an HMOVE strobe that arrives at an hpos inside the
    ignore window (-5 <= hpos < 97, in particular at hpos = -3) leaves every
    moveable object with motion clock 0 and with the more-motion-required
    latch cleared, and with the position it had before the strobe when the
    latch was clear before the strobe.  "Before the strobe" is the state
    after the catch-up rendering with which [poke] starts. *)
Theorem C4_HMOVE_in_ignore_window (E : Env) (io : BusInputs)
    (addr value : Z) (s : TIA) :
  writeRegister E (Z.land addr 0x003f) = HMOVE ->
  -5 <= hposOf s < 97 ->
  Forall2
    (fun before after =>
       Moveable.myMotionClock after = 0
       /\ Moveable.myHMmmr after = false
       /\ (Moveable.myHMmmr before = false ->
           Moveable.myPos after = Moveable.myPos before))
    (moveables (pokeCatchUp E (Z.land addr 0x003f) s))
    (moveables (poke E io addr value s)).
Proof.
  intros Hreg Hh. unfold poke. cbv zeta. rewrite Hreg.
  destruct (pokeCatchUp_clock E (Z.land addr 0x003f) s) as [Hc Hs].
  set (s1 := pokeCatchUp E (Z.land addr 0x003f) s) in *. clearbody s1.
  assert (Hhpos : hposAt (colorClock s) (myClockWhenFrameStarted s1) = hposOf s).
  { unfold hposOf. rewrite Hs. reflexivity. }
  unfold pokeRegister. cbv zeta beta. rewrite Hhpos.
  assert (Hin : (hposOf s >=? -5) && (hposOf s <? 97) = true).
  { apply andb_true_iff. split; [apply Z.geb_le | apply Z.ltb_lt]; lia. }
  rewrite Hin. unfold moveables. tia_cbn.
  unfold Player.Player0_handleRegisterUpdate, Player.Player1_handleRegisterUpdate,
    Missile.Missile0_handleRegisterUpdate, Missile.Missile1_handleRegisterUpdate,
    Ball.handleRegisterUpdate, Player.handleRegisterUpdate,
    Missile.handleRegisterUpdate, Moveable.handleRegisterUpdate.
  cbv zeta. tia_cbn.
  repeat (apply Forall2_cons;
          [ apply handleHMOVE_ignored;
            unfold v_hpos, viewOf, colorClock; tia_cbn; rewrite Hc;
            change (Int32 (uInt32 (sys_cycles s * PIXEL_CLOCKS)))
              with (colorClock s);
            rewrite Hhpos; exact Hh | ]).
  apply Forall2_nil.
Qed.

Lemma C4_witness :
  Forall2
    (fun before after =>
       Moveable.myMotionClock after = 0
       /\ Moveable.myHMmmr after = false
       /\ (Moveable.myHMmmr before = false ->
           Moveable.myPos after = Moveable.myPos before))
    (moveables (pokeCatchUp stellaEnv (Z.land 0x2A 0x003f) hmoveAtMinus3))
    (moveables (poke stellaEnv quietBus 0x2A 0 hmoveAtMinus3)).
Proof.
  apply C4_HMOVE_in_ignore_window.
  - reflexivity.
  - vm_compute. split; [intro; discriminate | reflexivity].
Defined.

(** C4 (as stated, refuted): at hpos = -3 the strobe changes the motion clock
    of player 0 from 8 to 0, and moves missile 0, whose latch is set, from 80
    to 79. *)
Example C4_strobe_changes_state :
  let before := pokeCatchUp stellaEnv 0x2A hmoveAtMinus3 in
  let after := poke stellaEnv quietBus 0x2A 0 hmoveAtMinus3 in
  hposOf hmoveAtMinus3 = -3
  /\ Player.getMotionClock (myPlayer0 before) = 8
  /\ Player.getMotionClock (myPlayer0 after) = 0
  /\ Missile.getPos (myMissile0 before) = 80
  /\ Missile.getPos (myMissile0 after) = 79.
Proof. vm_compute. repeat split; reflexivity. Qed.

(** C5 (as amended): a write to HMxx whose high nibble differs from the
    current HM value, made while an HMOVE is active in its window and too late
    for the new value to be honoured by the running counter, moves the
    position by 15 minus the current motion clock (modulo 160), sets the
    motion clock to 15 and stores the nibble; the more-motion-required latch
    is set afterwards exactly when it was set before or the high nibble of
    the written byte (byte & 0xF0) is neither 0x70 nor 0x80. *)
Theorem C5_forced_shift (v : TIAView) (value : Z) (o : Moveable.t) :
  let nibble := Z.land value 0xF0 in
  let newMotion := Z.shiftr (Z.lxor nibble 0x80) 4 in
  let cur := v_currentHMOVEPos v in
  let mc := Moveable.myMotionClock o in
  Moveable.myHM o <> nibble ->
  cur <> NO_HMOVE ->
  v_hpos v < Z.min (cur + 6 + mc * 4) 7 ->
  newMotion <= mc ->
  Z.min (cur + 6 + newMotion * 4) 7 < v_hpos v ->
  0 <= Moveable.myPos o < 160 ->
  0 <= mc <= 15 ->
  let o' := Moveable.handleHM v value o in
  Moveable.myPos o' = (Moveable.myPos o - (15 - mc)) mod 160
  /\ Moveable.myMotionClock o' = 15
  /\ Moveable.myHMmmr o'
     = (Moveable.myHMmmr o || (negb (nibble =? 0x70) && negb (nibble =? 0x80)))
  /\ Moveable.myHM o' = nibble.
Proof.
  intros nibble newMotion cur mc Hdiff Hcur Hactive Hle Hlate Hpos Hmc o'.
  subst o'. unfold Moveable.handleHM. cbv zeta.
  fold nibble. fold cur. fold mc. fold newMotion.
  assert (H1 : (Moveable.myHM o =? nibble) = false) by (apply Z.eqb_neq; exact Hdiff).
  assert (H2 : negb (cur =? NO_HMOVE) && (v_hpos v <? Z.min (cur + 6 + mc * 4) 7) = true).
  { apply andb_true_iff. split.
    - apply negb_true_iff, Z.eqb_neq. exact Hcur.
    - apply Z.ltb_lt. exact Hactive. }
  assert (H3 : (newMotion >? mc) || (v_hpos v <=? Z.min (cur + 6 + newMotion * 4) 7) = false).
  { apply orb_false_iff. split.
    - rewrite Z.gtb_ltb. apply Z.ltb_ge. exact Hle.
    - apply Z.leb_gt. exact Hlate. }
  rewrite H1, H2, H3.
  assert (Hx : CLAMP_POS (Int16 (Moveable.myPos o - (15 - mc)))
               = (Moveable.myPos o - (15 - mc)) mod 160).
  { rewrite Int16_small by lia. apply CLAMP_POS_mod. lia. }
  destruct (negb (nibble =? 0x70) && negb (nibble =? 0x80)); tia_cbn;
    rewrite Hx, ?orb_true_r, ?orb_false_r; repeat split.
Qed.

(** An HMOVE strobed at hpos -68 is running (motion clock 8) and the write
    arrives at hpos -32 with the value 0x90 (one motion clock). *)
Lemma C5_witness :
  let v := mkTIAView 36 0 (-68) NO_HMOVE in
  let o := Moveable.mk true 0 false 0 8 0 false in
  let o' := Moveable.handleHM v 0x90 o in
  Moveable.myPos o' = (0 - (15 - 8)) mod 160
  /\ Moveable.myMotionClock o' = 15
  /\ Moveable.myHMmmr o'
     = (false || (negb (Z.land 0x90 0xF0 =? 0x70) && negb (Z.land 0x90 0xF0 =? 0x80)))
  /\ Moveable.myHM o' = Z.land 0x90 0xF0.
Proof.
  apply (C5_forced_shift (mkTIAView 36 0 (-68) NO_HMOVE) 0x90
           (Moveable.mk true 0 false 0 8 0 false));
    vm_compute; try reflexivity; try (intro; discriminate);
    split; first [reflexivity | intro; discriminate].
Defined.

(** C5 (as stated, refuted): with an HMOVE strobed at cycle 0 running, the
    byte 0x81 written to HMP0 at cycle 12 (hpos -32) forces the 15-clock
    shift (position 0 to 153, motion clock 8 to 15), and the latch stays
    clear although the byte is neither 0x70 nor 0x80: the code compares the
    high nibble, 0x80.  The byte 0x90 at the same place sets the latch. *)
Example C5_latch_follows_high_nibble :
  let running := pokeAt 0 0x2A 0 powerOn in
  let p := myPlayer0 running in
  let p81 := myPlayer0 (pokeAt 12 0x20 0x81 running) in
  let p90 := myPlayer0 (pokeAt 12 0x20 0x90 running) in
  (Moveable.myHM (Player.base p) = 0x00
   /\ Player.getMotionClock p = 8 /\ Player.getPos p = 0
   /\ Moveable.myHMmmr (Player.base p) = false)
  /\ (Player.getMotionClock p81 = 15 /\ Player.getPos p81 = 153
      /\ Moveable.myHMmmr (Player.base p81) = false)
  /\ (Player.getMotionClock p90 = 15 /\ Player.getPos p90 = 153
      /\ Moveable.myHMmmr (Player.base p90) = true).
Proof. vm_compute. repeat split; reflexivity. Qed.

(** *** Where the position stays in range

    The writes of C1 that wrap: HMxx and the carry-over at the scanline
    boundary keep a position of [0, 160) in [0, 160); the latch correction of
    [handleHMOVE] does not. *)

Lemma motion_of_nibble (value : Z) :
  0 <= Z.shiftr (Z.lxor (Z.land value 0xF0) 0x80) 4 <= 15.
Proof.
  rewrite Z.shiftr_lxor, Z.shiftr_land.
  change (Z.shiftr 0xF0 4) with (Z.ones 4). change (Z.shiftr 0x80 4) with 8.
  rewrite Z.land_ones by lia.
  pose proof (Z.mod_pos_bound (Z.shiftr value 4) (2 ^ 4) eq_refl) as Hm.
  set (m := Z.shiftr value 4 mod 2 ^ 4) in *. change (2 ^ 4) with 16 in Hm.
  assert (Hcases : m = 0 \/ m = 1 \/ m = 2 \/ m = 3 \/ m = 4 \/ m = 5 \/ m = 6
                   \/ m = 7 \/ m = 8 \/ m = 9 \/ m = 10 \/ m = 11 \/ m = 12
                   \/ m = 13 \/ m = 14 \/ m = 15) by lia.
  clearbody m.
  repeat (destruct Hcases as [-> | Hcases]); try subst m; cbn; lia.
Qed.

Lemma CLAMP_POS_range (x : Z) : -160 <= x < 32768 -> 0 <= CLAMP_POS x < 160.
Proof.
  intros H. rewrite CLAMP_POS_mod by exact H. apply Z.mod_pos_bound. lia.
Qed.

Lemma handleHM_in_range (v : TIAView) (value : Z) (o : Moveable.t) :
  0 <= Moveable.myPos o < 160 -> 0 <= Moveable.myMotionClock o <= 15 ->
  0 <= Moveable.myPos (Moveable.handleHM v value o) < 160.
Proof.
  intros Hpos Hmot. unfold Moveable.handleHM. cbv zeta.
  pose proof (motion_of_nibble value) as Hnew.
  set (newMotion := Z.shiftr (Z.lxor (Z.land value 0xF0) 0x80) 4) in *.
  destruct (Moveable.myHM o =? Z.land value 0xF0); [exact Hpos |].
  destruct (negb _ && _); [| exact Hpos].
  destruct ((newMotion >? Moveable.myMotionClock o) || _);
    [| destruct (negb _ && negb _)];
    tia_cbn; rewrite Int16_small by lia; apply CLAMP_POS_range; lia.
Qed.

Lemma handlePendingMotions_in_range (cur : Z) (o : Moveable.t) :
  0 <= Moveable.myPos o < 160 -> 0 <= Moveable.myMotionClock o <= 15 ->
  0 <= Moveable.myPos (Moveable.handlePendingMotions cur o) < 160.
Proof.
  intros Hpos Hmot. unfold Moveable.handlePendingMotions. cbv zeta.
  assert (Hstep : forall k p, 0 <= p < 160 -> 0 <= k <= 17 ->
            0 <= (if Int16 (p - k) <? 0 then Int16 (Int16 (p - k) + SCANLINE_PIXEL)
                  else Int16 (p - k)) < 160).
  { intros k p Hp Hk. unfold SCANLINE_PIXEL. rewrite (Int16_small (p - k)) by lia.
    destruct (Z.ltb_spec (p - k) 0); [rewrite Int16_small by lia |]; lia. }
  destruct (negb _ && _); destruct (Moveable.myHMmmr o) eqn:Hmmr; tia_cbn;
    rewrite ?Hmmr; tia_cbn.
  - pose proof (Hstep (Moveable.myMotionClock o) (Moveable.myPos o) Hpos
                  ltac:(lia)) as H1.
    destruct (Int16 (Moveable.myPos o - Moveable.myMotionClock o) <? 0);
      tia_cbn; rewrite ?Hmmr; tia_cbn;
      match goal with
      | |- context [Int16 (?p - 17)] =>
          pose proof (Hstep 17 p H1 ltac:(lia)) as H2;
          destruct (Int16 (p - 17) <? 0); tia_cbn; exact H2
      end.
  - pose proof (Hstep (Moveable.myMotionClock o) (Moveable.myPos o) Hpos
                  ltac:(lia)) as H1.
    destruct (Int16 (Moveable.myPos o - Moveable.myMotionClock o) <? 0);
      tia_cbn; rewrite ?Hmmr; tia_cbn; exact H1.
  - pose proof (Hstep 17 (Moveable.myPos o) Hpos ltac:(lia)) as H2.
    destruct (Int16 (Moveable.myPos o - 17) <? 0); tia_cbn; exact H2.
  - exact Hpos.
Qed.

(** An HMOVE strobe at hpos -2 (color clock 66 of the scanline), with the
    latch of an object at position 0 set: the correction is -1, the write is
    inside the ignore window, and the position is left at -1. *)
Example handleHMOVE_latch_correction :
  let v := mkTIAView 66 0 NO_HMOVE NO_HMOVE in
  let o := Moveable.mk true 0x70 false 0 0 0 true in
  v_hpos v = -2 /\ Moveable.myPos (Moveable.handleHMOVE v o) = -1.
Proof. vm_compute. split; reflexivity. Qed.

(** *** Frame end (claim C6) *)

Lemma pokeCatchUp_stable {A : Type} (f : TIA -> A) :
  RenderStable f ->
  (forall v s, f (set_myPartialFrameFlag v s) = f s) ->
  (forall v s, f (set_sys_stopped v s) = f s) ->
  forall (E : Env) (addr : Z) (s : TIA), f (pokeCatchUp E addr s) = f s.
Proof.
  intros Hr Hp Hs E addr s. unfold pokeCatchUp. cbv zeta.
  destruct (_ >=? _); rewrite ?Hp, ?Hs; apply (updateFrame_stable f Hr).
Qed.

(** A write that finds the frame at or past the maximum scanline count ends
    the frame during the catch-up. *)
Lemma pokeCatchUp_forced (E : Env) (addr : Z) (s : TIA) :
  Z.quot (colorClock s - myClockWhenFrameStarted s) SCANLINE_CLOCKS
    >= Int32 (myMaximumNumberOfScanlines s) ->
  sys_stopped (pokeCatchUp E addr s) = true
  /\ myPartialFrameFlag (pokeCatchUp E addr s) = false.
Proof.
  intros Hmax. unfold pokeCatchUp. cbv zeta.
  rewrite (updateFrame_stable _ stable_frameStart),
          (updateFrame_stable _ stable_maxScanlines).
  destruct (_ >=? _) eqn:Hc.
  - split; reflexivity.
  - rewrite Z.geb_leb in Hc. apply Z.leb_gt in Hc. lia.
Qed.

Lemma pokeCatchUp_not_forced (E : Env) (addr : Z) (s : TIA) :
  Z.quot (colorClock s - myClockWhenFrameStarted s) SCANLINE_CLOCKS
    < Int32 (myMaximumNumberOfScanlines s) ->
  sys_stopped (pokeCatchUp E addr s) = sys_stopped s
  /\ myPartialFrameFlag (pokeCatchUp E addr s) = myPartialFrameFlag s.
Proof.
  intros Hmax. unfold pokeCatchUp. cbv zeta.
  rewrite (updateFrame_stable _ stable_frameStart),
          (updateFrame_stable _ stable_maxScanlines).
  destruct (_ >=? _) eqn:Hc.
  - rewrite Z.geb_leb in Hc. apply Z.leb_le in Hc. lia.
  - rewrite (updateFrame_stable _ (ps_render _ stable_stopped)),
            (updateFrame_stable _ (ps_render _ stable_partialFrame)).
    split; reflexivity.
Qed.

(** No register write restarts the CPU or reopens the frame. *)
Lemma pokeRegister_keeps_frame_end (E : Env) (io : BusInputs)
    (addr : TIARegister) (value clock : Z) (s : TIA) :
  sys_stopped s = true -> myPartialFrameFlag s = false ->
  sys_stopped (pokeRegister E io addr value clock s) = true
  /\ myPartialFrameFlag (pokeRegister E io addr value clock s) = false.
Proof.
  intros Hs Hp.
  destruct addr eqn:Haddr;
    try (rewrite (pokeRegister_stable _ stable_stopped),
                 (pokeRegister_stable _ stable_partialFrame)
           by discriminate; split; assumption);
    unfold pokeRegister; cbv zeta beta;
    repeat (tia_cbn; split_if); tia_cbn; split; first [assumption | reflexivity].
Qed.

(** A write to a register other than VSYNC does not end the frame by
    itself. *)
Lemma pokeRegister_frame_open (E : Env) (io : BusInputs)
    (addr : TIARegister) (value clock : Z) (s : TIA) :
  addr <> VSYNC ->
  sys_stopped (pokeRegister E io addr value clock s) = sys_stopped s
  /\ myPartialFrameFlag (pokeRegister E io addr value clock s)
     = myPartialFrameFlag s.
Proof.
  intros Hv.
  destruct addr eqn:Haddr; try congruence;
    try (rewrite (pokeRegister_stable _ stable_stopped),
                 (pokeRegister_stable _ stable_partialFrame)
           by discriminate; split; reflexivity);
    unfold pokeRegister; cbv zeta beta;
    repeat (tia_cbn; split_if); tia_cbn; split; reflexivity.
Qed.

(** The VSYNC write, once the catch-up is done. *)
Lemma pokeRegister_VSYNC_on (E : Env) (io : BusInputs) (value clock : Z) (s : TIA) :
  Z.land value 0x02 <> 0 ->
  myVSYNCFinishClock (pokeRegister E io VSYNC value clock s)
    = clock + SCANLINE_CLOCKS
  /\ sys_cycles (pokeRegister E io VSYNC value clock s) = sys_cycles s
  /\ myClockWhenFrameStarted (pokeRegister E io VSYNC value clock s)
     = myClockWhenFrameStarted s.
Proof.
  intros Hbit. unfold pokeRegister. cbv zeta beta. tia_cbn.
  unfold nonzero. apply Z.eqb_neq in Hbit. rewrite Hbit. tia_cbn.
  repeat split.
Qed.

Lemma pokeRegister_VSYNC_off (E : Env) (io : BusInputs) (value clock : Z) (s : TIA) :
  Z.land value 0x02 = 0 ->
  myVSYNCFinishClock s <= clock ->
  sys_stopped (pokeRegister E io VSYNC value clock s) = true
  /\ myPartialFrameFlag (pokeRegister E io VSYNC value clock s) = false
  /\ sys_cycles (pokeRegister E io VSYNC value clock s) = sys_cycles s
  /\ myClockWhenFrameStarted (pokeRegister E io VSYNC value clock s)
     = myClockWhenFrameStarted s.
Proof.
  intros Hbit Hlate. unfold pokeRegister. cbv zeta beta. tia_cbn.
  unfold nonzero. rewrite Hbit. tia_cbn.
  assert (Hc : (clock >=? myVSYNCFinishClock s) = true).
  { rewrite Z.geb_leb. apply Z.leb_le. exact Hlate. }
  rewrite Hc. tia_cbn. repeat split.
Qed.

Lemma colorClock_small (s : TIA) :
  0 <= sys_cycles s -> sys_cycles s * 3 < 2147483648 ->
  colorClock s = sys_cycles s * 3.
Proof.
  intros H0 H1. unfold colorClock, Int32, uInt32, PIXEL_CLOCKS.
  rewrite (Z.mod_small (sys_cycles s * 3)) by lia.
  rewrite Z.mod_small by lia. lia.
Qed.

(** C6 (as amended): (1) a write that sets VSYNC bit 1, followed three
    scanlines (228 CPU cycles, 684 color clocks) later by a write that clears
    it, ends the frame at the second write: the CPU is halted, the
    partial-frame flag is cleared and [scanlines()] is three more than at the
    first write, that is 3 when VSYNC is set on the first scanline of the
    frame;
    (2) whatever the register, a write made when the scanline count has
    reached the configured maximum halts the CPU and clears the
    partial-frame flag; (3) before that, a write to a register other than
    VSYNC leaves both as they were. *)
Theorem C6_frame_end (E : Env) (io : BusInputs) :
  (forall (addr v1 v2 : Z) (s : TIA),
      writeRegister E (Z.land addr 0x003f) = VSYNC ->
      Z.land v1 0x02 <> 0 -> Z.land v2 0x02 = 0 ->
      0 <= sys_cycles s -> sys_cycles s * 3 + 684 < 2147483648 ->
      -2147483648 <= myClockWhenFrameStarted s <= colorClock s ->
      let s2 := poke E io addr v2 (tick 228 (poke E io addr v1 s)) in
      sys_stopped s2 = true /\ myPartialFrameFlag s2 = false
      /\ scanlines s2 = scanlines s + 3
      /\ (scanlines s = 0 -> scanlines s2 = 3))
  /\ (forall (addr value : Z) (s : TIA),
         Z.quot (colorClock s - myClockWhenFrameStarted s) SCANLINE_CLOCKS
           >= Int32 (myMaximumNumberOfScanlines s) ->
         sys_stopped (poke E io addr value s) = true
         /\ myPartialFrameFlag (poke E io addr value s) = false)
  /\ (forall (addr value : Z) (s : TIA),
         Z.quot (colorClock s - myClockWhenFrameStarted s) SCANLINE_CLOCKS
           < Int32 (myMaximumNumberOfScanlines s) ->
         writeRegister E (Z.land addr 0x003f) <> VSYNC ->
         sys_stopped (poke E io addr value s) = sys_stopped s
         /\ myPartialFrameFlag (poke E io addr value s) = myPartialFrameFlag s).
Proof.
  split; [| split].
  - intros addr v1 v2 s Hreg Hon Hoff Hc0 Hc1 Hline s2. subst s2.
    set (a := Z.land addr 0x003f) in *.
    (* the first write *)
    set (s1 := poke E io addr v1 s).
    assert (H1 : myVSYNCFinishClock s1 = colorClock s + SCANLINE_CLOCKS
                 /\ sys_cycles s1 = sys_cycles s
                 /\ myClockWhenFrameStarted s1 = myClockWhenFrameStarted s).
    { subst s1. unfold poke. cbv zeta. fold a. rewrite Hreg.
      destruct (pokeRegister_VSYNC_on E io v1 (colorClock s)
                  (pokeCatchUp E a s) Hon) as (Hf & Hc & Hs).
      destruct (pokeCatchUp_clock E a s) as [Hc' Hs'].
      rewrite Hf, Hc, Hs, Hc', Hs'. repeat split. }
    destruct H1 as (Hfin & Hcyc & Hstart). clearbody s1.
    (* three scanlines later *)
    set (t := tick 228 s1).
    assert (Ht : sys_cycles t = sys_cycles s + 228
                 /\ myClockWhenFrameStarted t = myClockWhenFrameStarted s
                 /\ myVSYNCFinishClock t = colorClock s + SCANLINE_CLOCKS).
    { subst t. unfold tick. tia_cbn. rewrite Hcyc, Hstart, Hfin.
      unfold uInt32. rewrite Z.mod_small by lia. repeat split. }
    destruct Ht as (Htc & Hts & Htf). clearbody t.
    assert (Hcs : colorClock s = sys_cycles s * 3)
      by (apply colorClock_small; lia).
    assert (Hct : colorClock t = sys_cycles s * 3 + 684).
    { rewrite colorClock_small; rewrite Htc; lia. }
    (* the second write *)
    unfold poke. cbv zeta. fold a. rewrite Hreg.
    assert (Hfin2 : myVSYNCFinishClock (pokeCatchUp E a t) <= colorClock t).
    { rewrite (pokeCatchUp_stable _ stable_finishClock) by reflexivity.
      rewrite Htf, Hct, Hcs. unfold SCANLINE_CLOCKS, PIXEL_CLOCKS, SCANLINE_CYCLES.
      lia. }
    destruct (pokeRegister_VSYNC_off E io v2 (colorClock t)
                (pokeCatchUp E a t) Hoff Hfin2) as (Hst & Hpf & Hc2 & Hs2).
    destruct (pokeCatchUp_clock E a t) as [Hc3 Hs3].
    split; [exact Hst | split; [exact Hpf |]].
    assert (Hcount : scanlines
                       (pokeRegister E io VSYNC v2 (colorClock t)
                          (pokeCatchUp E a t))
                     = scanlines s + 3).
    { unfold scanlines. rewrite Hc2, Hs2, Hc3, Hs3, Htc, Hts.
      rewrite Hcs in Hline.
      unfold SCANLINE_CLOCKS, PIXEL_CLOCKS, SCANLINE_CYCLES in *.
      unfold uInt32. rewrite !Z.mod_small by lia.
      change (3 * 76) with 228 in *.
      replace ((sys_cycles s + 228) * 3 - myClockWhenFrameStarted s)
        with (sys_cycles s * 3 - myClockWhenFrameStarted s + 3 * 228) by lia.
      rewrite Z.div_add by lia. reflexivity. }
    split; [exact Hcount |].
    intros Hfirst. rewrite Hcount, Hfirst. reflexivity.
  - intros addr value s Hmax. unfold poke. cbv zeta.
    destruct (pokeCatchUp_forced E (Z.land addr 0x003f) s Hmax) as [Hs Hp].
    apply pokeRegister_keeps_frame_end; assumption.
  - intros addr value s Hmax Hreg. unfold poke. cbv zeta.
    destruct (pokeCatchUp_not_forced E (Z.land addr 0x003f) s Hmax) as [Hs Hp].
    destruct (pokeRegister_frame_open E io (writeRegister E (Z.land addr 0x003f))
                value (colorClock s) (pokeCatchUp E (Z.land addr 0x003f) s) Hreg)
      as [Hs' Hp'].
    rewrite Hs', Hp', Hs, Hp. split; reflexivity.
Qed.

Ltac by_eval :=
  vm_compute; repeat split; first [reflexivity | intro; discriminate].

Lemma C6_witness :
  (let s2 := poke stellaEnv quietBus 0x00 0x00
               (tick 228 (poke stellaEnv quietBus 0x00 0x02 powerOn)) in
   sys_stopped powerOn = false /\ scanlines powerOn = 0
   /\ sys_stopped s2 = true /\ myPartialFrameFlag s2 = false
   /\ scanlines s2 = 3)
  /\ (let s := set_sys_cycles 22040 powerOn in
      scanlines s = 290
      /\ sys_stopped (poke stellaEnv quietBus 0x09 0x1A s) = true
      /\ myPartialFrameFlag (poke stellaEnv quietBus 0x09 0x1A s) = false)
  /\ (let s := set_sys_cycles 22039 powerOn in
      scanlines s = 289
      /\ sys_stopped (poke stellaEnv quietBus 0x09 0x1A s) = sys_stopped s
      /\ myPartialFrameFlag (poke stellaEnv quietBus 0x09 0x1A s)
         = myPartialFrameFlag s).
Proof.
  destruct (C6_frame_end stellaEnv quietBus) as (Hvsync & Hforced & Hopen).
  split; [| split].
  - pose proof (Hvsync 0x00 0x02 0x00 powerOn
                  ltac:(by_eval) ltac:(by_eval) ltac:(by_eval)
                  ltac:(by_eval) ltac:(by_eval) ltac:(by_eval))
      as (Hs & Hp & _ & Hthree).
    split; [reflexivity | split; [reflexivity |]].
    split; [exact Hs | split; [exact Hp | exact (Hthree eq_refl)]].
  - split; [reflexivity |].
    apply (Hforced 0x09 0x1A (set_sys_cycles 22040 powerOn)); by_eval.
  - split; [reflexivity |].
    apply (Hopen 0x09 0x1A (set_sys_cycles 22039 powerOn)); by_eval.
Defined.

(** C6 (the claim as stated fails): [scanlines()] counts from the start of
    the frame.  VSYNC set at CPU cycle 380, on scanline 5, and cleared 228
    cycles later ends the frame with [scanlines()] at 8. *)
Example C6_VSYNC_on_scanline_5 :
  let s := set_sys_cycles 380 powerOn in
  let s2 := poke stellaEnv quietBus 0x00 0x00
              (tick 228 (poke stellaEnv quietBus 0x00 0x02 s)) in
  scanlines s = 5
  /\ sys_stopped s2 = true /\ myPartialFrameFlag s2 = false
  /\ scanlines s2 = 8.
Proof. vm_compute. repeat split; reflexivity. Qed.

(** *** Input latches (claim C8) *)

Lemma stable_latchOf (port : TIAReadRegister) : PokeStable (latchOf port).
Proof. destruct port; first [exact stable_INPT5 | exact stable_INPT4]. Qed.

Lemma land_masked_bit7 (value x : Z) :
  Z.land (Z.lor (Z.land value 0x7F) x) 0x80 = Z.land x 0x80.
Proof.
  rewrite Z.land_lor_distr_l, <- Z.land_assoc.
  change (Z.land 0x7F 0x80) with 0. rewrite Z.land_0_r. reflexivity.
Qed.

Lemma land_button_bit7 (x button : Z) :
  Z.land x 0x80 = 0 -> Z.land (Z.land x button) 0x80 = 0.
Proof.
  intros Hx. rewrite <- Z.land_assoc, (Z.land_comm button), Z.land_assoc, Hx.
  apply Z.land_0_l.
Qed.

(** A read in latched mode: the mode stays, a clear latch stays clear, and
    a read of the port returns the latch. *)
Lemma peek_latch (E : Env) (io : BusInputs) (addr : Z) (port : TIAReadRegister)
    (s : TIA) :
  latchMode s = true ->
  latchMode (snd (peek E io addr s)) = true
  /\ (Z.land (latchOf port s) 0x80 = 0 ->
      Z.land (latchOf port (snd (peek E io addr s))) 0x80 = 0)
  /\ (isPort port (readRegister E (Z.land addr 0x000f)) = true ->
      Z.land (fst (peek E io addr s)) 0x80
      = Z.land (latchOf port (snd (peek E io addr s))) 0x80).
Proof.
  unfold latchMode. intros Hmode.
  pose proof (updateFrame_stable myVBLANK
                (ps_render _ (proj1 stable_sys_cycles)) E (colorClock s) s) as Hv.
  pose proof (updateFrame_stable (latchOf port)
                (ps_render _ (stable_latchOf port)) E (colorClock s) s) as Hl.
  unfold peek. cbv zeta.
  set (u := updateFrame E (colorClock s) s) in *.
  rewrite <- Hv in Hmode. rewrite <- Hl. clear Hv Hl.
  destruct (readRegister E (Z.land addr 0x000f)), port;
    cbn [fst snd isPort]; unfold latchOf; tia_cbn; rewrite ?Hmode;
    (split; [first [exact Hmode | reflexivity] | split;
      [ first [ exact (fun H => H) | apply land_button_bit7 ]
      | first [ discriminate | intros _; apply land_masked_bit7 ] ]]).
Qed.

(** A write that keeps VBLANK bit 6 leaves the mode and the latches. *)
Lemma poke_latch (E : Env) (io : BusInputs) (addr value : Z)
    (port : TIAReadRegister) (s : TIA) :
  latchMode s = true ->
  keepsLatchMode E (Poke io addr value) ->
  latchMode (poke E io addr value s) = true
  /\ latchOf port (poke E io addr value s) = latchOf port s.
Proof.
  unfold latchMode, keepsLatchMode. intros Hmode Hkeep.
  unfold poke. cbv zeta.
  set (a := Z.land addr 0x003f) in *.
  pose proof (pokeCatchUp_stable myVBLANK
                (ps_render _ (proj1 stable_sys_cycles))
                (fun _ _ => eq_refl) (fun _ _ => eq_refl) E a s) as Hv.
  assert (Hl : latchOf port (pokeCatchUp E a s) = latchOf port s).
  { apply pokeCatchUp_stable;
      [ exact (ps_render _ (stable_latchOf port))
      | intros; destruct port; reflexivity
      | intros; destruct port; reflexivity ]. }
  rewrite <- Hv in Hmode. rewrite <- Hl. clear Hv Hl.
  set (c := pokeCatchUp E a s) in *. clearbody c.
  destruct (writeRegister E a) eqn:Hreg;
    try (rewrite (pokeRegister_stable _ (proj1 stable_sys_cycles)),
                 (pokeRegister_stable _ (stable_latchOf port))
           by discriminate; split; [exact Hmode | reflexivity]).
  - (* VSYNC *)
    unfold pokeRegister. cbv zeta beta.
    repeat (tia_cbn; split_if); unfold latchOf; destruct port; tia_cbn;
      split; first [exact Hmode | reflexivity].
  - (* VBLANK *)
    specialize (Hkeep eq_refl).
    unfold pokeRegister. cbv zeta beta.
    repeat (tia_cbn; split_if);
      try (rewrite Hmode in *; discriminate);
      unfold latchOf; destruct port; tia_cbn;
      split; first [exact Hkeep | reflexivity].
Qed.

Lemma tick_latch (n : Z) (port : TIAReadRegister) (s : TIA) :
  latchMode (tick n s) = latchMode s /\ latchOf port (tick n s) = latchOf port s.
Proof. destruct port; split; reflexivity. Qed.

(** One bus operation in latched mode. *)
Lemma busStep_latch (E : Env) (op : BusOp) (port : TIAReadRegister) (s : TIA) :
  latchMode s = true -> keepsLatchMode E op ->
  latchMode (snd (busStep E op s)) = true
  /\ (Z.land (latchOf port s) 0x80 = 0 ->
      Z.land (latchOf port (snd (busStep E op s))) 0x80 = 0)
  /\ (forall reg bit, fst (busStep E op s) = Some (reg, bit) ->
      isPort port reg = true ->
      bit = Z.land (latchOf port (snd (busStep E op s))) 0x80).
Proof.
  intros Hmode Hkeep. destruct op as [io addr | io addr value | n]; cbn [busStep fst snd].
  - destruct (peek_latch E io addr port s Hmode) as (Hm & Hz & Hr).
    split; [exact Hm | split; [exact Hz |]].
    intros reg bit Heq Hport. inversion Heq; subst. apply Hr, Hport.
  - destruct (poke_latch E io addr value port s Hmode Hkeep) as [Hm Hl].
    rewrite Hl. split; [exact Hm | split; [exact (fun H => H) | discriminate]].
  - destruct (tick_latch n port s) as [Hm Hl]. rewrite Hm, Hl.
    split; [exact Hmode | split; [exact (fun H => H) | discriminate]].
Qed.

(** With the latch clear, every later read of the port returns 0 in D7. *)
Lemma observed_clear (E : Env) (port : TIAReadRegister) (ops : list BusOp) :
  forall s, latchMode s = true -> Forall (keepsLatchMode E) ops ->
  Z.land (latchOf port s) 0x80 = 0 ->
  Forall (fun b => b = 0) (observed E port ops s).
Proof.
  induction ops as [| op rest IH]; intros s Hmode Hkeep Hclear; [constructor |].
  inversion Hkeep as [| ? ? Hop Hrest]; subst.
  destruct (busStep_latch E op port s Hmode Hop) as (Hm & Hz & Hr).
  specialize (Hz Hclear). cbn [observed]. cbv zeta.
  destruct (fst (busStep E op s)) as [[reg bit] |] eqn:Hout;
    [destruct (isPort port reg) eqn:Hport |]; try (apply IH; assumption).
  constructor; [| apply IH; assumption].
  rewrite (Hr reg bit eq_refl Hport). exact Hz.
Qed.

(** C8: while VBLANK bit 6 is set and no write takes it away, bit 7 of
    the successive reads of INPT4 (and of INPT5) never goes back from 0 to
    set, whatever reads, writes and elapsed cycles come in between and
    whatever the fire buttons do. *)
Theorem C8_latch_monotone (E : Env) (port : TIAReadRegister)
    (ops : list BusOp) (s : TIA) :
  latchMode s = true ->
  Forall (keepsLatchMode E) ops ->
  neverSetAgain (observed E port ops s).
Proof.
  revert s. induction ops as [| op rest IH]; intros s Hmode Hkeep pre post Heq.
  - destruct pre; discriminate.
  - inversion Hkeep as [| ? ? Hop Hrest]; subst.
    destruct (busStep_latch E op port s Hmode Hop) as (Hm & Hz & Hr).
    cbn [observed] in Heq. cbv zeta in Heq.
    destruct (fst (busStep E op s)) as [[reg bit] |] eqn:Hout;
      [destruct (isPort port reg) eqn:Hport |];
      try (apply (IH _ Hm Hrest pre post Heq)).
    destruct pre as [| b pre'].
    + cbn [app] in Heq. inversion Heq as [[Hbit Hpost]].
      apply observed_clear; try assumption.
      rewrite <- (Hr reg bit eq_refl Hport). exact Hbit.
    + cbn [app] in Heq. inversion Heq as [[Hbit Hpost]].
      apply (IH _ Hm Hrest pre' post Hpost).
Qed.

Lemma C8_witness :
  observed stellaEnv INPT4 fireAndRelease latchedModeOn = [0x80; 0; 0]
  /\ neverSetAgain (observed stellaEnv INPT4 fireAndRelease latchedModeOn).
Proof.
  split; [reflexivity |].
  apply (C8_latch_monotone stellaEnv INPT4 fireAndRelease latchedModeOn).
  - reflexivity.
  - repeat constructor.
Defined.

(** The latches are set again by the VBLANK write that finds bit 6 of the
    old value clear, whatever is written. *)
Lemma VBLANK_write_resets_latches (E : Env) (io : BusInputs)
    (value clock : Z) (s : TIA) :
  latchMode s = false ->
  myINPT4 (pokeRegister E io VBLANK value clock s) = 0x80
  /\ myINPT5 (pokeRegister E io VBLANK value clock s) = 0x80.
Proof.
  unfold latchMode. intros Hmode. unfold pokeRegister. cbv zeta beta.
  repeat (tia_cbn; split_if); try (rewrite Hmode in *; discriminate);
    tia_cbn; split; reflexivity.
Qed.

(** *** Collision latches (claim C2) *)

Lemma nonzero_land_bit (x k : Z) :
  0 <= k -> nonzero (Z.land x (Z.shiftl 1 k)) = Z.testbit x k.
Proof.
  intros Hk. rewrite Z.shiftl_1_l. unfold nonzero.
  destruct (Z.testbit x k) eqn:Hb.
  - destruct (Z.eqb_spec (Z.land x (2 ^ k)) 0) as [H0 |]; [| reflexivity].
    assert (Hc : Z.testbit (Z.land x (2 ^ k)) k = true).
    { rewrite Z.land_spec, Hb, Z.pow2_bits_true by lia. reflexivity. }
    rewrite H0, Z.bits_0 in Hc. discriminate.
  - replace (Z.land x (2 ^ k)) with 0; [reflexivity |].
    symmetry. apply Z.bits_inj'. intros i Hi.
    rewrite Z.land_spec, Z.bits_0, Z.pow2_bits_eqb by lia.
    destruct (Z.eqb_spec k i) as [-> |].
    + rewrite Hb. reflexivity.
    + apply andb_false_r.
Qed.

Lemma testbit_uInt16 (x k : Z) :
  0 <= k < 16 -> Z.testbit (uInt16 x) k = Z.testbit x k.
Proof.
  intros Hk. unfold uInt16. change 65536 with (2 ^ 16).
  apply Z.mod_pow2_bits_low. lia.
Qed.

Lemma testbit_uInt32 (x k : Z) :
  0 <= k < 32 -> Z.testbit (uInt32 x) k = Z.testbit x k.
Proof.
  intros Hk. unfold uInt32. change 4294967296 with (2 ^ 32).
  apply Z.mod_pow2_bits_low. lia.
Qed.

Lemma testbit_bit (k i : Z) :
  0 <= k -> Z.testbit (Z.shiftl 1 k) i = (k =? i).
Proof. intros Hk. rewrite Z.shiftl_1_l. apply Z.pow2_bits_eqb. exact Hk. Qed.

Section CollisionBits.

Context (T : TIATables) (idx : CollisionBit -> Z).
Hypothesis Hbits : oneBitPerPair T idx.

Lemma idx_range (c : CollisionBit) : 0 <= idx c < 16.
Proof. apply (proj1 Hbits c). Qed.

Lemma cxVal_idx (c : CollisionBit) : cxVal T c = Z.shiftl 1 (idx c).
Proof. apply (proj1 Hbits c). Qed.

Lemma latched_testbit (c : CollisionBit) (reg : Z) :
  latched T c reg = Z.testbit reg (idx c).
Proof.
  unfold latched. rewrite cxVal_idx. apply nonzero_land_bit, idx_range.
Qed.

Lemma maskBit_testbit (c : CollisionBit) (s : TIA) :
  maskBit T c s = Z.testbit (myCollisionEnabledMask s) (idx c).
Proof.
  unfold maskBit. rewrite cxVal_idx, nonzero_land_bit by apply idx_range.
  apply testbit_uInt16, idx_range.
Qed.

Lemma testbit_cxVal (c c' : CollisionBit) :
  Z.testbit (cxVal T c') (idx c) = true <-> c' = c.
Proof.
  rewrite cxVal_idx, testbit_bit by apply idx_range.
  rewrite Z.eqb_eq. split; [apply (proj2 Hbits) | intros ->; reflexivity].
Qed.

(** The bits of a table row built pair by pair. *)
Lemma testbit_pairs (P : CollisionBit -> bool) (l : list CollisionBit)
    (c : CollisionBit) :
  Z.testbit
    (fold_right (fun c' acc => if P c' then Z.lor (cxVal T c') acc else acc) 0 l)
    (idx c)
  = existsb (fun c' => P c' && Z.testbit (cxVal T c') (idx c)) l.
Proof.
  induction l as [| c' l IH]; cbn [fold_right existsb]; [apply Z.bits_0 |].
  destruct (P c'); cbn [andb].
  - rewrite Z.lor_spec, IH. reflexivity.
  - exact IH.
Qed.

Lemma allCollisionBits_complete (c : CollisionBit) : In c allCollisionBits.
Proof. destruct c; cbn; tauto. Qed.

Lemma testbit_collisionMaskOf (c : CollisionBit) (enabled : Z) :
  Z.testbit (collisionMaskOf (bitVal T) (cxVal T) enabled) (idx c)
  = bothEnabled (bitVal T) c enabled.
Proof.
  unfold collisionMaskOf. rewrite testbit_pairs.
  apply Bool.eq_iff_eq_true. rewrite existsb_exists. split.
  - intros (c' & _ & Hc). apply andb_true_iff in Hc. destruct Hc as [Hp Hb].
    apply testbit_cxVal in Hb. subst c'. exact Hp.
  - intros Hp. exists c. split; [apply allCollisionBits_complete |].
    rewrite Hp. apply testbit_cxVal. reflexivity.
Qed.

Lemma testbit_cxOr (l : list CollisionBit) (c : CollisionBit) :
  In c l -> Z.testbit (cxOr T l) (idx c) = true.
Proof.
  unfold cxOr. induction l as [| c' l IH]; cbn [fold_right In]; [tauto |].
  intros [-> | Hin]; rewrite Z.lor_spec.
  - replace (Z.testbit (cxVal T c) (idx c)) with true; [reflexivity |].
    symmetry. apply testbit_cxVal. reflexivity.
  - rewrite (IH Hin). apply orb_true_r.
Qed.

Lemma maskOut_clears (enabled : Z) (o : TIABit) (mask : Z) (c : CollisionBit) :
  nonzero (Z.land enabled (bitVal T o)) = false -> In c (cxOf o) ->
  Z.testbit (maskOut T enabled o mask) (idx c) = false.
Proof.
  intros Hoff Hin. unfold maskOut. rewrite Hoff. cbn [negb].
  rewrite testbit_uInt16 by apply idx_range.
  rewrite Z.land_spec, Z.lnot_spec by apply idx_range.
  rewrite (testbit_cxOr _ _ Hin). apply andb_false_r.
Qed.

Lemma maskOut_keeps_clear (enabled : Z) (o : TIABit) (mask : Z) (c : CollisionBit) :
  Z.testbit mask (idx c) = false ->
  Z.testbit (maskOut T enabled o mask) (idx c) = false.
Proof.
  intros Hclear. unfold maskOut. destruct (negb _); [| exact Hclear].
  rewrite testbit_uInt16 by apply idx_range.
  rewrite Z.land_spec, Hclear. reflexivity.
Qed.

Lemma inPair_cxOf (o : TIABit) (c : CollisionBit) : inPair o c -> In c (cxOf o).
Proof. destruct c; intros [-> | ->]; cbn; tauto. Qed.

End CollisionBits.

Lemma small_high_bits (m i : Z) :
  0 <= m < 65536 -> 16 <= i -> Z.testbit m i = false.
Proof.
  intros Hm Hi. rewrite <- (Z.mod_small m (2 ^ 16)) by (change (2 ^ 16) with 65536; lia).
  apply Z.mod_pow2_bits_high. lia.
Qed.

(** [(enabled << 16) | mask] keeps [enabled] in its upper half. *)
Lemma upper_half (enabled mask : Z) :
  0 <= enabled < 65536 -> 0 <= mask < 65536 ->
  uInt16 (Z.shiftr (uInt32 (Z.lor (Z.shiftl enabled 16) mask)) 16) = enabled.
Proof.
  intros He Hm. apply Z.bits_inj'. intros i Hi.
  destruct (Z.ltb_spec i 16) as [Hlow | Hhigh].
  - rewrite testbit_uInt16, Z.shiftr_spec, testbit_uInt32 by lia.
    rewrite Z.lor_spec, Z.shiftl_spec by lia.
    rewrite (small_high_bits mask (i + 16)) by lia.
    rewrite orb_false_r. f_equal. lia.
  - rewrite (small_high_bits enabled i) by lia.
    unfold uInt16. change 65536 with (2 ^ 16).
    apply Z.mod_pow2_bits_high. lia.
Qed.

Lemma uInt16_range (x : Z) : 0 <= uInt16 x < 65536.
Proof. unfold uInt16. apply Z.mod_pos_bound. lia. Qed.

Lemma maskOut_range (T : TIATables) (enabled : Z) (o : TIABit) (mask : Z) :
  0 <= mask < 65536 -> 0 <= maskOut T enabled o mask < 65536.
Proof.
  intros Hm. unfold maskOut. destruct (negb _); [apply uInt16_range | exact Hm].
Qed.

Lemma read_two_bit7 (v : Z) (a b : bool) :
  nonzero (Z.land (Z.lor (Z.land 0x3F v)
                     (Z.lor (if a then 0x80 else 0x00) (if b then 0x40 else 0x00)))
             0x80) = a.
Proof.
  rewrite Z.land_lor_distr_l, (Z.land_comm 0x3F v), <- Z.land_assoc.
  change (Z.land 0x3F 0x80) with 0. rewrite Z.land_0_r, Z.lor_0_l.
  destruct a, b; reflexivity.
Qed.

Lemma read_two_bit6 (v : Z) (a b : bool) :
  nonzero (Z.land (Z.lor (Z.land 0x3F v)
                     (Z.lor (if a then 0x80 else 0x00) (if b then 0x40 else 0x00)))
             0x40) = b.
Proof.
  rewrite Z.land_lor_distr_l, (Z.land_comm 0x3F v), <- Z.land_assoc.
  change (Z.land 0x3F 0x40) with 0. rewrite Z.land_0_r, Z.lor_0_l.
  destruct a, b; reflexivity.
Qed.

Lemma read_one_bit7 (v : Z) (a : bool) :
  nonzero (Z.land (Z.lor (Z.land (Z.land 0x3F v) 0x7F) (if a then 0x80 else 0x00))
             0x80) = a.
Proof.
  rewrite Z.land_lor_distr_l, <- (Z.land_assoc _ 0x7F 0x80).
  change (Z.land 0x7F 0x80) with 0. rewrite Z.land_0_r, Z.lor_0_l.
  destruct a; reflexivity.
Qed.

Section CollisionLatch.

Context (E : Env) (idx : CollisionBit -> Z).
Hypothesis Hbits : oneBitPerPair E idx.

Lemma masked_read (c : CollisionBit) (reg mask : Z) :
  nonzero (Z.land (Z.land reg mask) (cxVal E c))
  = latched E c reg && nonzero (Z.land mask (cxVal E c)).
Proof.
  unfold latched. rewrite (cxVal_idx E idx Hbits).
  rewrite !nonzero_land_bit by apply (idx_range E idx Hbits).
  apply Z.land_spec.
Qed.

(** What a read of the pair's register returns in the pair's data bit. *)
Lemma peek_reads_pair (io : BusInputs) (addr : Z) (c : CollisionBit) (s : TIA) :
  readRegister E (Z.land addr 0x000f) = fst (cxPort c) ->
  readsSet E io addr c s
  = latched E c (myCollision (updateFrame E (colorClock s) s))
    && maskBit E c (updateFrame E (colorClock s) s).
Proof.
  intros Hreg. unfold readsSet, peek, maskBit. cbv zeta. rewrite Hreg.
  rewrite <- masked_read.
  destruct c; cbn [cxPort fst snd];
    first [apply read_two_bit7 | apply read_two_bit6 | apply read_one_bit7].
Qed.

(** [toggleCollision] leaves the mask coherent with the flags. *)
Lemma toggleCollision_coherent (b : TIABit) (mode : Z) (s : TIA) :
  masksCoherent E (snd (toggleCollision E b mode s)).
Proof.
  intros c o Hin Hflag. apply (inPair_cxOf o c) in Hin.
  rewrite (maskBit_testbit E idx Hbits).
  pose proof (idx_range E idx Hbits c) as Hk.
  unfold collisionFlag in Hflag. unfold toggleCollision in *.
  cbv zeta in *. cbn [snd] in *. tia_cbn. tia_cbn_in Hflag.
  match type of Hflag with
  | context [Z.shiftl ?e 16] => set (enabled := e) in *
  end.
  assert (He : 0 <= enabled < 65536)
    by (subst enabled; repeat split_if; apply uInt16_range).
  rewrite upper_half in Hflag;
    [| exact He | repeat apply maskOut_range; lia].
  rewrite testbit_uInt32, Z.lor_spec, Z.shiftl_spec_low by lia.
  cbn [orb].
  destruct o; try (exfalso; exact Hin);
    repeat first
      [ apply (maskOut_clears E idx Hbits); [exact Hflag | exact Hin]
      | apply (maskOut_keeps_clear E idx Hbits) ].
Qed.

Hypothesis Htable : tableOfPairs E.

Lemma drawPixel_latched (c : CollisionBit) (hpos : Z) (s : TIA) :
  latched E c (myCollision (drawPixel E hpos s))
  = latched E c (myCollision s)
    || bothEnabled (bitVal E) c (enabledAt E s hpos).
Proof.
  unfold drawPixel. cbv zeta. tia_cbn.
  rewrite !(latched_testbit E idx Hbits).
  rewrite testbit_uInt16 by apply (idx_range E idx Hbits).
  rewrite Z.lor_spec, Htable, (testbit_collisionMaskOf E idx Hbits).
  reflexivity.
Qed.

Lemma enabledAt_drawPixel (hpos : Z) (s : TIA) :
  enabledAt E (drawPixel E hpos s) = enabledAt E s.
Proof. reflexivity. Qed.

(** A run of pixels latches the pairs that overlap at one of its positions
    and leaves the other latches as they were. *)
Lemma drawPixels_latched (c : CollisionBit) (n : nat) :
  forall (hpos : Z) (s : TIA),
    latched E c (myCollision (drawPixels E n hpos s))
    = latched E c (myCollision s)
      || existsb (fun h => bothEnabled (bitVal E) c (enabledAt E s h))
           (positions n hpos).
Proof.
  induction n as [| n IH]; intros hpos s; cbn [drawPixels positions existsb].
  - symmetry. apply orb_false_r.
  - rewrite IH, drawPixel_latched, enabledAt_drawPixel. symmetry. apply orb_assoc.
Qed.

End CollisionLatch.

Lemma startFrame_collision (E : Env) (s : TIA) :
  myCollision (startFrame E s) = myCollision s.
Proof.
  unfold startFrame, resetCycles, systemCyclesReset. cbv zeta. repeat (tia_cbn; split_if); reflexivity.
Qed.

Lemma stella_oneBitPerPair : oneBitPerPair stellaEnv stella_cxIndex.
Proof.
  split.
  - intros c. destruct c; (split; [cbn; lia | reflexivity]).
  - intros c c' H. destruct c, c'; first [reflexivity | discriminate H].
Qed.

Lemma stella_tableOfPairs : tableOfPairs stellaEnv.
Proof. intros enabled. reflexivity. Qed.



(** *** Saving and loading (claim C9) *)

Section SerialisationProperties.

Context {Stream : Type} `{Serializer Stream} `{SoundDevice Stream}.

Lemma readAll_app (L1 L2 : list FieldKind) (io : Stream) :
  readAll (L1 ++ L2) io
  = match readAll L1 io with Some io' => readAll L2 io' | None => None end.
Proof.
  revert io. induction L1 as [| k L1 IH]; intros io; cbn [readAll app].
  - reflexivity.
  - destruct (readKind k io); [apply IH | reflexivity].
Qed.

Lemma writeAll_app (L1 L2 : list Field) (io : Stream) :
  writeAll (L1 ++ L2) io
  = match writeAll L1 io with Some io' => writeAll L2 io' | None => None end.
Proof.
  revert io. induction L1 as [| k L1 IH]; intros io; cbn [writeAll app].
  - reflexivity.
  - destruct (writeField k io); [apply IH | reflexivity].
Qed.

Lemma reads_bind {St A B : Type} (m : Ser St Stream A) (k : A -> Ser St Stream B)
    (L L1 L2 : list FieldKind) :
  reads m L1 -> (forall a, reads (k a) L2) -> L = L1 ++ L2 ->
  reads (bind m k) L.
Proof.
  intros Hm Hk -> st io. unfold bind. rewrite readAll_app.
  specialize (Hm st io).
  destruct (m st io) as [a st' io' | st'], (readAll L1 io) as [io'' |];
    try contradiction; [subst io''; apply Hk | exact I].
Qed.

Lemma writes_bind {St A B : Type} (m : Ser St Stream A) (k : A -> Ser St Stream B)
    (L L1 L2 : list Field) :
  writes m L1 -> (forall a, writes (k a) L2) -> L = L1 ++ L2 ->
  writes (bind m k) L.
Proof.
  intros Hm Hk -> st io. unfold bind. rewrite writeAll_app.
  specialize (Hm st io).
  destruct (m st io) as [a st' io' | st'], (writeAll L1 io) as [io'' |];
    try contradiction; [subst io''; apply Hk | exact I].
Qed.

Lemma reads_rd {St A : Type} (f : Stream -> option (A * Stream)) (k : FieldKind) :
  (forall io, readKind k io = option_map snd (f io)) ->
  reads (St := St) (rd f) [k].
Proof.
  intros Hk st io. unfold rd. cbn [readAll]. rewrite Hk.
  destruct (f io) as [[a io'] |]; cbn; [reflexivity | exact I].
Qed.

Lemma reads_wr {St : Type} (f : Stream -> option Stream) (k : FieldKind) :
  (forall io, readKind k io = f io) -> reads (St := St) (wr f) [k].
Proof.
  intros Hk st io. unfold wr. cbn [readAll]. rewrite Hk.
  destruct (f io) as [io' |]; [reflexivity | exact I].
Qed.

Lemma writes_wr {St : Type} (f : Stream -> option Stream) (k : Field) :
  (forall io, writeField k io = f io) -> writes (St := St) (wr f) [k].
Proof.
  intros Hk st io. unfold wr. cbn [writeAll]. rewrite Hk.
  destruct (f io) as [io' |]; [reflexivity | exact I].
Qed.

Lemma reads_upd {St : Type} (f : St -> St) : reads (upd f) [].
Proof. intros st io. reflexivity. Qed.

Lemma reads_ret {St A : Type} (a : A) : reads (St := St) (ret a) [].
Proof. intros st io. reflexivity. Qed.

Lemma reads_zoom {St O A : Type} (get : St -> O) (set : O -> St -> St)
    (m : Ser O Stream A) (L : list FieldKind) :
  reads m L -> reads (zoom get set m) L.
Proof.
  intros Hm st io. unfold zoom. specialize (Hm (get st) io).
  destruct (m (get st) io), (readAll L io); exact Hm.
Qed.

End SerialisationProperties.

(** One statement of a block that reads or writes. *)
Ltac ser_step :=
  lazymatch goal with
  | |- reads (bind (rd _) _) _ =>
      (eapply reads_bind; [ eapply reads_rd | | ]);
      [ | | reflexivity ]; [ intros; reflexivity | intros ]
  | |- reads (bind (upd _) _) _ =>
      eapply reads_bind; [ apply reads_upd | intros | reflexivity ]
  | |- reads (bind (wr _) _) _ =>
      (eapply reads_bind; [ eapply reads_wr | | ]);
      [ | | reflexivity ]; [ intros; reflexivity | intros ]
  | |- reads (upd _) _ => apply reads_upd
  | |- reads (ret _) _ => apply reads_ret
  | |- reads (rd _) _ => apply reads_rd; intros; reflexivity
  | |- reads (wr _) _ => apply reads_wr; intros; reflexivity
  | |- writes (bind (wr _) _) _ =>
      (eapply writes_bind; [ eapply writes_wr | | ]);
      [ | | reflexivity ]; [ intros; reflexivity | intros ]
  | |- writes (wr _) _ => apply writes_wr; intros; reflexivity
  end.

(** A call of the block of a member, whose own lemma is [Hm]. *)
Ltac ser_call Hm :=
  lazymatch goal with
  | |- reads (bind (zoom _ _ _) _) _ =>
      eapply reads_bind; [ apply reads_zoom, Hm | intros | reflexivity ]
  | |- writes (bind _ _) _ =>
      eapply writes_bind; [ apply Hm | intros | reflexivity ]
  end.

Section SaveLoad.

Context {Stream : Type} `{Serializer Stream} `{SoundDevice Stream}.

Lemma Moveable_load_reads : reads Moveable_load Moveable_layout.
Proof. unfold Moveable_load. repeat ser_step. Qed.

Lemma Playfield_load_reads : reads Playfield_load Playfield_layout.
Proof. unfold Playfield_load. repeat ser_step. Qed.

Lemma Player_load_reads : reads Player_load Player_layout.
Proof.
  unfold Player_load. ser_call Moveable_load_reads. repeat ser_step.
Qed.

Lemma Missile_load_reads : reads Missile_load Missile_layout.
Proof.
  unfold Missile_load. ser_call Moveable_load_reads. repeat ser_step.
Qed.

Lemma Ball_load_reads : reads Ball_load Ball_layout.
Proof.
  unfold Ball_load. ser_call Moveable_load_reads. repeat ser_step.
Qed.

Lemma loadFields_reads (T : TIATables) : reads (loadFields T) TIA_layout.
Proof.
  unfold loadFields. repeat ser_step.
  ser_call Playfield_load_reads.
  ser_call Player_load_reads. ser_call Player_load_reads.
  ser_call Missile_load_reads. ser_call Missile_load_reads.
  ser_call Ball_load_reads.
  repeat ser_step.
Qed.

End SaveLoad.

Section SaveLoadResult.

Context {Stream : Type} `{Serializer Stream} `{SoundDevice Stream}.

Lemma Moveable_save_writes (o : Moveable.t) :
  writes (Moveable_save o) (Moveable_fields o).
Proof. unfold Moveable_save. repeat ser_step. Qed.

Lemma Playfield_save_writes (p : Playfield.t) :
  writes (Playfield_save p) (Playfield_fields p).
Proof. unfold Playfield_save. repeat ser_step. Qed.

Lemma Player_save_writes (p : Player.t) :
  writes (Player_save p) (Player_fields p).
Proof.
  unfold Player_save. ser_call Moveable_save_writes. repeat ser_step.
Qed.

Lemma Missile_save_writes (m : Missile.t) :
  writes (Missile_save m) (Missile_fields m).
Proof.
  unfold Missile_save. ser_call Moveable_save_writes. repeat ser_step.
Qed.

Lemma Ball_save_writes (b : Ball.t) :
  writes (Ball_save b) (Ball_fields b).
Proof.
  unfold Ball_save. ser_call Moveable_save_writes. repeat ser_step.
Qed.

Lemma saveBody_writes (s : TIA) : writes (saveBody s) (TIA_fields s).
Proof.
  unfold saveBody. repeat ser_step.
  ser_call Playfield_save_writes.
  ser_call Player_save_writes. ser_call Player_save_writes.
  ser_call Missile_save_writes. ser_call Missile_save_writes.
  ser_call Ball_save_writes.
  repeat ser_step.
Qed.

(** C9: [load] and [save] return a boolean for every state and every
    stream, whatever reads and writes fail (a failing stream operation is
    the exception the [catch(...)] of the source turns into [false]).
    [load] returns true exactly when the stream begins with the tag "TIA"
    and holds all the fields of the state block after it; when the tag
    cannot be read or is not "TIA" it returns false and leaves the state as
    it was.  [save] returns true exactly when the stream accepts the tag and
    all the fields. *)
Theorem C9_save_load (T : TIATables) (s : TIA) (io : Stream) :
  fst (load T s io)
  = match getString io with
    | Some (tag, io') =>
        String.eqb tag "TIA" && isSome (readAll TIA_layout io')
    | None => false
    end
  /\ (forall tag io',
         getString io = Some (tag, io') -> String.eqb tag "TIA" = false ->
         load T s io = (false, s))
  /\ (getString io = None -> load T s io = (false, s))
  /\ save s io
     = (isSome (writeAll (TIA_fields s) io), writeAll (TIA_fields s) io).
Proof.
  split; [| split; [| split]].
  - unfold load, loadBody, bind, rd.
    destruct (getString io) as [[tag io'] |]; [| reflexivity].
    destruct (String.eqb tag "TIA"); cbn [negb andb]; [| reflexivity].
    pose proof (loadFields_reads T s io') as Hf.
    destruct (loadFields T s io') as [u s' io1 | s'],
             (readAll TIA_layout io') as [io2 |];
      try contradiction; reflexivity.
  - intros tag io' Hget Htag. unfold load, loadBody, bind, rd.
    rewrite Hget, Htag. reflexivity.
  - intros Hget. unfold load, loadBody, bind, rd. rewrite Hget. reflexivity.
  - unfold save. pose proof (saveBody_writes s tt io) as Hw.
    destruct (saveBody s tt io) as [u st io1 | st],
             (writeAll (TIA_fields s) io) as [io2 |];
      try contradiction; [subst io2 |]; reflexivity.
Qed.

End SaveLoadResult.

(** A saved state is the tag and 76 fields long and loads; the position of
    missile 0 comes back. *)
Example save_then_load :
  fst (save lateHMOVE_then_RESM0 ([], 200%nat)) = true
  /\ List.length (fst (streamOf savedState)) = 77%nat
  /\ fst (load stellaEnv powerOn (streamOf savedState)) = true
  /\ Missile.getPos (myMissile0 (snd (load stellaEnv powerOn (streamOf savedState))))
     = -13.
Proof. repeat split; vm_compute; reflexivity. Qed.

(** Without room for the whole block [save] returns false; a stream cut
    after 40 fields, or one that starts with another tag, does not load. *)
Example save_load_failures :
  fst (save lateHMOVE_then_RESM0 ([], 40%nat)) = false
  /\ fst (load stellaEnv powerOn (firstn 40 (fst (streamOf savedState)), O)) = false
  /\ load stellaEnv powerOn (FString "M6532" :: tl (fst (streamOf savedState)), O)
     = (false, powerOn)
  /\ load stellaEnv powerOn ([], O) = (false, powerOn).
Proof. repeat split; first [reflexivity | vm_compute; reflexivity]. Qed.

(** A stream that is cut after the tag has been accepted leaves the fields
    read so far in the state: the load is not undone. *)
Example truncated_load_keeps_fields :
  let cut := (firstn 40 (fst (streamOf savedState)), O) in
  myClocksToEndOfScanLine powerOn = 228
  /\ myClocksToEndOfScanLine lateHMOVE_then_RESM0 = 217
  /\ fst (load stellaEnv powerOn cut) = false
  /\ myClocksToEndOfScanLine (snd (load stellaEnv powerOn cut)) = 217.
Proof. repeat split; vm_compute; reflexivity. Qed.

(** ** Further properties of the code *)

(** *** Wrap-around arithmetic *)

Lemma uInt32_Int32 (x : Z) : uInt32 (Int32 x) = uInt32 x.
Proof.
  unfold uInt32, Int32. rewrite Zminus_mod_idemp_l. f_equal. lia.
Qed.

Lemma Int32_uInt32 (x : Z) : Int32 (uInt32 x) = Int32 x.
Proof. unfold uInt32, Int32. rewrite Zplus_mod_idemp_l. reflexivity. Qed.

Lemma uInt32_sub_r (a b : Z) : uInt32 (a - uInt32 b) = uInt32 (a - b).
Proof. unfold uInt32. apply Zminus_mod_idemp_r. Qed.

Lemma uInt32_sub_l (a b : Z) : uInt32 (uInt32 a - b) = uInt32 (a - b).
Proof. unfold uInt32. apply Zminus_mod_idemp_l. Qed.

Lemma uInt32_mul_l (a b : Z) : uInt32 (uInt32 a * b) = uInt32 (a * b).
Proof. unfold uInt32. apply Zmult_mod_idemp_l. Qed.

Lemma uInt32_idem (x : Z) : uInt32 (uInt32 x) = uInt32 x.
Proof. unfold uInt32. apply Z.mod_mod. lia. Qed.

Lemma uInt32_small (x : Z) : 0 <= x < 4294967296 -> uInt32 x = x.
Proof. intros H. unfold uInt32. apply Z.mod_small. exact H. Qed.

Lemma Int32_small (x : Z) : -2147483648 <= x < 2147483648 -> Int32 x = x.
Proof. intros H. unfold Int32. rewrite Z.mod_small; lia. Qed.

(** What is left of a member after [member -= amount] and of the counter
    after it is set to 0: the distance between the two. *)
Lemma rebased_distance (counter scale member : Z) :
  uInt32 (0 * scale
          - Int32 (uInt32 (member - uInt32 (uInt32 counter * scale))))
  = uInt32 (counter * scale - member).
Proof.
  rewrite Z.mul_0_l.
  set (w := uInt32 (uInt32 counter * scale)).
  rewrite <- (uInt32_sub_r 0 (Int32 _)), uInt32_Int32.
  rewrite uInt32_idem, uInt32_sub_r.
  replace (0 - (member - w)) with (w - member) by lia.
  subst w. rewrite uInt32_sub_l.
  rewrite <- (uInt32_sub_l (uInt32 counter * scale)), uInt32_mul_l.
  apply uInt32_sub_l.
Qed.

(** *** The beam position across counter resets *)

(** X1: [systemCyclesReset], followed by the reset of the cycle counter it
    prepares, moves nothing: the scanline count, the clock within the
    scanline and what the dumped input ports read are the same as before,
    also when the 32-bit counters wrap. *)
Theorem X1_systemCyclesReset_keeps_beam (s : TIA) :
  scanlines (resetCycles s) = scanlines s
  /\ clocksThisLine (resetCycles s) = clocksThisLine s
  /\ (forall E io resistance,
         dumpedInputPort E io resistance (resetCycles s)
         = dumpedInputPort E io resistance s).
Proof.
  assert (Hclock :
    uInt32 (sys_cycles (resetCycles s) * PIXEL_CLOCKS
            - myClockWhenFrameStarted (resetCycles s))
    = uInt32 (sys_cycles s * PIXEL_CLOCKS - myClockWhenFrameStarted s)).
  { unfold resetCycles, systemCyclesReset. cbv zeta. tia_cbn.
    apply rebased_distance. }
  assert (Hdump :
    uInt32 (sys_cycles (resetCycles s) - myDumpDisabledCycle (resetCycles s))
    = uInt32 (sys_cycles s - myDumpDisabledCycle s)).
  { unfold resetCycles, systemCyclesReset. cbv zeta. tia_cbn.
    pose proof (rebased_distance (sys_cycles s) 1 (myDumpDisabledCycle s)) as H.
    rewrite !Z.mul_1_r, uInt32_idem in H. exact H. }
  split; [| split].
  - unfold scanlines. rewrite Hclock. reflexivity.
  - unfold clocksThisLine. rewrite Hclock. reflexivity.
  - intros E io resistance. unfold dumpedInputPort. rewrite Hdump.
    reflexivity.
Qed.

Lemma clocksThisLine_range (s : TIA) : 0 <= clocksThisLine s < 228.
Proof. unfold clocksThisLine. apply Z.mod_pos_bound. reflexivity. Qed.

(** The distance from the frame start to the cycle counter after
    [startFrame]. *)
Lemma startFrame_distance (E : Env) (s : TIA) :
  uInt32 (sys_cycles (startFrame E s) * PIXEL_CLOCKS
          - myClockWhenFrameStarted (startFrame E s))
  = clocksThisLine s.
Proof.
  pose proof (clocksThisLine_range s) as Hrange.
  unfold startFrame, resetCycles, systemCyclesReset. cbv zeta.
  repeat (tia_cbn; split_if); tia_cbn;
    change (clocksThisLine (set_myPreviousFrameBuffer _ _))
      with (clocksThisLine s);
    rewrite Int32_uInt32, Int32_small by lia;
    rewrite uInt32_small by lia; lia.
Qed.

(** What [startFrame] leaves of the members [systemCyclesReset] rebases and
    [startFrame] does not set again. *)
Lemma startFrame_rebases (E : Env) (s : TIA) :
  uInt32 (sys_cycles (startFrame E s) - myDumpDisabledCycle (startFrame E s))
  = uInt32 (sys_cycles s - myDumpDisabledCycle s)
  /\ myDumpEnabled (startFrame E s) = myDumpEnabled s
  /\ myVSYNCFinishClock (startFrame E s)
     = Int32 (uInt32 (myVSYNCFinishClock s - sys_cycles s * PIXEL_CLOCKS)).
Proof.
  pose proof (rebased_distance (sys_cycles s) 1 (myDumpDisabledCycle s)) as Hd.
  rewrite !Z.mul_1_r, uInt32_idem in Hd.
  assert (Hv : Int32 (uInt32 (myVSYNCFinishClock s
                              - uInt32 (uInt32 (sys_cycles s) * PIXEL_CLOCKS)))
               = Int32 (uInt32 (myVSYNCFinishClock s
                                - sys_cycles s * PIXEL_CLOCKS))).
  { rewrite uInt32_sub_r.
    rewrite <- (uInt32_sub_r _ (uInt32 (sys_cycles s) * PIXEL_CLOCKS)),
            uInt32_mul_l, uInt32_sub_r. reflexivity. }
  unfold startFrame, resetCycles, systemCyclesReset. cbv zeta.
  repeat (tia_cbn; split_if); tia_cbn;
    (split; [exact Hd | split; [reflexivity | exact Hv]]).
Qed.

(** X2: [startFrame] restarts the cycle counter and the scanline count and
    keeps the beam where it is within the scanline: [clocksThisLine()] is the
    same before and after, [scanlines()] is 0, and the frame pointer is back
    at the start of the buffer.  The reset of the cycle counter goes through
    [systemCyclesReset]: the dumped input ports read what they read before,
    and the VSYNC deadline is moved back by the clocks the counter lost. *)
Theorem X2_startFrame_keeps_clocksThisLine (E : Env) (s : TIA) :
  clocksThisLine (startFrame E s) = clocksThisLine s
  /\ scanlines (startFrame E s) = 0
  /\ sys_cycles (startFrame E s) = 0
  /\ myFramePointer (startFrame E s) = 0
  /\ myFramePointerClocks (startFrame E s) = 0
  /\ (forall T io resistance,
         dumpedInputPort T io resistance (startFrame E s)
         = dumpedInputPort T io resistance s)
  /\ myVSYNCFinishClock (startFrame E s)
     = Int32 (uInt32 (myVSYNCFinishClock s - sys_cycles s * PIXEL_CLOCKS)).
Proof.
  pose proof (clocksThisLine_range s) as Hrange.
  pose proof (startFrame_distance E s) as Hclock.
  destruct (startFrame_rebases E s) as (Hdump & Hflag & Hsync).
  split; [| split; [| split; [| split; [| split; [| split]]]]].
  - unfold clocksThisLine at 1. rewrite Hclock.
    apply Z.mod_small. exact Hrange.
  - unfold scanlines. rewrite Hclock. apply Z.div_small. exact Hrange.
  - unfold startFrame, resetCycles, systemCyclesReset. cbv zeta.
    repeat (tia_cbn; split_if); reflexivity.
  - unfold startFrame, resetCycles, systemCyclesReset. cbv zeta.
    repeat (tia_cbn; split_if); reflexivity.
  - unfold startFrame, resetCycles, systemCyclesReset. cbv zeta.
    repeat (tia_cbn; split_if); reflexivity.
  - intros T io resistance. unfold dumpedInputPort.
    rewrite Hdump, Hflag. reflexivity.
  - exact Hsync.
Qed.

(** A frame started at cycle 100, with the dump path removed at cycle 95
    and a VSYNC deadline at clock 528: both are counted from the new cycle 0
    afterwards. *)
Example startFrame_rebases_at_cycle_100 :
  let s := startFrame stellaEnv
             (set_sys_cycles 100
                (set_myDumpDisabledCycle 95
                   (set_myVSYNCFinishClock 528 powerOn))) in
  sys_cycles s = 0 /\ myDumpDisabledCycle s = -5
  /\ myVSYNCFinishClock s = 228 /\ myClockWhenFrameStarted s = -72.
Proof. vm_compute. repeat split; reflexivity. Qed.

(** X3: [waitHorizontalSync] leaves the CPU at the first clock of a
    scanline, less than one scanline (76 cycles) later, when the frame
    started on a cycle boundary (three color clocks to a cycle) and the
    counters do not wrap. *)
Theorem X3_waitHorizontalSync_lands_on_scanline_start (q : Z) (s : TIA) :
  myClockWhenFrameStarted s = 3 * q ->
  0 <= sys_cycles s -> q <= sys_cycles s ->
  sys_cycles s + 76 < 4294967296 ->
  3 * (sys_cycles s - q + 76) < 4294967296 ->
  clocksThisLine (waitHorizontalSync s) = 0
  /\ sys_cycles s <= sys_cycles (waitHorizontalSync s) < sys_cycles s + 76.
Proof.
  intros Hstart Hc Hq Hwrap Hwrap3.
  pose proof (Z.mod_pos_bound (sys_cycles s - q) 76 eq_refl) as Hr.
  assert (Hline : forall c, q <= c -> 3 * (c - q) < 4294967296 ->
            (c - q) mod 76 = 0 ->
            uInt32 (c * PIXEL_CLOCKS - 3 * q) mod SCANLINE_CLOCKS = 0).
  { intros c Hcq Hc3 Hmod. unfold SCANLINE_CLOCKS, PIXEL_CLOCKS, SCANLINE_CYCLES.
    replace (c * 3 - 3 * q) with (3 * (c - q)) by lia.
    rewrite uInt32_small by lia.
    rewrite Z.mul_mod_distr_l by lia. rewrite Hmod. reflexivity. }
  assert (Hquot : Z.quot (3 * q) PIXEL_CLOCKS = q).
  { unfold PIXEL_CLOCKS. rewrite Z.mul_comm. apply Z.quot_mul. lia. }
  unfold waitHorizontalSync, clocksThisLine. cbv zeta.
  rewrite Hstart, Hquot.
  unfold SCANLINE_CYCLES in *.
  rewrite (uInt32_small (sys_cycles s - q)) by lia.
  rewrite (uInt32_small (76 - _)) by lia.
  destruct (Z.ltb_spec (76 - (sys_cycles s - q) mod 76) 76) as [Hlt | Hge];
    tia_cbn.
  - rewrite (uInt32_small (sys_cycles s + _)) by lia. split; [| lia].
    rewrite Hstart. apply Hline; try lia.
    replace (sys_cycles s + (76 - (sys_cycles s - q) mod 76) - q)
      with (sys_cycles s - q - (sys_cycles s - q) mod 76 + 1 * 76) by lia.
    rewrite Z.mod_add by lia.
    rewrite Zminus_mod_idemp_r, Z.sub_diag. reflexivity.
  - split; [| lia]. rewrite Hstart. apply Hline; lia.
Qed.

Lemma X3_witness :
  clocksThisLine midScanline = 72
  /\ clocksThisLine (waitHorizontalSync midScanline) = 0
  /\ sys_cycles (waitHorizontalSync midScanline) = 152.
Proof.
  pose proof (X3_waitHorizontalSync_lands_on_scanline_start 0 midScanline
                ltac:(by_eval) ltac:(by_eval) ltac:(by_eval) ltac:(by_eval)
                ltac:(by_eval)) as [Hline _].
  split; [reflexivity | split; [exact Hline | reflexivity]].
Defined.

(** X4: inside a frame with the beam in the visible area, [scanlinePos]
    answers true with a column below 160, and column and row rebuild the
    frame pointer: offset + 160 * y + x is the number of pixel clocks
    drawn. *)
Theorem X4_scanlinePos_rebuilds_frame_pointer (s : TIA) :
  myPartialFrameFlag s = true ->
  0 <= myFramePointerOffset s <= myFramePointerClocks s ->
  myFramePointerClocks s - myFramePointerOffset s < 160 * 65536 ->
  let r := scanlinePos s in
  fst r = true
  /\ 0 <= fst (snd r) < 160
  /\ myFramePointerOffset s + SCANLINE_PIXEL * snd (snd r) + fst (snd r)
     = myFramePointerClocks s.
Proof.
  intros Hpartial Hoff Hfit. unfold scanlinePos. rewrite Hpartial.
  destruct (Z.geb_spec (myFramePointerClocks s) (myFramePointerOffset s))
    as [_ | Hlt]; [| lia].
  cbn [fst snd]. unfold SCANLINE_PIXEL.
  set (d := myFramePointerClocks s - myFramePointerOffset s) in *.
  rewrite (uInt32_small d) by lia.
  pose proof (Z.mod_pos_bound d 160 eq_refl) as Hx.
  pose proof (Z.div_mod d 160 ltac:(lia)) as Hd.
  assert (Hy : 0 <= d / 160 < 65536).
  { split; [apply Z.div_pos; lia | apply Z.div_lt_upper_bound; lia]. }
  unfold uInt16.
  rewrite (Z.mod_small (d mod 160) 65536), (Z.mod_small (d / 160) 65536) by lia.
  split; [reflexivity | split; [exact Hx | lia]].
Qed.

Lemma X4_witness :
  scanlinePos beamInPicture = (true, (80, 3))
  /\ 5440 + 160 * 3 + 80 = myFramePointerClocks beamInPicture.
Proof.
  pose proof (X4_scanlinePos_rebuilds_frame_pointer beamInPicture
                ltac:(by_eval) ltac:(by_eval) ltac:(by_eval)) as (_ & _ & H).
  split; [reflexivity | exact H].
Defined.

(** *** What a read returns *)

Lemma stable_pinsDriven : RenderStable myTIAPinsDriven.
Proof. repeat constructor. Qed.

Lemma stable_dump : RenderStable myDumpEnabled /\ RenderStable myDumpDisabledCycle.
Proof. split; repeat constructor. Qed.

Lemma drivenBits_const (a b : bool) :
  drivenBits (Z.lor (if a then 0x80 else 0x00) (if b then 0x40 else 0x00)).
Proof. destruct a, b; split; reflexivity. Qed.

Lemma drivenBits_bit7 (a : bool) : drivenBits (if a then 0x80 else 0x00).
Proof. destruct a; split; reflexivity. Qed.

Lemma drivenBits_latch (x : Z) (pin : bool) :
  drivenBits (Z.land x (if pin then 0x80 else 0x00)).
Proof.
  destruct pin; split; rewrite <- ?Z.land_assoc;
    first [ change (Z.land 0x80 0x3F) with 0
          | change (Z.land 0x80 0xFF) with 0x80
          | idtac ];
    rewrite ?Z.land_0_r; reflexivity.
Qed.

Lemma bus_with_driven_bits (v x : Z) :
  drivenBits x ->
  Z.land (Z.lor (Z.land 0x3F v) x) 0x3F = Z.land v 0x3F
  /\ 0 <= Z.lor (Z.land 0x3F v) x < 256.
Proof.
  intros [Hlow Hbyte]. split.
  - rewrite Z.land_lor_distr_l, Hlow, Z.lor_0_r.
    rewrite (Z.land_comm 0x3F v), <- Z.land_assoc. reflexivity.
  - assert (H : Z.land (Z.lor (Z.land 0x3F v) x) 0xFF = Z.lor (Z.land 0x3F v) x).
    { rewrite Z.land_lor_distr_l, Hbyte.
      rewrite (Z.land_comm 0x3F v), <- Z.land_assoc. reflexivity. }
    rewrite <- H. change 0xFF with (Z.ones 8).
    rewrite Z.land_ones by lia. apply Z.mod_pos_bound. reflexivity.
Qed.

Lemma bus_masked (v : Z) : Z.land (Z.land 0x3F v) 0x7F = Z.land 0x3F v.
Proof.
  rewrite (Z.land_comm 0x3F v), <- Z.land_assoc. reflexivity.
Qed.

Lemma drivenBits_dumped (E : Env) (io : BusInputs) (resistance : Z) (s : TIA) :
  drivenBits (dumpedInputPort E io resistance s).
Proof.
  unfold dumpedInputPort. cbv zeta.
  repeat match goal with
         | |- drivenBits (if ?c then _ else _) => destruct c
         end; split; reflexivity.
Qed.

(** X5: a read returns the data bus in D5..D0 whatever the address: the TIA
    drives D7 and D6 only, and the value is a byte. *)
Theorem X5_peek_drives_D7_D6_only (E : Env) (io : BusInputs) (addr : Z) (s : TIA) :
  let bus := if negb (myTIAPinsDriven s) then in_dataBus io
             else in_dataBusDriven io in
  Z.land (fst (peek E io addr s)) 0x3F = Z.land bus 0x3F
  /\ 0 <= fst (peek E io addr s) < 256.
Proof.
  cbv zeta. unfold peek. cbv zeta.
  rewrite (updateFrame_stable _ stable_pinsDriven).
  set (u := updateFrame E (colorClock s) s).
  set (bus := if negb (myTIAPinsDriven s) then in_dataBus io
              else in_dataBusDriven io).
  destruct (readRegister E (Z.land addr 0x000f)); cbn [fst];
    rewrite ?bus_masked;
    first
      [ apply bus_with_driven_bits;
        first [ apply drivenBits_const | apply drivenBits_bit7
              | apply drivenBits_dumped
              | tia_cbn; destruct (nonzero _);
                first [ apply drivenBits_latch | apply drivenBits_bit7 ] ]
      | rewrite <- (Z.lor_0_r (Z.land 0x3F bus));
        apply bus_with_driven_bits; split; reflexivity ].
Qed.

(** *** Object switches *)

Lemma testbit_uInt8 (x i : Z) :
  0 <= i -> Z.testbit (uInt8 x) i = (i <? 8) && Z.testbit x i.
Proof.
  intros Hi. unfold uInt8. change 256 with (2 ^ 8).
  destruct (Z.ltb_spec i 8).
  - apply Z.mod_pow2_bits_low. lia.
  - apply Z.mod_pow2_bits_high. lia.
Qed.

Lemma byte_high_bits (d i : Z) :
  0 <= d < 256 -> 8 <= i -> Z.testbit d i = false.
Proof.
  intros Hd Hi. rewrite <- (Z.mod_small d (2 ^ 8)) by (change (2 ^ 8) with 256; lia).
  apply Z.mod_pow2_bits_high. lia.
Qed.

Lemma nonzero_land_pow2 (x k : Z) :
  0 <= k -> nonzero (Z.land x (2 ^ k)) = Z.testbit x k.
Proof.
  intros Hk. rewrite <- Z.shiftl_1_l. apply nonzero_land_bit. exact Hk.
Qed.

(** [d |= b] and [d &= ~b] on a byte, bit by bit. *)
Lemma set_bit_spec (d k i : Z) :
  0 <= k -> 0 <= i ->
  Z.testbit (uInt8 (Z.lor d (2 ^ k))) i
  = (i <? 8) && (Z.testbit d i || (k =? i)).
Proof.
  intros Hk Hi. rewrite testbit_uInt8, Z.lor_spec, Z.pow2_bits_eqb by lia.
  reflexivity.
Qed.

Lemma clear_bit_spec (d k i : Z) :
  0 <= k -> 0 <= i ->
  Z.testbit (uInt8 (Z.land d (Z.lnot (2 ^ k)))) i
  = (i <? 8) && (Z.testbit d i && negb (k =? i)).
Proof.
  intros Hk Hi.
  rewrite testbit_uInt8, Z.land_spec, Z.lnot_spec, Z.pow2_bits_eqb by lia.
  reflexivity.
Qed.

(** X6: [toggleBit] with a mode other than 0 and 1 flips the object's bit
    and answers its new state; a second call flips it back, and the byte
    [myDisabledObjects] is what it was. *)
Theorem X6_toggleBit_twice (T : TIATables) (b : TIABit) (k mode : Z) (s : TIA) :
  bitVal T b = 2 ^ k -> 0 <= k < 8 ->
  0 <= myDisabledObjects s < 256 ->
  mode <> 0 -> mode <> 1 ->
  let once := toggleBit T b mode s in
  let twice := toggleBit T b mode (snd once) in
  fst once = negb (Z.testbit (myDisabledObjects s) k)
  /\ Z.testbit (myDisabledObjects (snd once)) k = fst once
  /\ fst twice = negb (fst once)
  /\ myDisabledObjects (snd twice) = myDisabledObjects s.
Proof.
  intros Hbv Hk Hd H0 H1. cbv zeta. unfold toggleBit. cbv zeta.
  apply Z.eqb_neq in H0, H1. rewrite H0, H1, Hbv. cbn [orb fst snd].
  rewrite nonzero_land_pow2 by lia.
  set (d := myDisabledObjects s) in *.
  destruct (Z.testbit d k) eqn:Hbit; cbn [negb]; tia_cbn;
    rewrite nonzero_land_pow2 by lia.
  - (* the bit was set: cleared, then set again *)
    rewrite clear_bit_spec by lia. rewrite Z.eqb_refl, andb_false_r, andb_false_r.
    cbn [negb]. tia_cbn.
    repeat split. apply Z.bits_inj'. intros i Hi.
    rewrite set_bit_spec, clear_bit_spec by lia.
    destruct (Z.ltb_spec i 8); cbn [andb].
    + destruct (Z.eqb_spec k i) as [-> |]; cbn [negb];
        rewrite ?andb_false_r, ?andb_true_r, ?orb_true_r, ?orb_false_r;
        [symmetry; exact Hbit | reflexivity].
    + symmetry. apply byte_high_bits; lia.
  - (* the bit was clear: set, then cleared again *)
    rewrite set_bit_spec by lia. rewrite Z.eqb_refl, orb_true_r, andb_true_r.
    replace (k <? 8) with true by (symmetry; apply Z.ltb_lt; lia).
    cbn [negb]. tia_cbn.
    repeat split. apply Z.bits_inj'. intros i Hi.
    rewrite clear_bit_spec, set_bit_spec by lia.
    destruct (Z.ltb_spec i 8); cbn [andb].
    + destruct (Z.eqb_spec k i) as [-> |]; cbn [negb];
        rewrite ?andb_false_r, ?andb_true_r, ?orb_true_r, ?orb_false_r;
        [symmetry; exact Hbit | reflexivity].
    + symmetry. apply byte_high_bits; lia.
Qed.

Lemma X6_witness :
  let once := toggleBit stellaEnv M0Bit 2 powerOn in
  let twice := toggleBit stellaEnv M0Bit 2 (snd once) in
  myDisabledObjects powerOn = 0xFF
  /\ fst once = false /\ myDisabledObjects (snd once) = 0xFD
  /\ fst twice = true /\ myDisabledObjects (snd twice) = myDisabledObjects powerOn.
Proof.
  pose proof (X6_toggleBit_twice stellaEnv M0Bit 1 2 powerOn
                ltac:(by_eval) ltac:(by_eval) ltac:(by_eval) ltac:(by_eval)
                ltac:(by_eval)) as (_ & _ & _ & Hback).
  split; [reflexivity | split; [reflexivity | split; [reflexivity |]]].
  split; [reflexivity | exact Hback].
Defined.

Lemma set_bit_sets (d k : Z) :
  0 <= k < 8 -> Z.testbit (uInt8 (Z.lor d (2 ^ k))) k = true.
Proof.
  intros Hk. rewrite set_bit_spec, Z.eqb_refl, orb_true_r by lia.
  rewrite andb_true_r. apply Z.ltb_lt. lia.
Qed.

Lemma set_bit_keeps (d bv k : Z) :
  0 <= k < 8 -> Z.testbit d k = true ->
  Z.testbit (uInt8 (Z.lor d bv)) k = true.
Proof.
  intros Hk Hd. rewrite testbit_uInt8, Z.lor_spec, Hd by lia.
  cbn [orb]. rewrite andb_true_r. apply Z.ltb_lt. lia.
Qed.

Lemma clear_bit_clears (d k : Z) :
  0 <= k < 8 -> Z.testbit (uInt8 (Z.land d (Z.lnot (2 ^ k)))) k = false.
Proof.
  intros Hk. rewrite clear_bit_spec, Z.eqb_refl by lia.
  cbn [negb]. rewrite andb_false_r. apply andb_false_r.
Qed.

Lemma clear_bit_keeps (d x k : Z) :
  0 <= k < 8 -> Z.testbit d k = false ->
  Z.testbit (uInt8 (Z.land d x)) k = false.
Proof.
  intros Hk Hd. rewrite testbit_uInt8, Z.land_spec, Hd by lia.
  apply andb_false_r.
Qed.

Lemma toggleBit_on (T : TIATables) (b : TIABit) (s : TIA) :
  myDisabledObjects (snd (toggleBit T b 1 s))
  = uInt8 (Z.lor (myDisabledObjects s) (bitVal T b))
  /\ myBitsEnabled (snd (toggleBit T b 1 s)) = myBitsEnabled s.
Proof. split; reflexivity. Qed.

Lemma toggleBit_off (T : TIATables) (b : TIABit) (s : TIA) :
  myDisabledObjects (snd (toggleBit T b 0 s))
  = uInt8 (Z.land (myDisabledObjects s) (Z.lnot (bitVal T b)))
  /\ myBitsEnabled (snd (toggleBit T b 0 s)) = myBitsEnabled s.
Proof. split; reflexivity. Qed.

(** X7: [toggleBits] flips [myBitsEnabled], answers the new value, and
    leaves the bit of each of the six objects in [myDisabledObjects] equal to
    it (despite its name the byte holds the objects that are shown). *)
Theorem X7_toggleBits_sets_every_object (T : TIATables) (b : TIABit) (k : Z)
    (s : TIA) :
  In b objectBits -> bitVal T b = 2 ^ k -> 0 <= k < 8 ->
  fst (toggleBits T s) = negb (myBitsEnabled s)
  /\ myBitsEnabled (snd (toggleBits T s)) = fst (toggleBits T s)
  /\ Z.testbit (myDisabledObjects (snd (toggleBits T s))) k
     = fst (toggleBits T s).
Proof.
  intros Hin Hbv Hk. unfold toggleBits. cbv zeta. cbn [fst snd].
  assert (Hflag : forall mode u,
            myBitsEnabled (enableBits T mode u) = myBitsEnabled u).
  { intros mode u. unfold enableBits. cbv zeta.
    destruct mode;
      rewrite ?(proj2 (toggleBit_on _ _ _)), ?(proj2 (toggleBit_off _ _ _));
      reflexivity. }
  rewrite Hflag. tia_cbn.
  split; [reflexivity | split; [reflexivity |]].
  unfold enableBits. cbv zeta.
  unfold objectBits in Hin; cbn [In] in Hin.
  destruct (myBitsEnabled s); cbn [negb];
    rewrite ?(proj1 (toggleBit_on _ _ _)), ?(proj1 (toggleBit_off _ _ _));
    repeat (destruct Hin as [<- | Hin]); try contradiction;
    rewrite Hbv;
    repeat first
      [ apply clear_bit_clears; exact Hk
      | apply set_bit_sets; exact Hk
      | apply clear_bit_keeps; [exact Hk |]
      | apply set_bit_keeps; [exact Hk |] ].
Qed.

Lemma X7_witness :
  fst (toggleBits stellaEnv powerOn) = false
  /\ Z.testbit (myDisabledObjects (snd (toggleBits stellaEnv powerOn))) 4
     = fst (toggleBits stellaEnv powerOn)
  /\ myDisabledObjects (snd (toggleBits stellaEnv powerOn)) = 0xC0.
Proof.
  pose proof (X7_toggleBits_sets_every_object stellaEnv BLBit 4 powerOn
                ltac:(cbn; tauto) ltac:(by_eval) ltac:(by_eval))
    as (_ & _ & Hbit).
  split; [reflexivity | split; [exact Hbit | reflexivity]].
Defined.

(** *** Collision switches *)

Lemma toggleCollision_off (T : TIATables) (b : TIABit) (s : TIA) :
  collisionFlags (snd (toggleCollision T b 0 s))
  = uInt16 (Z.land (collisionFlags s) (Z.lnot (bitVal T b)))
  /\ myCollisionsEnabled (snd (toggleCollision T b 0 s)) = myCollisionsEnabled s.
Proof.
  split; [| reflexivity].
  unfold collisionFlags, toggleCollision. cbv zeta. cbn [snd]. tia_cbn.
  cbn [Z.eqb orb nonzero negb].
  apply upper_half; [apply uInt16_range | repeat apply maskOut_range; lia].
Qed.

Lemma testbit_uInt16_any (x i : Z) :
  0 <= i -> Z.testbit (uInt16 x) i = (i <? 16) && Z.testbit x i.
Proof.
  intros Hi. unfold uInt16. change 65536 with (2 ^ 16).
  destruct (Z.ltb_spec i 16).
  - apply Z.mod_pow2_bits_low. lia.
  - apply Z.mod_pow2_bits_high. lia.
Qed.

Lemma flag_cleared (e bv : Z) :
  Z.land (uInt16 (Z.land e (Z.lnot bv))) bv = 0.
Proof.
  apply Z.bits_inj'. intros i Hi.
  rewrite Z.land_spec, testbit_uInt16_any, Z.land_spec, Z.lnot_spec, Z.bits_0
    by lia.
  destruct (Z.testbit bv i); cbn [negb];
    rewrite ?andb_false_r; reflexivity.
Qed.

Lemma flag_stays_cleared (e x bv : Z) :
  Z.land e bv = 0 -> Z.land (uInt16 (Z.land e x)) bv = 0.
Proof.
  intros He. apply Z.bits_inj'. intros i Hi.
  pose proof (f_equal (fun z => Z.testbit z i) He) as Hbit. cbv beta in Hbit.
  rewrite Z.land_spec, Z.bits_0 in Hbit.
  rewrite Z.land_spec, testbit_uInt16_any, Z.land_spec, Z.bits_0 by lia.
  destruct (Z.testbit e i), (Z.testbit bv i); cbn [andb] in *;
    rewrite ?andb_false_r; first [reflexivity | discriminate].
Qed.

Lemma readsSet_masked (E : Env) (idx : CollisionBit -> Z) (io : BusInputs)
    (addr : Z) (c : CollisionBit) (s : TIA) :
  oneBitPerPair E idx ->
  readRegister E (Z.land addr 0x000f) = fst (cxPort c) ->
  readsSet E io addr c s
  = latched E c (myCollision (updateFrame E (colorClock s) s)) && maskBit E c s.
Proof.
  intros Hbits Hreg. rewrite (peek_reads_pair E idx Hbits io addr c s Hreg).
  unfold maskBit. rewrite (updateFrame_stable _ stable_enabledMask).
  reflexivity.
Qed.

Lemma collisionFlag_flags (T : TIATables) (o : TIABit) (s : TIA) :
  collisionFlag T o s = nonzero (Z.land (collisionFlags s) (bitVal T o)).
Proof. reflexivity. Qed.

(** X8: with the collisions switched off by [toggleCollisions], every
    collision register reads its pair bits cleared, whatever the collision
    latches hold. *)
Theorem X8_toggleCollisions_off_reads_clear (E : Env) (idx : CollisionBit -> Z)
    (io : BusInputs) (addr : Z) (c : CollisionBit) (s : TIA) :
  oneBitPerPair E idx ->
  myCollisionsEnabled s = true ->
  readRegister E (Z.land addr 0x000f) = fst (cxPort c) ->
  fst (toggleCollisions E s) = false
  /\ readsSet E io addr c (snd (toggleCollisions E s)) = false.
Proof.
  intros Hbits Hon Hreg. unfold toggleCollisions. cbv zeta. cbn [fst snd].
  tia_cbn. rewrite Hon. cbn [negb].
  set (s1 := set_myCollisionsEnabled false s).
  unfold enableCollisions. cbv zeta.
  split.
  - rewrite !(proj2 (toggleCollision_off _ _ _)). reflexivity.
  - rewrite (readsSet_masked E idx io addr c _ Hbits Hreg).
    rewrite (toggleCollision_coherent E idx Hbits PFBit 0 _ c (fst (cxPair c))
               (or_introl eq_refl)); [apply andb_false_r |].
    rewrite collisionFlag_flags, !(proj1 (toggleCollision_off _ _ _)).
    replace (Z.land _ (bitVal E (fst (cxPair c)))) with 0; [reflexivity |].
    symmetry. destruct c; cbn [cxPair fst];
      repeat first [ apply flag_cleared | apply flag_stays_cleared ].
Qed.

Lemma X8_witness :
  latched stellaEnv Cx_P0P1
    (myCollision (snd (peek stellaEnv quietBus 0x07 playersOverlap))) = true
  /\ readsSet stellaEnv quietBus 0x07 Cx_P0P1 playersOverlap = true
  /\ fst (toggleCollisions stellaEnv playersOverlap) = false
  /\ readsSet stellaEnv quietBus 0x07 Cx_P0P1
       (snd (toggleCollisions stellaEnv playersOverlap)) = false.
Proof.
  pose proof (X8_toggleCollisions_off_reads_clear stellaEnv stella_cxIndex
                quietBus 0x07 Cx_P0P1 playersOverlap stella_oneBitPerPair
                ltac:(by_eval) ltac:(by_eval)) as [Hoff Hclear].
  split; [reflexivity | split; [reflexivity | split; assumption]].
Defined.

(** *** The priority encoder *)

(** X9: the priority encoder that [toggleFixedColors] fills gives the
    background exactly when none of the six objects is enabled; where player
    0 and the playfield are both enabled it gives the playfield with the
    priority bit of CTRLPF and player 0 without it. *)
Theorem X9_priorityEncoder_background (T : TIATables) (on : bool) (x enabled : Z) :
  (priorityEncoder T on x enabled = BKColor
   <-> existsb (fun b => nonzero (Z.land enabled (bitVal T b))) objectBits
       = false)
  /\ (nonzero (Z.land enabled (bitVal T P0Bit)) = true ->
      nonzero (Z.land enabled (bitVal T PFBit)) = true ->
      priorityEncoder T on x enabled
      = if nonzero (Z.land enabled (bitVal T PriorityBit))
        then PFColor else P0Color).
Proof.
  unfold priorityEncoder, objectBits. cbv zeta. cbn [existsb].
  generalize (nonzero (Z.land enabled (bitVal T P0Bit))); intros p0.
  generalize (nonzero (Z.land enabled (bitVal T P1Bit))); intros p1.
  generalize (nonzero (Z.land enabled (bitVal T M0Bit))); intros m0.
  generalize (nonzero (Z.land enabled (bitVal T M1Bit))); intros m1.
  generalize (nonzero (Z.land enabled (bitVal T BLBit))); intros bl.
  generalize (nonzero (Z.land enabled (bitVal T PFBit))); intros pf.
  generalize (nonzero (Z.land enabled (bitVal T ScoreBit))); intros sc.
  generalize (nonzero (Z.land enabled (bitVal T PriorityBit))); intros pr.
  destruct p0, p1, m0, m1, bl, pf, pr; cbn [orb negb andb];
    (split; [split; intros H; first [reflexivity | discriminate H
                                     | destruct on, sc, (x =? 0); discriminate H]
            | intros H1 H2; first [reflexivity | discriminate]]).
Qed.

(** *** The horizontal-motion registers stay in range *)

Lemma motion_of_byte (hm : Z) :
  0 <= hm < 256 -> 0 <= Z.shiftr (Z.lxor hm 0x80) 4 <= 15.
Proof.
  intros Hhm. rewrite Z.shiftr_lxor. change (Z.shiftr 0x80 4) with 8.
  rewrite (Z.shiftr_div_pow2 hm 4) by lia. change (2 ^ 4) with 16.
  assert (Hm : 0 <= hm / 16 < 16).
  { split; [apply Z.div_pos; lia | apply Z.div_lt_upper_bound; lia]. }
  set (m := hm / 16) in *.
  assert (Hcases : m = 0 \/ m = 1 \/ m = 2 \/ m = 3 \/ m = 4 \/ m = 5 \/ m = 6
                   \/ m = 7 \/ m = 8 \/ m = 9 \/ m = 10 \/ m = 11 \/ m = 12
                   \/ m = 13 \/ m = 14 \/ m = 15) by lia.
  clearbody m.
  repeat (destruct Hcases as [-> | Hcases]); try subst m; cbn; lia.
Qed.

Lemma high_nibble_byte (value : Z) : 0 <= Z.land value 0xF0 < 256.
Proof.
  assert (H : Z.land (Z.land value 0xF0) (Z.ones 8) = Z.land value 0xF0).
  { rewrite <- Z.land_assoc. reflexivity. }
  rewrite <- H, Z.land_ones by lia. apply Z.mod_pos_bound. reflexivity.
Qed.

(** X10: a write to an HMxx register (and HMCLR) keeps the registers of the
    object in range, whenever it comes: the position stays within 0..159 and
    the motion clock within 0..15, and HM holds the high nibble of the
    byte. *)
Theorem X10_handleHM_keeps_range (v : TIAView) (value : Z) (o : Moveable.t) :
  inRange o ->
  inRange (Moveable.handleHM v value o)
  /\ Moveable.myHM (Moveable.handleHM v value o) = Z.land value 0xF0.
Proof.
  intros (Hpos & Hmot & Hhm).
  pose proof (handleHM_in_range v value o Hpos Hmot) as Hpos'.
  pose proof (motion_of_nibble value) as Hnew.
  pose proof (high_nibble_byte value) as Hbyte.
  unfold inRange. split; [split; [exact Hpos' | split] |];
    unfold Moveable.handleHM; cbv zeta;
    set (newMotion := Z.shiftr (Z.lxor (Z.land value 0xF0) 0x80) 4) in *;
    destruct (Z.eqb_spec (Moveable.myHM o) (Z.land value 0xF0)) as [Heq | Hne];
    try (first [exact Hmot | exact Hhm | exact Heq]);
    repeat (tia_cbn; split_if); tia_cbn; first [exact Hmot | lia | reflexivity].
Qed.

Lemma X10_witness :
  let v := mkTIAView 12 0 (-68) NO_HMOVE in
  let o := Moveable.handleHM v 0x90 restingObject in
  inRange o /\ Moveable.myHM o = 0x90
  /\ Moveable.myPos o = 153 /\ Moveable.myMotionClock o = 15.
Proof.
  pose proof (X10_handleHM_keeps_range (mkTIAView 12 0 (-68) NO_HMOVE) 0x90
                restingObject ltac:(by_eval)) as [Hrange Hhm].
  split; [exact Hrange | split; [exact Hhm | split; reflexivity]].
Defined.

(** X11: the carry-over at the scanline boundary ([handlePendingMotions])
    keeps the registers in range: each of its two subtractions wraps by one
    scanline. *)
Theorem X11_handlePendingMotions_keeps_range (cur : Z) (o : Moveable.t) :
  inRange o -> inRange (Moveable.handlePendingMotions cur o).
Proof.
  intros (Hpos & Hmot & Hhm).
  pose proof (handlePendingMotions_in_range cur o Hpos Hmot) as Hpos'.
  unfold inRange. split; [exact Hpos' |].
  unfold Moveable.handlePendingMotions. cbv zeta.
  repeat (tia_cbn; split_if); tia_cbn; split; assumption.
Qed.

Lemma X11_witness :
  let o := Moveable.mk true 0x70 false 5 15 0 true in
  inRange (Moveable.handlePendingMotions 120 o)
  /\ Moveable.myPos (Moveable.handlePendingMotions 120 o) = 133.
Proof.
  split; [| reflexivity].
  apply (X11_handlePendingMotions_keeps_range 120
           (Moveable.mk true 0x70 false 5 15 0 true)).
  by_eval.
Defined.

(** X12: an HMOVE strobe outside the ignore window (hpos below -5 or from
    97 on) keeps the registers of the object in range and clears its
    more-motion-required latch. *)
Theorem X12_handleHMOVE_keeps_range (v : TIAView) (o : Moveable.t) :
  inRange o ->
  -68 <= v_hpos v < 160 ->
  v_hpos v < -5 \/ 97 <= v_hpos v ->
  inRange (Moveable.handleHMOVE v o)
  /\ Moveable.myHMmmr (Moveable.handleHMOVE v o) = false.
Proof.
  intros (Hpos & Hmot & Hhm) Hh Hout.
  pose proof (motion_of_byte (Moveable.myHM o) Hhm) as Hnew.
  unfold Moveable.handleHMOVE. cbv zeta.
  set (hpos := v_hpos v) in *.
  change HBLANK_CLOCKS with 68. change SCANLINE_PIXEL with 160.
  (* the correction for a latch that is still set *)
  match goal with
  | |- context [if (hpos + 68 <? 68) && Moveable.myHMmmr o then ?a else o] =>
      set (o1 := if (hpos + 68 <? 68) && Moveable.myHMmmr o then a else o)
  end.
  assert (H1 : 0 <= Moveable.myPos o1 < 160
               /\ Moveable.myHM o1 = Moveable.myHM o).
  { subst o1. destruct (Z.ltb_spec (hpos + 68) 68); cbn [andb];
      [destruct (Moveable.myHMmmr o) |]; tia_cbn; try (split; [exact Hpos | reflexivity]).
    split; [| reflexivity].
    assert (Hq : 1 <= Z.quot (hpos + 68 + 7) 4 <= 17).
    { rewrite Z.quot_div_nonneg by lia.
      assert ((hpos + 68 + 7) / 4 < 18) by (apply Z.div_lt_upper_bound; lia).
      split; [apply Z.div_le_lower_bound; lia | lia]. }
    rewrite (Int16_small (17 - _)) by lia.
    rewrite Z.rem_mod_nonneg by lia.
    pose proof (Z.mod_pos_bound
                  (Moveable.myPos o + (17 - Z.quot (hpos + 68 + 7) 4)) 160
                  eq_refl) as Hm.
    rewrite Int16_small by lia. exact Hm. }
  destruct H1 as [Hpos1 Hhm1]. clearbody o1.
  assert (Hwin : (hpos >=? -5) && (hpos <? 97) = false).
  { destruct (Z.geb_spec hpos (-5)), (Z.ltb_spec hpos 97); cbn; lia || reflexivity. }
  rewrite Hwin. tia_cbn. rewrite Hhm1.
  set (mc := Z.shiftr (Z.lxor (Moveable.myHM o) 0x80) 4) in *.
  rewrite !Z.shiftr_div_pow2 by lia. change (2 ^ 2) with 4.
  assert (Hskip : 97 <= hpos < 151 -> 0 <= (160 - hpos - 6) / 4 <= 14).
  { intros Hr.
    assert ((160 - hpos - 6) / 4 < 15) by (apply Z.div_lt_upper_bound; lia).
    split; [apply Z.div_pos; lia | lia]. }
  assert (Hmax : -56 <= hpos < -5 -> 1 <= (7 - (hpos + 5)) / 4 <= 14).
  { intros Hr.
    assert ((7 - (hpos + 5)) / 4 < 15) by (apply Z.div_lt_upper_bound; lia).
    split; [apply Z.div_le_lower_bound; lia | lia]. }
  unfold inRange.
  repeat (tia_cbn; split_if); tia_cbn;
    repeat match goal with
           | H : (_ && _) = true |- _ => apply andb_true_iff in H; destruct H
           | H : (_ || _) = true |- _ => apply orb_true_iff in H
           | H : (_ >=? _) = true |- _ => rewrite Z.geb_leb in H; apply Z.leb_le in H
           | H : (_ <? _) = true |- _ => apply Z.ltb_lt in H
           | H : (_ <? _) = false |- _ => apply Z.ltb_ge in H
           | H : (_ >? _) = true |- _ => rewrite Z.gtb_ltb in H; apply Z.ltb_lt in H
           | H : (_ >? _) = false |- _ => rewrite Z.gtb_ltb in H; apply Z.ltb_ge in H
           end;
    try (specialize (Hskip ltac:(lia)));
    try (specialize (Hmax ltac:(lia)));
    rewrite ?(Int16_small ((7 - (hpos + 5)) / 4)),
            ?(Int16_small ((160 - hpos - 6) / 4)) in * by lia;
    (split; [split; [try (apply CLAMP_POS_range; rewrite ?Int16_small by lia; lia)
                    | split; [try lia | try lia]]
            | reflexivity]).
Qed.

Lemma X12_witness :
  let v := mkTIAView 3 0 NO_HMOVE NO_HMOVE in
  let o := Moveable.mk true 0x70 false 5 0 0 true in
  v_hpos v = -65
  /\ inRange (Moveable.handleHMOVE v o)
  /\ Moveable.myHMmmr (Moveable.handleHMOVE v o) = false
  /\ Moveable.myPos (Moveable.handleHMOVE v o) = 13
  /\ Moveable.myMotionClock (Moveable.handleHMOVE v o) = 15.
Proof.
  pose proof (X12_handleHMOVE_keeps_range (mkTIAView 3 0 NO_HMOVE NO_HMOVE)
                (Moveable.mk true 0x70 false 5 0 0 true)
                ltac:(by_eval) ltac:(by_eval)
                ltac:(left; vm_compute; reflexivity)) as [Hrange Hlatch].
  split; [reflexivity | split; [exact Hrange | split; [exact Hlatch |]]].
  split; reflexivity.
Defined.

(** Undo the [Int16] conversions of values that fit, innermost first. *)
Ltac unwrap16 :=
  repeat match goal with
         | |- context [Int16 ?x] =>
             lazymatch x with
             | context [Int16 _] => fail
             | _ => rewrite (Int16_small x) by lia
             end
         end.

(** X13: a missile that follows its player (RESMP written with bit 1 clear
    while the missile is locked) is placed at the middle of the player, inside
    0..159, for every size of the player and also while an HMOVE is running. *)
Theorem X13_handleRESMP_keeps_range (v : TIAView) (player : Player.t)
    (value : Z) (m : Missile.t) :
  inRange (Player.base player) -> inRange (Missile.base m) ->
  inRange (Missile.base (Missile.handleRESMP v player value m))
  /\ Missile.myRESMP (Missile.handleRESMP v player value m)
     = nonzero (Z.land value 0x02).
Proof.
  intros (Hp & Hpm & Hph) (Hm & Hmm & Hmh).
  unfold Missile.handleRESMP, Player.getPos, Player.getMotionClock. cbv zeta.
  unfold inRange.
  repeat (tia_cbn; split_if); tia_cbn;
    (split; [split; [| split; assumption] | reflexivity]);
    try assumption;
    apply CLAMP_POS_range; unwrap16; lia.
Qed.

Lemma X13_witness :
  let v := mkTIAView 300 0 NO_HMOVE NO_HMOVE in
  let player := Player.mk (Moveable.mk true 0 false 158 0 0 false)
                  0xFF 0 0x07 false 0 0xFF (0, 0, 0, 0) in
  let m := Missile.mk (Moveable.mk true 0 false 40 0 0 false) true 0x07 true
             (MxMask 0 0 0 0) in
  inRange (Missile.base (Missile.handleRESMP v player 0x00 m))
  /\ Missile.getPos (Missile.handleRESMP v player 0x00 m) = 14.
Proof.
  split; [| reflexivity].
  apply (X13_handleRESMP_keeps_range (mkTIAView 300 0 NO_HMOVE NO_HMOVE)
           (Player.mk (Moveable.mk true 0 false 158 0 0 false)
              0xFF 0 0x07 false 0 0xFF (0, 0, 0, 0))
           0x00
           (Missile.mk (Moveable.mk true 0 false 40 0 0 false) true 0x07 true
              (MxMask 0 0 0 0))); by_eval.
Defined.

(** *** HMCLR and HMOVE through [poke] *)

Lemma handleHM_stores_nibble (v : TIAView) (value : Z) (o : Moveable.t) :
  Moveable.myHM (Moveable.handleHM v value o) = Z.land value 0xF0.
Proof.
  unfold Moveable.handleHM. cbv zeta.
  destruct (Z.eqb_spec (Moveable.myHM o) (Z.land value 0xF0)) as [Heq | Hne];
    [exact Heq | reflexivity].
Qed.

Lemma handleHMOVE_clears_latch (v : TIAView) (o : Moveable.t) :
  Moveable.myHMmmr (Moveable.handleHMOVE v o) = false.
Proof.
  unfold Moveable.handleHMOVE. cbv zeta.
  repeat (tia_cbn; split_if); reflexivity.
Qed.

Ltac unfold_object_updates :=
  unfold Player.Player0_handleRegisterUpdate, Player.Player1_handleRegisterUpdate,
    Missile.Missile0_handleRegisterUpdate, Missile.Missile1_handleRegisterUpdate,
    Ball.handleRegisterUpdate, Player.handleRegisterUpdate,
    Missile.handleRegisterUpdate, Moveable.handleRegisterUpdate;
  cbv zeta; tia_cbn.

(** X14: a write to HMCLR leaves the HM register of the two players, the
    two missiles and the ball at 0, whatever byte is written and whenever it
    comes. *)
Theorem X14_HMCLR_clears_every_HM (E : Env) (io : BusInputs) (addr value : Z)
    (s : TIA) :
  writeRegister E (Z.land addr 0x003f) = HMCLR ->
  Forall (fun o => Moveable.myHM o = 0) (moveables (poke E io addr value s)).
Proof.
  intros Hreg. unfold poke. cbv zeta. rewrite Hreg.
  set (s1 := pokeCatchUp E (Z.land addr 0x003f) s). clearbody s1.
  unfold pokeRegister. cbv zeta beta. unfold moveables. tia_cbn.
  unfold_object_updates.
  repeat (apply Forall_cons; [apply (handleHM_stores_nibble _ 0) |]).
  apply Forall_nil.
Qed.

Lemma X14_witness :
  map Moveable.myHM (moveables allMotionsSet) = [0x30; 0x80; 0x70; 0x10; 0xF0]
  /\ Forall (fun o => Moveable.myHM o = 0)
       (moveables (poke stellaEnv quietBus 0x2B 0xFF
                     (set_sys_cycles 30 allMotionsSet))).
Proof.
  split; [reflexivity |].
  apply (X14_HMCLR_clears_every_HM stellaEnv quietBus 0x2B 0xFF
           (set_sys_cycles 30 allMotionsSet)).
  reflexivity.
Defined.

(** X15: an HMOVE strobe clears the more-motion-required latch of every
    object, at every hpos, inside and outside the ignore window. *)
Theorem X15_HMOVE_clears_every_latch (E : Env) (io : BusInputs)
    (addr value : Z) (s : TIA) :
  writeRegister E (Z.land addr 0x003f) = HMOVE ->
  Forall (fun o => Moveable.myHMmmr o = false)
    (moveables (poke E io addr value s)).
Proof.
  intros Hreg. unfold poke. cbv zeta. rewrite Hreg.
  set (s1 := pokeCatchUp E (Z.land addr 0x003f) s). clearbody s1.
  unfold pokeRegister. cbv zeta beta.
  destruct ((_ >=? -5) && (_ <? 97)); unfold moveables; tia_cbn;
    unfold_object_updates;
    repeat (apply Forall_cons; [apply handleHMOVE_clears_latch |]);
    apply Forall_nil.
Qed.

Lemma X15_witness :
  Moveable.myHMmmr (Player.base (myPlayer0 latchOfPlayer0Set)) = true
  /\ Forall (fun o => Moveable.myHMmmr o = false)
       (moveables (poke stellaEnv quietBus 0x2A 0
                     (set_sys_cycles 74 latchOfPlayer0Set))).
Proof.
  split; [reflexivity |].
  apply (X15_HMOVE_clears_every_latch stellaEnv quietBus 0x2A 0
           (set_sys_cycles 74 latchOfPlayer0Set)).
  reflexivity.
Defined.

(** *** VSYNC shorter than a scanline *)

Lemma pokeRegister_VSYNC_early (E : Env) (io : BusInputs) (value clock : Z)
    (s : TIA) :
  Z.land value 0x02 = 0 -> clock < myVSYNCFinishClock s ->
  sys_stopped (pokeRegister E io VSYNC value clock s) = sys_stopped s
  /\ myPartialFrameFlag (pokeRegister E io VSYNC value clock s)
     = myPartialFrameFlag s
  /\ myVSYNCFinishClock (pokeRegister E io VSYNC value clock s)
     = myVSYNCFinishClock s.
Proof.
  intros Hbit Hearly. unfold pokeRegister. cbv zeta beta. tia_cbn.
  unfold nonzero. rewrite Hbit. cbn [Z.eqb negb andb].
  assert (Hc : (clock >=? myVSYNCFinishClock s) = false).
  { rewrite Z.geb_leb. apply Z.leb_gt. exact Hearly. }
  rewrite Hc. repeat split.
Qed.

(** X16: VSYNC set and cleared again less than a scanline (76 CPU cycles)
    later does not end the frame: the CPU is not halted by it, the
    partial-frame flag stays, and the deadline set by the first write is
    kept. *)
Theorem X16_short_VSYNC_does_not_end_frame (E : Env) (io : BusInputs)
    (addr v1 v2 n : Z) (s : TIA) :
  writeRegister E (Z.land addr 0x003f) = VSYNC ->
  Z.land v1 0x02 <> 0 -> Z.land v2 0x02 = 0 ->
  0 <= n < 76 ->
  0 <= sys_cycles s -> (sys_cycles s + n) * 3 < 2147483648 ->
  Z.quot (colorClock s + 3 * n - myClockWhenFrameStarted s) SCANLINE_CLOCKS
    < Int32 (myMaximumNumberOfScanlines s) ->
  Z.quot (colorClock s - myClockWhenFrameStarted s) SCANLINE_CLOCKS
    < Int32 (myMaximumNumberOfScanlines s) ->
  let s2 := poke E io addr v2 (tick n (poke E io addr v1 s)) in
  sys_stopped s2 = sys_stopped s
  /\ myPartialFrameFlag s2 = myPartialFrameFlag s
  /\ myVSYNCFinishClock s2 = colorClock s + SCANLINE_CLOCKS.
Proof.
  intros Hreg Hon Hoff Hn Hc0 Hc1 Hmax2 Hmax1 s2. subst s2.
  set (a := Z.land addr 0x003f) in *.
  assert (Hcs : colorClock s = sys_cycles s * 3)
    by (apply colorClock_small; lia).
  (* the first write *)
  set (s1 := poke E io addr v1 s).
  assert (H1 : myVSYNCFinishClock s1 = colorClock s + SCANLINE_CLOCKS
               /\ sys_cycles s1 = sys_cycles s
               /\ myClockWhenFrameStarted s1 = myClockWhenFrameStarted s
               /\ myMaximumNumberOfScanlines s1 = myMaximumNumberOfScanlines s
               /\ sys_stopped s1 = sys_stopped s
               /\ myPartialFrameFlag s1 = myPartialFrameFlag s).
  { subst s1. unfold poke. cbv zeta. fold a. rewrite Hreg.
    destruct (pokeRegister_VSYNC_on E io v1 (colorClock s)
                (pokeCatchUp E a s) Hon) as (Hf & Hc & Hs).
    destruct (pokeCatchUp_clock E a s) as [Hc' Hs'].
    destruct (pokeCatchUp_not_forced E a s Hmax1) as [Hst Hpf].
    rewrite Hf, Hc, Hs, Hc', Hs'.
    split; [reflexivity | split; [reflexivity | split; [reflexivity |]]].
    unfold pokeRegister. cbv zeta beta. tia_cbn.
    unfold nonzero. apply Z.eqb_neq in Hon. rewrite Hon. cbn [negb]. tia_cbn.
    rewrite Hst, Hpf.
    rewrite (pokeCatchUp_stable _ stable_maxScanlines) by reflexivity.
    repeat split. }
  destruct H1 as (Hfin & Hcyc & Hstart & Hmaxs & Hst1 & Hpf1). clearbody s1.
  (* n cycles later *)
  set (t := tick n s1).
  assert (Ht : sys_cycles t = sys_cycles s + n
               /\ myClockWhenFrameStarted t = myClockWhenFrameStarted s
               /\ myVSYNCFinishClock t = colorClock s + SCANLINE_CLOCKS
               /\ myMaximumNumberOfScanlines t = myMaximumNumberOfScanlines s
               /\ sys_stopped t = sys_stopped s
               /\ myPartialFrameFlag t = myPartialFrameFlag s).
  { subst t. unfold tick. tia_cbn. rewrite Hcyc, Hstart, Hfin, Hmaxs, Hst1, Hpf1.
    unfold uInt32. rewrite Z.mod_small by lia. repeat split. }
  destruct Ht as (Htc & Hts & Htf & Htm & Htst & Htpf). clearbody t.
  assert (Hct : colorClock t = colorClock s + 3 * n).
  { rewrite colorClock_small; rewrite Htc; lia. }
  (* the second write *)
  unfold poke. cbv zeta. fold a. rewrite Hreg.
  assert (Hopen : Z.quot (colorClock t - myClockWhenFrameStarted t) SCANLINE_CLOCKS
                  < Int32 (myMaximumNumberOfScanlines t)).
  { rewrite Hct, Hts, Htm. exact Hmax2. }
  destruct (pokeCatchUp_not_forced E a t Hopen) as [Hst Hpf].
  assert (Hearly : colorClock t < myVSYNCFinishClock (pokeCatchUp E a t)).
  { rewrite (pokeCatchUp_stable _ stable_finishClock) by reflexivity.
    rewrite Htf, Hct. unfold SCANLINE_CLOCKS, PIXEL_CLOCKS, SCANLINE_CYCLES. lia. }
  destruct (pokeRegister_VSYNC_early E io v2 (colorClock t)
              (pokeCatchUp E a t) Hoff Hearly) as (Hs2 & Hp2 & Hf2).
  rewrite Hs2, Hp2, Hf2, Hst, Hpf, Htst, Htpf.
  rewrite (pokeCatchUp_stable _ stable_finishClock) by reflexivity.
  rewrite Htf. repeat split.
Qed.

Lemma X16_witness :
  let s2 := poke stellaEnv quietBus 0x00 0x00
              (tick 75 (poke stellaEnv quietBus 0x00 0x02 powerOn)) in
  sys_stopped s2 = false /\ myPartialFrameFlag s2 = myPartialFrameFlag powerOn
  /\ myVSYNCFinishClock s2 = 228.
Proof.
  pose proof (X16_short_VSYNC_does_not_end_frame stellaEnv quietBus
                0x00 0x02 0x00 75 powerOn
                ltac:(by_eval) ltac:(by_eval) ltac:(by_eval) ltac:(by_eval)
                ltac:(by_eval) ltac:(by_eval) ltac:(by_eval) ltac:(by_eval))
    as (Hs & Hp & Hf).
  split; [exact Hs | split; [exact Hp | exact Hf]].
Defined.

(** *** The dump path of the paddle inputs *)

Lemma stable_dumpEnabled : PokeStable myDumpEnabled.
Proof. repeat constructor. Qed.

Lemma stable_VBLANK : PokeStable myVBLANK.
Proof. repeat constructor. Qed.

(** X17: [myDumpEnabled] is bit 7 of the VBLANK register: [reset]
    leaves the two in agreement, and every register write and every read
    keeps them so. *)
Theorem X17_dump_flag_follows_VBLANK (E : Env) (io : BusInputs) (addr value : Z)
    (s : TIA) :
  (forall cfg, dumpCoherent (reset E cfg s))
  /\ (dumpCoherent s -> dumpCoherent (poke E io addr value s))
  /\ (dumpCoherent s -> dumpCoherent (snd (peek E io addr s))).
Proof.
  unfold dumpCoherent. split; [| split].
  - intros cfg. destruct cfg as [driven rate [|] loss]; reflexivity.
  - intros Hs. unfold poke. cbv zeta.
    set (a := Z.land addr 0x003f).
    assert (Hc : myDumpEnabled (pokeCatchUp E a s)
                 = nonzero (Z.land (myVBLANK (pokeCatchUp E a s)) 0x80)).
    { rewrite (pokeCatchUp_stable _ (ps_render _ stable_dumpEnabled))
        by reflexivity.
      rewrite (pokeCatchUp_stable _ (ps_render _ stable_VBLANK)) by reflexivity.
      exact Hs. }
    set (c := pokeCatchUp E a s) in *. clearbody c.
    destruct (writeRegister E a) eqn:Hreg;
      try (rewrite (pokeRegister_stable _ stable_dumpEnabled),
                   (pokeRegister_stable _ stable_VBLANK) by discriminate;
           exact Hc).
    + (* VSYNC *)
      unfold pokeRegister. cbv zeta beta.
      repeat (tia_cbn; split_if); tia_cbn; exact Hc.
    + (* VBLANK *)
      unfold pokeRegister. cbv zeta beta.
      destruct (nonzero (Z.land (myVBLANK c) 0x80)) eqn:Hold,
               (nonzero (Z.land value 0x80)) eqn:Hnew;
        cbn [negb andb]; repeat (tia_cbn; split_if); tia_cbn;
        rewrite ?Hc, ?Hnew; reflexivity.
  - intros Hs. unfold peek. cbv zeta.
    pose proof (updateFrame_stable _ (ps_render _ stable_dumpEnabled)
                  E (colorClock s) s) as Hd.
    pose proof (updateFrame_stable _ (ps_render _ stable_VBLANK)
                  E (colorClock s) s) as Hv.
    set (u := updateFrame E (colorClock s) s) in *.
    destruct (readRegister E (Z.land addr 0x000f)); cbn [snd]; tia_cbn;
      rewrite Hd, Hv; exact Hs.
Qed.

(** X18: while bit 7 of VBLANK grounds the paddle inputs, INPT0 reads with
    D7 clear, except for an input at the minimum resistance. *)
Theorem X18_dumped_input_reads_low (E : Env) (io : BusInputs) (addr : Z)
    (s : TIA) :
  dumpCoherent s ->
  nonzero (Z.land (myVBLANK s) 0x80) = true ->
  readRegister E (Z.land addr 0x000f) = INPT0 ->
  in_leftNine io <> minimumResistance E ->
  Z.land (fst (peek E io addr s)) 0x80 = 0.
Proof.
  intros Hs Hbit Hreg Hres. unfold dumpCoherent in Hs. rewrite Hbit in Hs.
  unfold peek. cbv zeta. rewrite Hreg. cbn [fst].
  rewrite land_masked_bit7. unfold dumpedInputPort. cbv zeta.
  rewrite (updateFrame_stable _ (ps_render _ stable_dumpEnabled)), Hs.
  apply Z.eqb_neq in Hres. rewrite Hres, orb_true_r. reflexivity.
Qed.

Lemma X17_witness :
  myDumpEnabled powerOn = false
  /\ myDumpEnabled paddlesGrounded = true
  /\ dumpCoherent paddlesGrounded
  /\ dumpCoherent (snd (peek stellaEnv paddleBus 0x08 paddlesGrounded)).
Proof.
  destruct (X17_dump_flag_follows_VBLANK stellaEnv quietBus 0x01 0x80
              (set_sys_cycles 10 powerOn)) as (_ & Hpoke & _).
  destruct (X17_dump_flag_follows_VBLANK stellaEnv paddleBus 0x08 0
              paddlesGrounded) as (_ & _ & Hpeek).
  assert (Hg : dumpCoherent paddlesGrounded) by (apply Hpoke; reflexivity).
  split; [reflexivity | split; [reflexivity | split; [exact Hg |]]].
  apply Hpeek. exact Hg.
Defined.

Lemma X18_witness :
  fst (peek stellaEnv paddleBus 0x08 (set_sys_cycles 5000 powerOn)) = 0x80
  /\ Z.land (fst (peek stellaEnv paddleBus 0x08
                    (set_sys_cycles 5000 paddlesGrounded))) 0x80 = 0.
Proof.
  split; [reflexivity |].
  apply (X18_dumped_input_reads_low stellaEnv paddleBus 0x08
           (set_sys_cycles 5000 paddlesGrounded)); by_eval.
Defined.

(** *** The frame controller *)

(** X19: [endFrame] on a frame that reached past its first visible
    scanline counts it: the frame counter goes up by one, the scanline count
    recorded is the current one (the configured maximum when the frame ran
    more than one line past it), and the PAL counter goes up exactly when the
    recorded count is at least 287. *)
Theorem X19_endFrame_counts_the_frame (E : Env) (s : TIA) :
  myStartScanline s < scanlines s ->
  myFrameCounter (endFrame E s) = uInt32 (myFrameCounter s + 1)
  /\ myScanlineCountForLastFrame (endFrame E s)
     = (if scanlines s >? uInt32 (myMaximumNumberOfScanlines s + 1)
        then myMaximumNumberOfScanlines s else scanlines s)
  /\ myPALFrameCounter (endFrame E s)
     = (if myScanlineCountForLastFrame (endFrame E s) >=? 287
        then uInt32 (myPALFrameCounter s + 1) else myPALFrameCounter s).
Proof.
  intros Hlines.
  assert (Hshort : (scanlines s <=? myStartScanline s) = false)
    by (apply Z.leb_gt; exact Hlines).
  destruct (endFrame_counters E s Hshort) as [Hframes Hpal].
  split; [exact Hframes | split; [apply endFrame_recorded; exact Hshort |]].
  exact Hpal.
Qed.

Lemma X19_witness :
  scanlines after312Lines = 312
  /\ myFrameCounter (endFrame stellaEnv after312Lines) = 1
  /\ myScanlineCountForLastFrame (endFrame stellaEnv after312Lines) = 290
  /\ myPALFrameCounter (endFrame stellaEnv after312Lines) = 1.
Proof.
  pose proof (X19_endFrame_counts_the_frame stellaEnv after312Lines
                ltac:(by_eval)) as (Hf & Hl & Hp).
  split; [reflexivity | split; [exact Hf | split; [exact Hl | exact Hp]]].
Defined.

(** X20: [endFrame] on a frame that did not get past its first visible
    scanline drops it: nothing is counted or recorded, and the next frame is
    started at once. *)
Theorem X20_endFrame_drops_invisible_frame (E : Env) (s : TIA) :
  scanlines s <= myStartScanline s ->
  endFrame E s = startFrame E s
  /\ myFrameCounter (endFrame E s) = myFrameCounter s
  /\ myPALFrameCounter (endFrame E s) = myPALFrameCounter s
  /\ myScanlineCountForLastFrame (endFrame E s) = myScanlineCountForLastFrame s
  /\ scanlines (endFrame E s) = 0.
Proof.
  intros Hlines.
  assert (Hshort : (scanlines s <=? myStartScanline s) = true)
    by (apply Z.leb_le; exact Hlines).
  destruct (endFrame_skipped E s Hshort) as [Hframes Hpal].
  assert (Heq : endFrame E s = startFrame E s).
  { unfold endFrame. rewrite Hshort. reflexivity. }
  split; [exact Heq | split; [exact Hframes | split; [exact Hpal |]]].
  rewrite Heq. split.
  - unfold startFrame, resetCycles, systemCyclesReset. cbv zeta. repeat (tia_cbn; split_if); reflexivity.
  - unfold scanlines. rewrite startFrame_distance.
    apply Z.div_small. apply clocksThisLine_range.
Qed.

Lemma X20_witness :
  scanlines endsBeforePicture = 30
  /\ myFrameCounter (endFrame stellaEnv endsBeforePicture) = 0
  /\ scanlines (endFrame stellaEnv endsBeforePicture) = 0.
Proof.
  pose proof (X20_endFrame_drops_invisible_frame stellaEnv endsBeforePicture
                ltac:(by_eval)) as (_ & Hf & _ & _ & Hl).
  split; [reflexivity | split; [exact Hf | exact Hl]].
Defined.

(** [endFrame] neither lowers the stop-display offset nor raises it past
    320 scanlines. *)
Lemma endFrame_stopOffset (E : Env) (s : TIA) :
  myStopDisplayOffset s <= SCANLINE_CLOCKS * BUFFER_LINES ->
  myStopDisplayOffset s <= myStopDisplayOffset (endFrame E s)
  <= SCANLINE_CLOCKS * BUFFER_LINES.
Proof.
  intros Hbound. unfold endFrame. cbv zeta.
  destruct (scanlines s <=? myStartScanline s).
  - unfold startFrame, resetCycles, systemCyclesReset. cbv zeta.
    repeat (tia_cbn; split_if); tia_cbn; lia.
  - repeat (tia_cbn; split_if); tia_cbn;
      repeat match goal with
             | H : (_ && _) = true |- _ =>
                 apply andb_true_iff in H; destruct H
             | H : (_ >? myStopDisplayOffset s) = true |- _ =>
                 rewrite Z.gtb_ltb in H; apply Z.ltb_lt in H
             | H : (_ <? SCANLINE_CLOCKS * BUFFER_LINES) = true |- _ =>
                 apply Z.ltb_lt in H
             end; lia.
Qed.

(** X21: the stop-display offset never leads past the frame buffer of 320
    lines: [frameReset] sets it to between 262 and 320 scanlines of clocks,
    and [endFrame] neither lowers it nor raises it to 320 scanlines or
    more. *)
Theorem X21_stop_display_within_buffer (E : Env) (cfg : HostConfig) (s : TIA) :
  (SCANLINE_CLOCKS * 262 <= myStopDisplayOffset (frameReset E cfg s)
   <= SCANLINE_CLOCKS * BUFFER_LINES)
  /\ (myStopDisplayOffset s <= SCANLINE_CLOCKS * BUFFER_LINES ->
      myStopDisplayOffset s <= myStopDisplayOffset (endFrame E s)
      <= SCANLINE_CLOCKS * BUFFER_LINES).
Proof.
  split.
  - assert (Hlines : forall n m, 0 <= n ->
              SCANLINE_CLOCKS * 262
              <= uInt32 (SCANLINE_CLOCKS
                         * Z.min (if m =? 290 then Z.max n 262 else Z.max n 312)
                                 BUFFER_LINES)
              <= SCANLINE_CLOCKS * BUFFER_LINES).
    { intros n m Hn. change SCANLINE_CLOCKS with 228. change BUFFER_LINES with 320.
      destruct (m =? 290); rewrite uInt32_small by lia; lia. }
    unfold frameReset. cbv zeta.
    destruct (cfg_consoleAbove55 cfg); tia_cbn; apply Hlines;
      unfold uInt32; apply Z.mod_pos_bound; reflexivity.
  - apply endFrame_stopOffset.
Qed.

(** *** What the renderer keeps *)

Ltac object_rewrite Hf :=
  repeat first
    [ rewrite (os_frameBuffer _ Hf) | rewrite (os_framePointer _ Hf)
    | rewrite (os_framePointerClocks _ Hf)
    | rewrite (os_player0 _ Hf) | rewrite (os_player1 _ Hf)
    | rewrite (os_missile0 _ Hf) | rewrite (os_missile1 _ Hf)
    | rewrite (os_ball _ Hf) | rewrite (os_previousHMOVE _ Hf)
    | rewrite (os_currentHMOVE _ Hf) | rewrite (os_blank _ Hf) ].

Ltac object_steps Hf :=
  repeat (object_rewrite Hf;
          try match goal with
              | |- ?g (if ?c then _ else _) = _ => destruct c
              end).

Section ObjectStability.

Context {A : Type} (f : TIA -> A) (Hf : ObjectStable f).

Lemma scanlineBoundary_keeps (s : TIA) : f (scanlineBoundary s) = f s.
Proof.
  unfold scanlineBoundary, handlePendingMotions. cbv zeta.
  object_steps Hf; reflexivity.
Qed.

Lemma hmoveBlanks_keeps (E : Env) (a b c : Z) (s : TIA) :
  f (hmoveBlanks E a b c s) = f s.
Proof. unfold hmoveBlanks. cbv zeta. object_steps Hf; reflexivity. Qed.

Lemma endOfScanline_keeps (s : TIA) : f (endOfScanline s) = f s.
Proof. unfold endOfScanline. cbv zeta. object_steps Hf; reflexivity. Qed.

Lemma updateMasks_keeps (s : TIA) : f (updateMasks s) = f s.
Proof. unfold updateMasks. cbv zeta. object_rewrite Hf. reflexivity. Qed.

(** In the vertical blank the renderer consults no object. *)
Lemma renderClocks_blanked_keeps (E : Env) (a b : Z) (s : TIA) :
  nonzero (Z.land (myVBLANK s) 0x02) = true ->
  f (renderClocks E a b s) = f s.
Proof.
  intros Hblank. unfold renderClocks. cbv zeta.
  destruct (negb (b =? 0)); [| reflexivity].
  tia_cbn. rewrite Hblank. object_rewrite Hf. reflexivity.
Qed.

(** Outside it, it adds to the collision register. *)
Lemma renderClocks_keeps (E : Env) (a b : Z) (s : TIA) :
  (forall v u, f (set_myCollision v u) = f u) ->
  f (renderClocks E a b s) = f s.
Proof.
  intros Hcx. unfold renderClocks. cbv zeta.
  destruct (negb (b =? 0)); [| reflexivity].
  tia_cbn. destruct (nonzero _); object_rewrite Hf; [reflexivity |].
  assert (Hdraw : forall n hpos u, f (drawPixels E n hpos u) = f u).
  { induction n as [| n IH]; intros hpos u; cbn [drawPixels]; [reflexivity |].
    rewrite IH. unfold drawPixel. cbv zeta. object_rewrite Hf.
    rewrite Hcx. reflexivity. }
  rewrite Hdraw, updateMasks_keeps. object_rewrite Hf. reflexivity.
Qed.

End ObjectStability.

Lemma keeps_collision : ObjectStable myCollision.
Proof. repeat constructor. Qed.

Lemma keeps_lastUpdate : ObjectStable myClockAtLastUpdate.
Proof. repeat constructor. Qed.

Lemma keeps_clocksToEnd : ObjectStable myClocksToEndOfScanLine.
Proof. repeat constructor. Qed.

(** X22: while bit 1 of VBLANK blanks the picture, rendering latches no
    collision: [updateFrame] leaves the collision register as it is, for
    every target clock and whatever the objects show. *)
Theorem X22_no_collisions_in_vertical_blank (E : Env) (clock : Z) (s : TIA) :
  nonzero (Z.land (myVBLANK s) 0x02) = true ->
  myCollision (updateFrame E clock s) = myCollision s.
Proof.
  intros Hblank.
  assert (Hline : forall first c u,
            nonzero (Z.land (myVBLANK u) 0x02) = true ->
            myCollision (updateLine E first c u) = myCollision u
            /\ nonzero (Z.land (myVBLANK (updateLine E first c u)) 0x02) = true).
  { intros first c u Hu. split.
    - unfold updateLine.
      set (u0 := if first then u else scanlineBoundary u).
      assert (H0 : myCollision u0 = myCollision u
                   /\ myVBLANK u0 = myVBLANK u).
      { subst u0. destruct first; [split; reflexivity |].
        split; [apply (scanlineBoundary_keeps _ keeps_collision) |].
        apply (scanlineBoundary_stable _ (ps_render _ stable_VBLANK)). }
      destruct H0 as [Hc0 Hv0]. clearbody u0.
      pose proof (lineClocks_stable _ (ps_render _ stable_VBLANK) c u0) as Hv1.
      assert (Hc1 : myCollision (snd (lineClocks c u0)) = myCollision u0).
      { unfold lineClocks. cbv zeta. destruct (c >? _); reflexivity. }
      destruct (lineClocks c u0) as [n u1]. cbn [snd] in Hv1, Hc1.
      destruct (skipHBlank _ n) as [a b].
      rewrite (endOfScanline_keeps _ keeps_collision),
              (hmoveBlanks_keeps _ keeps_collision),
              (renderClocks_blanked_keeps _ keeps_collision)
        by (rewrite Hv1, Hv0; exact Hu).
      congruence.
    - rewrite (updateLine_stable _ (ps_render _ stable_VBLANK)). exact Hu. }
  assert (Hlines : forall n first c u,
            nonzero (Z.land (myVBLANK u) 0x02) = true ->
            myCollision (updateLines E n first c u) = myCollision u).
  { induction n as [| n IH]; intros first c u Hu; cbn [updateLines];
      [reflexivity |].
    destruct (Hline first c u Hu) as [Hc Hv]. rewrite IH by exact Hv. exact Hc. }
  unfold updateFrame. cbv zeta.
  destruct (_ || _); [reflexivity | apply Hlines; exact Hblank].
Qed.

Lemma X22_witness :
  myCollision (updateFrame stellaEnv 600 playersOverlap) = 0x2000
  /\ myClockAtLastUpdate (updateFrame stellaEnv 600 overlapInBlank) = 600
  /\ myCollision (updateFrame stellaEnv 600 overlapInBlank)
     = myCollision overlapInBlank
  /\ myCollision overlapInBlank = 0.
Proof.
  split; [reflexivity | split; [reflexivity | split; [| reflexivity]]].
  apply (X22_no_collisions_in_vertical_blank stellaEnv 600 overlapInBlank).
  reflexivity.
Defined.

Lemma lineClocks_advance (c : Z) (u : TIA) :
  myClockAtLastUpdate u <= c ->
  0 <= myClocksToEndOfScanLine u <= SCANLINE_CLOCKS ->
  myClockAtLastUpdate u <= myClockAtLastUpdate (snd (lineClocks c u)) <= c
  /\ 0 <= myClocksToEndOfScanLine (snd (lineClocks c u)) <= SCANLINE_CLOCKS
  /\ 0 <= fst (lineClocks c u) <= SCANLINE_CLOCKS.
Proof.
  intros Hlast Hend. unfold lineClocks. cbv zeta.
  change SCANLINE_CLOCKS with 228 in *.
  destruct (Z.gtb_spec c (myClockAtLastUpdate u + myClocksToEndOfScanLine u));
    cbn [fst snd]; tia_cbn; lia.
Qed.

Lemma updateLine_advance (E : Env) (first : bool) (c : Z) (u : TIA) :
  myClockAtLastUpdate u <= c ->
  0 <= myClocksToEndOfScanLine u <= SCANLINE_CLOCKS ->
  myClockAtLastUpdate u <= myClockAtLastUpdate (updateLine E first c u) <= c
  /\ 0 <= myClocksToEndOfScanLine (updateLine E first c u) <= SCANLINE_CLOCKS.
Proof.
  intros Hlast Hend. unfold updateLine.
  set (u0 := if first then u else scanlineBoundary u).
  assert (H0 : myClockAtLastUpdate u0 = myClockAtLastUpdate u
               /\ myClocksToEndOfScanLine u0 = myClocksToEndOfScanLine u).
  { subst u0. destruct first; [split; reflexivity |].
    split; [apply (scanlineBoundary_keeps _ keeps_lastUpdate)
           | apply (scanlineBoundary_keeps _ keeps_clocksToEnd)]. }
  destruct H0 as [Hl0 He0]. clearbody u0.
  rewrite <- Hl0, <- He0 in *.
  pose proof (lineClocks_advance c u0 Hlast Hend) as (Hl1 & He1 & _).
  destruct (lineClocks c u0) as [n u1]. cbn [snd] in Hl1, He1.
  destruct (skipHBlank _ n) as [a b].
  rewrite !(endOfScanline_keeps _ keeps_lastUpdate),
          !(hmoveBlanks_keeps _ keeps_lastUpdate),
          !(renderClocks_keeps _ keeps_lastUpdate) by reflexivity.
  rewrite !(endOfScanline_keeps _ keeps_clocksToEnd),
          !(hmoveBlanks_keeps _ keeps_clocksToEnd),
          !(renderClocks_keeps _ keeps_clocksToEnd) by reflexivity.
  split; assumption.
Qed.

Lemma updateLines_advance (E : Env) (n : nat) :
  forall first c u,
    myClockAtLastUpdate u <= c ->
    0 <= myClocksToEndOfScanLine u <= SCANLINE_CLOCKS ->
    myClockAtLastUpdate u <= myClockAtLastUpdate (updateLines E n first c u) <= c
    /\ 0 <= myClocksToEndOfScanLine (updateLines E n first c u)
       <= SCANLINE_CLOCKS.
Proof.
  induction n as [| n IH]; intros first c u Hlast Hend; cbn [updateLines].
  - split; [lia | exact Hend].
  - destruct (updateLine_advance E first c u Hlast Hend) as [Hl He].
    destruct (IH false c (updateLine E first c u) ltac:(lia) He) as [Hl' He'].
    split; [lia | exact He'].
Qed.

(** X23: [updateFrame] moves the last-updated clock forward only, and
    neither past the target nor past the stop-display clock; the clocks left
    to the end of the scanline stay within 0..228. *)
Theorem X23_updateFrame_clocks_advance (E : Env) (clock : Z) (s : TIA) :
  0 <= myClocksToEndOfScanLine s <= SCANLINE_CLOCKS ->
  let s' := updateFrame E clock s in
  myClockAtLastUpdate s <= myClockAtLastUpdate s'
  /\ myClockAtLastUpdate s' <= Z.max (myClockAtLastUpdate s) clock
  /\ myClockAtLastUpdate s'
     <= Z.max (myClockAtLastUpdate s) (myClockStopDisplay s)
  /\ 0 <= myClocksToEndOfScanLine s' <= SCANLINE_CLOCKS.
Proof.
  intros Hend. cbv zeta. unfold updateFrame. cbv zeta.
  destruct (Z.ltb_spec clock (myClockStartDisplay s)); cbn [orb];
    [repeat split; lia |].
  destruct (Z.geb_spec (myClockAtLastUpdate s) (myClockStopDisplay s));
    cbn [orb]; [repeat split; lia |].
  destruct (Z.geb_spec (myClockAtLastUpdate s) clock);
    [repeat split; lia |].
  match goal with
  | |- context [updateLines E ?n true ?c s] =>
      destruct (updateLines_advance E n true c s) as [Hl He];
        [ destruct (clock >? myClockStopDisplay s); lia | exact Hend | ];
        destruct (Z.gtb_spec clock (myClockStopDisplay s));
        repeat split; lia
  end.
Qed.

Lemma X23_witness :
  let s' := updateFrame stellaEnv 600 (pokeAt 0 0x09 0x1A powerOn) in
  myClockAtLastUpdate (pokeAt 0 0x09 0x1A powerOn) = 0
  /\ myClockAtLastUpdate s' = 600
  /\ myClocksToEndOfScanLine s' = 84
  /\ (0 <= myClocksToEndOfScanLine s' <= SCANLINE_CLOCKS).
Proof.
  pose proof (X23_updateFrame_clocks_advance stellaEnv 600
                (pokeAt 0 0x09 0x1A powerOn) ltac:(by_eval))
    as (_ & _ & _ & Hend).
  split; [reflexivity | split; [reflexivity | split; [reflexivity |]]].
  exact Hend.
Defined.

(** *** Pixels already drawn *)

Lemma skipHBlank_rest (a n : Z) :
  0 <= a <= SCANLINE_CLOCKS -> 0 <= n <= SCANLINE_CLOCKS ->
  0 <= snd (skipHBlank a n) <= n.
Proof.
  change SCANLINE_CLOCKS with 228. intros Ha Hn.
  unfold skipHBlank. cbv zeta. change HBLANK_CLOCKS with 68.
  destruct (Z.ltb_spec a 68); cbn [snd]; [| lia].
  destruct (Z.ltb_spec (68 - a) n);
    rewrite (uInt32_small (68 - a)) || rewrite (uInt32_small n); try lia;
    rewrite Int32_uInt32, Int32_small; lia.
Qed.

Lemma drawPixels_drawnKept (E : Env) (fp : Z) (fb : FrameBuffer) (n : nat) :
  forall hpos u, drawnKept fp fb u -> drawnKept fp fb (drawPixels E n hpos u).
Proof.
  induction n as [| n IH]; intros hpos u Hu; cbn [drawPixels]; [exact Hu |].
  apply IH. destruct Hu as [Hfp Hfb]. unfold drawPixel. cbv zeta.
  split; tia_cbn; [lia |].
  intros i Hi. unfold store.
  destruct (Z.eqb_spec i (myFramePointer u)); [lia | apply Hfb; exact Hi].
Qed.

Lemma renderClocks_drawnKept (E : Env) (fp : Z) (fb : FrameBuffer) (a b : Z)
    (u : TIA) :
  0 <= b -> drawnKept fp fb u -> drawnKept fp fb (renderClocks E a b u).
Proof.
  intros Hb [Hfp Hfb]. unfold renderClocks. cbv zeta.
  destruct (negb (b =? 0)); [| split; assumption].
  tia_cbn. destruct (nonzero _).
  - split; tia_cbn; [lia |].
    intros i Hi. unfold memset.
    destruct (Z.leb_spec (myFramePointer u) i); cbn [andb];
      [lia | apply Hfb; exact Hi].
  - match goal with
    | |- context [drawPixels E ?n ?h ?w] =>
        assert (Hdraw : drawnKept fp fb (drawPixels E n h w))
    end.
    { apply drawPixels_drawnKept. unfold updateMasks. cbv zeta.
      split; tia_cbn; assumption. }
    destruct Hdraw as [_ Hfb']. split; tia_cbn; [lia | exact Hfb'].
Qed.

Lemma hmoveBlanks_drawnKept (E : Env) (fp : Z) (fb : FrameBuffer)
    (old a b : Z) (u : TIA) :
  fp <= old -> drawnKept fp fb u -> drawnKept fp fb (hmoveBlanks E old a b u).
Proof.
  intros Hold [Hfp Hfb]. unfold hmoveBlanks. cbv zeta.
  destruct (_ && _); [| split; assumption].
  destruct (_ >=? _); (split; tia_cbn; [exact Hfp |]);
    intros i Hi; unfold memset;
    (destruct (Z.leb_spec old i); cbn [andb]; [lia | apply Hfb; exact Hi]).
Qed.

Lemma updateLine_drawnKept (E : Env) (fp : Z) (fb : FrameBuffer)
    (first : bool) (c : Z) (u : TIA) :
  myClockAtLastUpdate u <= c ->
  0 <= myClocksToEndOfScanLine u <= SCANLINE_CLOCKS ->
  drawnKept fp fb u -> drawnKept fp fb (updateLine E first c u).
Proof.
  intros Hlast Hend Hu. unfold updateLine.
  set (u0 := if first then u else scanlineBoundary u).
  assert (H0 : drawnKept fp fb u0
               /\ myClockAtLastUpdate u0 = myClockAtLastUpdate u
               /\ myClocksToEndOfScanLine u0 = myClocksToEndOfScanLine u).
  { subst u0. destruct first; [repeat split; apply Hu |].
    split; [| split; [apply (scanlineBoundary_keeps _ keeps_lastUpdate)
                     | apply (scanlineBoundary_keeps _ keeps_clocksToEnd)]].
    destruct Hu as [Hfp Hfb].
    unfold scanlineBoundary, handlePendingMotions. cbv zeta.
    repeat (tia_cbn; split_if); split; tia_cbn; assumption. }
  destruct H0 as (Hk0 & Hl0 & He0). clearbody u0.
  rewrite <- Hl0, <- He0 in *.
  pose proof (lineClocks_advance c u0 Hlast Hend) as (_ & _ & Hn).
  assert (H1 : drawnKept fp fb (snd (lineClocks c u0))).
  { destruct Hk0 as [Hfp Hfb]. unfold lineClocks. cbv zeta.
    destruct (c >? _); cbn [snd]; split; tia_cbn; assumption. }
  pose proof (skipHBlank_rest
                (SCANLINE_CLOCKS - myClocksToEndOfScanLine u0)
                (fst (lineClocks c u0)) ltac:(lia) Hn) as Hb.
  destruct (lineClocks c u0) as [n u1]. cbn [fst snd] in *.
  destruct (skipHBlank _ n) as [a b]. cbn [snd] in Hb.
  assert (H2 : drawnKept fp fb (renderClocks E a b u1))
    by (apply renderClocks_drawnKept; [lia | exact H1]).
  assert (H3 : drawnKept fp fb
                 (hmoveBlanks E (myFramePointer u1) a b (renderClocks E a b u1)))
    by (apply hmoveBlanks_drawnKept; [apply H1 | exact H2]).
  destruct H3 as [Hfp Hfb]. unfold endOfScanline.
  destruct (_ =? _); split; tia_cbn; assumption.
Qed.

(** X24: [updateFrame] never moves the frame pointer back and never
    rewrites a pixel below it: what has been drawn of the frame stays as it
    was drawn. *)
Theorem X24_updateFrame_keeps_drawn_pixels (E : Env) (clock : Z) (s : TIA) :
  0 <= myClocksToEndOfScanLine s <= SCANLINE_CLOCKS ->
  myFramePointer s <= myFramePointer (updateFrame E clock s)
  /\ forall i, i < myFramePointer s ->
       myCurrentFrameBuffer (updateFrame E clock s) i
       = myCurrentFrameBuffer s i.
Proof.
  intros Hend.
  assert (Hlines : forall n first c u,
            myClockAtLastUpdate u <= c ->
            0 <= myClocksToEndOfScanLine u <= SCANLINE_CLOCKS ->
            drawnKept (myFramePointer s) (myCurrentFrameBuffer s) u ->
            drawnKept (myFramePointer s) (myCurrentFrameBuffer s)
              (updateLines E n first c u)).
  { induction n as [| n IH]; intros first c u Hl He Hu; cbn [updateLines];
      [exact Hu |].
    destruct (updateLine_advance E first c u Hl He) as [Hl' He'].
    apply IH; [lia | exact He' |].
    apply updateLine_drawnKept; assumption. }
  assert (Hs : drawnKept (myFramePointer s) (myCurrentFrameBuffer s) s)
    by (split; [lia | reflexivity]).
  fold (drawnKept (myFramePointer s) (myCurrentFrameBuffer s)
          (updateFrame E clock s)).
  unfold updateFrame. cbv zeta.
  destruct (Z.ltb_spec clock (myClockStartDisplay s)); cbn [orb]; [exact Hs |].
  destruct (Z.geb_spec (myClockAtLastUpdate s) (myClockStopDisplay s));
    cbn [orb]; [exact Hs |].
  destruct (Z.geb_spec (myClockAtLastUpdate s) clock); [exact Hs |].
  apply Hlines; [destruct (clock >? myClockStopDisplay s); lia | exact Hend |].
  exact Hs.
Qed.

Lemma X24_witness :
  let s := updateFrame stellaEnv 600 (pokeAt 0 0x09 0x1A powerOn) in
  let s' := updateFrame stellaEnv 900 (pokeAt 190 0x09 0x44 s) in
  myFramePointer s = 396 /\ myFramePointer s' = 628
  /\ myCurrentFrameBuffer s' 395 = 0x1A /\ myCurrentFrameBuffer s' 627 = 0x44
  /\ (forall i, i < myFramePointer s ->
        myCurrentFrameBuffer (updateFrame stellaEnv 700 s) i
        = myCurrentFrameBuffer s i).
Proof.
  split; [reflexivity | split; [reflexivity |]].
  split; [reflexivity | split; [reflexivity |]].
  apply (X24_updateFrame_keeps_drawn_pixels stellaEnv 700
           (updateFrame stellaEnv 600 (pokeAt 0 0x09 0x1A powerOn))).
  by_eval.
Defined.

(** *** The renderer stays inside the frame buffer *)

Lemma lineClocks_cases (c : Z) (u : TIA) :
  let r := lineClocks c u in
  (c > myClockAtLastUpdate u + myClocksToEndOfScanLine u
   /\ fst r = myClocksToEndOfScanLine u
   /\ myClocksToEndOfScanLine (snd r) = 228
   /\ myClockAtLastUpdate (snd r)
      = myClockAtLastUpdate u + myClocksToEndOfScanLine u)
  \/ (c <= myClockAtLastUpdate u + myClocksToEndOfScanLine u
      /\ fst r = c - myClockAtLastUpdate u
      /\ myClocksToEndOfScanLine (snd r)
         = myClocksToEndOfScanLine u - (c - myClockAtLastUpdate u)
      /\ myClockAtLastUpdate (snd r) = c).
Proof.
  cbv zeta. unfold lineClocks. cbv zeta.
  destruct (Z.gtb_spec c (myClockAtLastUpdate u + myClocksToEndOfScanLine u));
    cbn [fst snd]; tia_cbn; [left | right]; repeat split; lia.
Qed.

Lemma skipHBlank_cases (a n : Z) :
  0 <= a <= 228 -> 0 <= n <= 228 ->
  skipHBlank a n
  = if a <? 68
    then if 68 - a <? n then (68, n - (68 - a)) else (a + n, 0)
    else (a, n).
Proof.
  intros Ha Hn. unfold skipHBlank. cbv zeta. change HBLANK_CLOCKS with 68.
  destruct (Z.ltb_spec a 68); [| reflexivity].
  destruct (Z.ltb_spec (68 - a) n);
    rewrite ?(uInt32_small (68 - a)), ?(uInt32_small n) by lia;
    rewrite !Int32_uInt32, !Int32_small by lia; f_equal; lia.
Qed.

Lemma drawPixels_writes (E : Env) (n : nat) :
  forall hpos u,
    myFramePointer (drawPixels E n hpos u) = myFramePointer u + Z.of_nat n
    /\ forall i, i < myFramePointer u \/ myFramePointer u + Z.of_nat n <= i ->
         myCurrentFrameBuffer (drawPixels E n hpos u) i
         = myCurrentFrameBuffer u i.
Proof.
  induction n as [| n IH]; intros hpos u; cbn [drawPixels].
  - split; [cbn; lia | reflexivity].
  - destruct (IH (uInt32 (hpos + 1)) (drawPixel E hpos u)) as [Hfp Hfb].
    assert (Hp : myFramePointer (drawPixel E hpos u) = myFramePointer u + 1)
      by reflexivity.
    rewrite Hp in *. split; [lia |].
    intros i Hi. rewrite Hfb by lia.
    unfold drawPixel. cbv zeta. tia_cbn. unfold store.
    destruct (Z.eqb_spec i (myFramePointer u)); [lia | reflexivity].
Qed.

Lemma renderClocks_writes (E : Env) (a b : Z) (u : TIA) :
  0 <= b ->
  myFramePointer (renderClocks E a b u) = myFramePointer u + b
  /\ forall i, i < myFramePointer u \/ myFramePointer u + b <= i ->
       myCurrentFrameBuffer (renderClocks E a b u) i
       = myCurrentFrameBuffer u i.
Proof.
  intros Hb. unfold renderClocks. cbv zeta.
  destruct (Z.eqb_spec b 0) as [-> | Hne]; cbn [negb];
    [split; [lia | reflexivity] |].
  tia_cbn. destruct (nonzero _).
  - split; tia_cbn; [reflexivity |].
    intros i Hi. unfold memset.
    destruct (Z.leb_spec (myFramePointer u) i),
             (Z.ltb_spec i (myFramePointer u + b)); cbn [andb];
      first [lia | reflexivity].
  - split; tia_cbn; [reflexivity |].
    match goal with
    | |- context [drawPixels E ?n ?h ?w] =>
        destruct (drawPixels_writes E n h w) as [_ Hfb]
    end.
    intros i Hi. rewrite Hfb.
    + unfold updateMasks. cbv zeta. reflexivity.
    + unfold updateMasks. cbv zeta. tia_cbn.
      replace (myFramePointer u + b - myFramePointer u) with b by lia.
      rewrite Z2Nat.id by lia. exact Hi.
Qed.

Lemma hmoveBlanks_writes (E : Env) (old a b : Z) (u : TIA) :
  0 <= a ->
  myFramePointer (hmoveBlanks E old a b u) = myFramePointer u
  /\ (68 + 8 <= a ->
      myCurrentFrameBuffer (hmoveBlanks E old a b u) = myCurrentFrameBuffer u)
  /\ forall i, i < old \/ old + 76 <= i ->
       myCurrentFrameBuffer (hmoveBlanks E old a b u) i
       = myCurrentFrameBuffer u i.
Proof.
  intros Ha. unfold hmoveBlanks. cbv zeta. change HBLANK_CLOCKS with 68.
  destruct (myHMOVEBlankEnabled u); cbn [andb];
    [| repeat split; reflexivity].
  change (68 <? 68 + 8) with true. cbn [andb].
  destruct (Z.ltb_spec a (68 + 8)); [| repeat split; reflexivity].
  destruct (_ >=? _); (split; [reflexivity | split; [lia |]]);
    intros i Hi; tia_cbn; unfold memset;
    (destruct (Z.leb_spec old i), (Z.ltb_spec i (old + (68 + 8 - a)));
     cbn [andb]; first [lia | reflexivity]).
Qed.

Lemma stable_stopDisplay : RenderStable myClockStopDisplay.
Proof. repeat constructor. Qed.

Lemma scanlineBoundary_frame (s : TIA) :
  myFramePointer (scanlineBoundary s) = myFramePointer s
  /\ myCurrentFrameBuffer (scanlineBoundary s) = myCurrentFrameBuffer s.
Proof.
  unfold scanlineBoundary, handlePendingMotions. cbv zeta.
  repeat (tia_cbn; split_if); split; reflexivity.
Qed.

Lemma lineClocks_frame (c : Z) (s : TIA) :
  myFramePointer (snd (lineClocks c s)) = myFramePointer s
  /\ myCurrentFrameBuffer (snd (lineClocks c s)) = myCurrentFrameBuffer s.
Proof.
  unfold lineClocks. cbv zeta. destruct (c >? _); split; reflexivity.
Qed.

(** What the rest of the loop body does to the frame once the clocks of the
    turn are known: the pointer moves by the clocks drawn, and the pixels
    written lie between the old pointer and the new one, or in the HMOVE
    blank of at most 76 pixels that starts at the old one. *)
Lemma lineRest_writes (E : Env) (a b : Z) (u : TIA) :
  0 <= a -> 0 <= b ->
  let e := endOfScanline
             (hmoveBlanks E (myFramePointer u) a b (renderClocks E a b u)) in
  myClockAtLastUpdate e = myClockAtLastUpdate u
  /\ myClocksToEndOfScanLine e = myClocksToEndOfScanLine u
  /\ myClockWhenFrameStarted e = myClockWhenFrameStarted u
  /\ myClockStopDisplay e = myClockStopDisplay u
  /\ myFramePointer e = myFramePointer u + b
  /\ (forall i, i < myFramePointer u \/ myFramePointer u + Z.max b 76 <= i ->
        myCurrentFrameBuffer e i = myCurrentFrameBuffer u i)
  /\ (76 <= a ->
      forall i, i < myFramePointer u \/ myFramePointer u + b <= i ->
        myCurrentFrameBuffer e i = myCurrentFrameBuffer u i).
Proof.
  intros Ha Hb. cbv zeta.
  rewrite !(endOfScanline_keeps _ keeps_lastUpdate),
          !(hmoveBlanks_keeps _ keeps_lastUpdate),
          !(renderClocks_keeps _ keeps_lastUpdate) by reflexivity.
  rewrite !(endOfScanline_keeps _ keeps_clocksToEnd),
          !(hmoveBlanks_keeps _ keeps_clocksToEnd),
          !(renderClocks_keeps _ keeps_clocksToEnd) by reflexivity.
  rewrite !(endOfScanline_stable _ stable_frameStart),
          !(hmoveBlanks_stable _ stable_frameStart),
          !(renderClocks_stable _ stable_frameStart).
  rewrite !(endOfScanline_stable _ stable_stopDisplay),
          !(hmoveBlanks_stable _ stable_stopDisplay),
          !(renderClocks_stable _ stable_stopDisplay).
  destruct (renderClocks_writes E a b u Hb) as [Hfp Hfb].
  destruct (hmoveBlanks_writes E (myFramePointer u) a b
              (renderClocks E a b u) Ha) as (Hfp' & Hsame & Hfb').
  assert (He : forall w, myFramePointer (endOfScanline w) = myFramePointer w
                         /\ myCurrentFrameBuffer (endOfScanline w)
                            = myCurrentFrameBuffer w).
  { intros w. unfold endOfScanline. destruct (_ =? _); split; reflexivity. }
  rewrite !(proj1 (He _)), !(proj2 (He _)), Hfp', Hfp.
  repeat split.
  - intros i Hi. rewrite Hfb' by lia. apply Hfb. lia.
  - intros Hwide i Hi. rewrite Hsame by lia. apply Hfb. exact Hi.
Qed.

(** One turn of the loop of [updateFrame] keeps the bookkeeping coherent,
    on the same scanline or on the next one, and writes inside the buffer. *)
Lemma updateLine_beam (E : Env) (fb : FrameBuffer) (first : bool) (c line : Z)
    (u : TIA) :
  beamAt line u -> outsideKept fb u ->
  myClockAtLastUpdate u <= c <= myClockStopDisplay u ->
  (beamAt line (updateLine E first c u)
   \/ beamAt (line + 1) (updateLine E first c u))
  /\ outsideKept fb (updateLine E first c u).
Proof.
  intros (Hl & Hend & Hlast & Hfp & Hstop & Hfresh & Hbuf) Hout Hc.
  unfold updateLine.
  set (u0 := if first then u else scanlineBoundary u).
  assert (H0 : myClockAtLastUpdate u0 = myClockAtLastUpdate u
               /\ myClocksToEndOfScanLine u0 = myClocksToEndOfScanLine u
               /\ myClockWhenFrameStarted u0 = myClockWhenFrameStarted u
               /\ myClockStopDisplay u0 = myClockStopDisplay u
               /\ myFramePointer u0 = myFramePointer u
               /\ myCurrentFrameBuffer u0 = myCurrentFrameBuffer u).
  { subst u0. destruct first; [repeat split; reflexivity |].
    rewrite (scanlineBoundary_keeps _ keeps_lastUpdate),
            (scanlineBoundary_keeps _ keeps_clocksToEnd),
            (scanlineBoundary_stable _ stable_frameStart),
            (scanlineBoundary_stable _ stable_stopDisplay).
    repeat split; apply scanlineBoundary_frame. }
  destruct H0 as (E1 & E2 & E3 & E4 & E5 & E6). clearbody u0.
  unfold outsideKept in Hout. rewrite <- E6 in Hout.
  rewrite <- E1, <- E2, <- E3, <- E4, <- E5 in *. clear E1 E2 E3 E4 E5 E6.
  pose proof (lineClocks_cases c u0) as Hcases. cbv zeta in Hcases.
  pose proof (lineClocks_stable _ stable_frameStart c u0) as S1.
  pose proof (lineClocks_stable _ stable_stopDisplay c u0) as S2.
  destruct (lineClocks_frame c u0) as [S3 S4].
  destruct (lineClocks c u0) as [n u1]. cbn [fst snd] in *.
  change SCANLINE_CLOCKS with 228.
  assert (Hn : 0 <= n <= 228) by (destruct Hcases as [H | H]; lia).
  rewrite skipHBlank_cases by lia.
  unfold beamAt, outsideKept. change BUFFER_SIZE with 51200.
  destruct (Z.ltb_spec (228 - myClocksToEndOfScanLine u0) 68) as [Hblank | Hpic];
    [destruct (Z.ltb_spec (68 - (228 - myClocksToEndOfScanLine u0)) n) |];
    match goal with
    | |- context [renderClocks E ?a ?b u1] =>
        destruct (lineRest_writes E a b u1 ltac:(lia) ltac:(lia))
          as (R1 & R2 & R3 & R4 & R5 & R6 & R7)
    end;
    match goal with
    | |- context [endOfScanline ?t] => set (e := endOfScanline t) in *
    end;
    rewrite S3 in R5, R6, R7;
    rewrite R1, R2, R3, R4, R5, S1, S2;
    (split;
     [ destruct Hcases as [(Hc1 & Hc2 & Hc3 & Hc4) | (Hc1 & Hc2 & Hc3 & Hc4)];
       rewrite Hc3, Hc4; [right | left]; lia
     | intros i Hi;
       destruct (Z.ltb_spec (228 - myClocksToEndOfScanLine u0) 76);
       [ rewrite R6 by (destruct Hcases as [Hc' | Hc']; lia)
       | rewrite R7 by (destruct Hcases as [Hc' | Hc']; lia) ];
       rewrite S4; apply Hout; exact Hi ]).
Qed.

Lemma beamAt_bound (line : Z) (u : TIA) :
  beamAt line u -> 0 <= myFramePointer u <= BUFFER_SIZE.
Proof.
  unfold beamAt. change BUFFER_SIZE with 51200. lia.
Qed.

Lemma inBuffer_ext (fb : FrameBuffer) (u u' : TIA) :
  beamView u' = beamView u -> inBuffer fb u -> inBuffer fb u'.
Proof.
  unfold beamView, inBuffer, beamAt, outsideKept.
  intros Hview. injection Hview as -> -> -> -> -> ->. exact id.
Qed.

Lemma updateLines_inBuffer (E : Env) (fb : FrameBuffer) (n : nat) :
  forall first c line u,
    beamAt line u -> outsideKept fb u ->
    myClockAtLastUpdate u <= c <= myClockStopDisplay u ->
    inBuffer fb (updateLines E n first c u).
Proof.
  induction n as [| n IH]; intros first c line u Hbeam Hout Hc;
    cbn [updateLines].
  - split; [exists line; exact Hbeam | exact Hout].
  - destruct (updateLine_beam E fb first c line u Hbeam Hout Hc) as [Hb Ho].
    destruct (updateLine_advance E first c u ltac:(lia)
                ltac:(change SCANLINE_CLOCKS with 228; apply Hbeam))
      as [Hl _].
    pose proof (updateLine_stable _ stable_stopDisplay E first c u) as Hs.
    destruct Hb as [Hb | Hb]; eapply IH; eauto; rewrite Hs; lia.
Qed.

(** [updateFrame] keeps the bookkeeping coherent and writes inside the
    buffer. *)
Lemma updateFrame_inBuffer (E : Env) (fb : FrameBuffer) (clock : Z) (s : TIA) :
  inBuffer fb s -> inBuffer fb (updateFrame E clock s).
Proof.
  intros Hs. unfold updateFrame. cbv zeta.
  destruct (Z.ltb_spec clock (myClockStartDisplay s)); cbn [orb]; [exact Hs |].
  destruct (Z.geb_spec (myClockAtLastUpdate s) (myClockStopDisplay s));
    cbn [orb]; [exact Hs |].
  destruct (Z.geb_spec (myClockAtLastUpdate s) clock); [exact Hs |].
  destruct Hs as [[line Hbeam] Hout].
  apply (updateLines_inBuffer E fb _ true _ line); [exact Hbeam | exact Hout |].
  destruct (Z.gtb_spec clock (myClockStopDisplay s)); lia.
Qed.

Ltac buffer_steps fb :=
  repeat match goal with
         | |- inBuffer fb (updateFrame _ _ _) => apply updateFrame_inBuffer
         | |- inBuffer fb (if ?c then _ else _) => destruct c
         | |- inBuffer fb (?set ?v ?u) =>
             let H := fresh in
             assert (H : forall v' u', beamView (set v' u') = beamView u')
               by (intros; reflexivity);
             apply (inBuffer_ext fb u (set v u) (H v u)); clear H
         end.

Lemma pokeRegister_inBuffer (E : Env) (fb : FrameBuffer) (io : BusInputs)
    (addr : TIARegister) (value clock : Z) (s : TIA) :
  inBuffer fb s -> inBuffer fb (pokeRegister E io addr value clock s).
Proof.
  intros Hs.
  destruct addr;
    unfold pokeRegister, pokeRESP, pokeColor, waitHorizontalSync;
    cbv zeta beta; buffer_steps fb; exact Hs.
Qed.

Lemma busStep_inBuffer (E : Env) (fb : FrameBuffer) (op : BusOp) (s : TIA) :
  inBuffer fb s -> inBuffer fb (snd (busStep E op s)).
Proof.
  intros Hs. destruct op as [io addr | io addr value | n]; cbn [busStep snd].
  - unfold peek. cbv zeta.
    destruct (readRegister E (Z.land addr 15)); cbn [snd];
      buffer_steps fb; exact Hs.
  - unfold poke. cbv zeta. apply pokeRegister_inBuffer.
    unfold pokeCatchUp. cbv zeta. buffer_steps fb; exact Hs.
  - unfold tick. buffer_steps fb; exact Hs.
Qed.

(** [startFrame] leaves the renderer at the start of scanline 0. *)
Lemma startFrame_beam (E : Env) (s : TIA) :
  0 < myStopDisplayOffset s <= SCANLINE_CLOCKS * BUFFER_LINES ->
  beamAt 0 (startFrame E s).
Proof.
  change (SCANLINE_CLOCKS * BUFFER_LINES) with 72960. intros Hstop.
  pose proof (clocksThisLine_range s) as Hclocks.
  assert (Hview :
    myClockAtLastUpdate (startFrame E s)
    = Int32 (uInt32 (-1 * clocksThisLine s))
    /\ myClocksToEndOfScanLine (startFrame E s) = 228
    /\ myClockWhenFrameStarted (startFrame E s)
       = Int32 (uInt32 (-1 * clocksThisLine s))
    /\ myClockStopDisplay (startFrame E s)
       = Int32 (uInt32 (Int32 (uInt32 (-1 * clocksThisLine s))
                        + myStopDisplayOffset s))
    /\ myFramePointer (startFrame E s) = 0).
  { unfold startFrame, resetCycles, systemCyclesReset. cbv zeta.
    repeat (tia_cbn; split_if); tia_cbn;
      change (clocksThisLine (set_myPreviousFrameBuffer _ _))
        with (clocksThisLine s);
      repeat split; reflexivity. }
  destruct Hview as (H1 & H2 & H3 & H4 & H5).
  unfold beamAt. rewrite H1, H2, H3, H4, H5.
  rewrite (Int32_uInt32 (-1 * clocksThisLine s)),
          (Int32_small (-1 * clocksThisLine s)) by lia.
  rewrite Int32_uInt32, Int32_small by lia.
  lia.
Qed.

(** Nothing is written outside the buffer either. *)
Lemma runBus_inBuffer (E : Env) (fb : FrameBuffer) (ops : list BusOp) :
  forall s, inBuffer fb s -> inBuffer fb (runBus E ops s).
Proof.
  unfold runBus.
  induction ops as [| op ops IH]; intros s Hs; cbn [fold_left];
    [exact Hs | apply IH, busStep_inBuffer, Hs].
Qed.

(** X25: when the clock bookkeeping and the frame pointer describe the same
    beam position (scanline [line], 160 pixels for 228 clocks) and the
    display stops within 320 scanlines of the frame start, [updateFrame]
    keeps them so, leaves the frame pointer within the 51200 bytes of the
    frame buffer and writes no pixel outside it. *)
Theorem X25_updateFrame_stays_in_buffer (E : Env) (clock line : Z) (s : TIA) :
  beamAt line s ->
  let s' := updateFrame E clock s in
  (exists line', beamAt line' s')
  /\ 0 <= myFramePointer s' <= BUFFER_SIZE
  /\ forall i, i < 0 \/ BUFFER_SIZE <= i ->
       myCurrentFrameBuffer s' i = myCurrentFrameBuffer s i.
Proof.
  intros Hbeam. cbv zeta.
  destruct (updateFrame_inBuffer E (myCurrentFrameBuffer s) clock s)
    as [[line' Hbeam'] Hout].
  { split; [exists line; exact Hbeam | intros i _; reflexivity]. }
  split; [exists line'; exact Hbeam' |].
  split; [exact (beamAt_bound line' _ Hbeam') | exact Hout].
Qed.

Lemma X25_witness :
  let s := pokeAt 0 0x09 0x1A powerOn in
  beamAt 0 s
  /\ myFramePointer (updateFrame stellaEnv 600 s) = 396
  /\ 0 <= myFramePointer (updateFrame stellaEnv 600 s) <= BUFFER_SIZE.
Proof.
  assert (Hbeam : beamAt 0 (pokeAt 0 0x09 0x1A powerOn)).
  { unfold beamAt. repeat split; first [by_eval | intros _; by_eval]. }
  pose proof (X25_updateFrame_stays_in_buffer stellaEnv 600 0
                (pokeAt 0 0x09 0x1A powerOn) Hbeam) as (_ & Hfp & _).
  split; [exact Hbeam | split; [reflexivity | exact Hfp]].
Defined.

(** X26: from [startFrame] on, with a stop-display offset of at most 320
    scanlines, no run of bus reads, bus writes and CPU cycles takes the
    frame pointer out of the frame buffer or writes a pixel outside it. *)
Theorem X26_bus_run_stays_in_buffer (E : Env) (ops : list BusOp) (s : TIA) :
  0 < myStopDisplayOffset s <= SCANLINE_CLOCKS * BUFFER_LINES ->
  let s' := runBus E ops (startFrame E s) in
  0 <= myFramePointer s' <= BUFFER_SIZE
  /\ forall i, i < 0 \/ BUFFER_SIZE <= i ->
       myCurrentFrameBuffer s' i = myCurrentFrameBuffer (startFrame E s) i.
Proof.
  intros Hstop. cbv zeta.
  destruct (runBus_inBuffer E (myCurrentFrameBuffer (startFrame E s)) ops
              (startFrame E s)) as [[line Hbeam] Hout].
  { split; [exists 0; apply startFrame_beam, Hstop | intros i _; reflexivity]. }
  split; [exact (beamAt_bound line _ Hbeam) | exact Hout].
Qed.

Lemma X26_witness :
  let s' := runBus stellaEnv paintAndPoll (startFrame stellaEnv powerOn) in
  myStopDisplayOffset powerOn = 59736
  /\ myFramePointer s' = 628
  /\ myCurrentFrameBuffer s' 395 = 0x1A
  /\ 0 <= myFramePointer s' <= BUFFER_SIZE.
Proof.
  pose proof (X26_bus_run_stays_in_buffer stellaEnv paintAndPoll powerOn
                ltac:(by_eval)) as [Hfp _].
  split; [reflexivity | split; [reflexivity | split; [reflexivity |]]].
  exact Hfp.
Defined.

(** *** Vertical delay of the player graphics *)

(** The GRP0 and GRP1 cases of [poke], seen from the two players. *)
Lemma pokeRegister_GRP0 (E : Env) (io : BusInputs) (v c : Z) (s : TIA) :
  myPlayer0 (pokeRegister E io GRP0 v c s) = Player.handleGRP E v (myPlayer0 s)
  /\ myPlayer1 (pokeRegister E io GRP0 v c s)
     = Player.handleDelayedGRP E v (myPlayer1 s).
Proof. split; reflexivity. Qed.

Lemma pokeRegister_GRP1 (E : Env) (io : BusInputs) (v c : Z) (s : TIA) :
  myPlayer0 (pokeRegister E io GRP1 v c s)
  = Player.handleDelayedGRP E v (myPlayer0 s)
  /\ myPlayer1 (pokeRegister E io GRP1 v c s)
     = Player.handleGRP E v (myPlayer1 s).
Proof. split; reflexivity. Qed.

(** X27: a GRP0 write of [v] followed by a GRP1 write of [w].  Player 0
    shows [v] after the second write whatever its VDEL bit is, and after the
    first only when it is not delayed (a delayed player keeps showing its
    delayed register).  The GRP0 write makes player 1 show the byte last
    written to GRP1, and the GRP1 write changes what a delayed player 1
    shows not at all.  The players are enabled when they show a non-zero
    byte. *)
Theorem X27_GRP_writes_and_vertical_delay (E : Env) (io : BusInputs)
    (v w c1 c2 : Z) (s : TIA) :
  let p0 := myPlayer0 s in
  let p1 := myPlayer1 s in
  let s1 := pokeRegister E io GRP0 v c1 s in
  let s2 := pokeRegister E io GRP1 w c2 s1 in
  Player.myCurrentGRP (myPlayer0 s1)
  = shownAs E (if delayed p0 then Player.myDGRP p0 else v) p0
  /\ Player.myCurrentGRP (myPlayer0 s2) = shownAs E v p0
  /\ Player.myCurrentGRP (myPlayer1 s1) = shownAs E (Player.myGRP p1) p1
  /\ Player.myCurrentGRP (myPlayer1 s2)
     = shownAs E (if delayed p1 then Player.myGRP p1 else w) p1
  /\ Moveable.isEnabled (Player.base (myPlayer0 s2))
     = nonzero (shownAs E v p0)
  /\ Moveable.isEnabled (Player.base (myPlayer1 s2))
     = nonzero (Player.myCurrentGRP (myPlayer1 s2)).
Proof.
  cbv zeta.
  rewrite !(proj1 (pokeRegister_GRP1 E io w c2 _)),
          !(proj2 (pokeRegister_GRP1 E io w c2 _)),
          !(proj1 (pokeRegister_GRP0 E io v c1 s)),
          !(proj2 (pokeRegister_GRP0 E io v c1 s)).
  generalize (myPlayer0 s) (myPlayer1 s). intros p0 p1.
  unfold shownAs, delayed, Player.handleGRP, Player.handleDelayedGRP,
         Player.handleCurrentGRP, Player.handleEnabled, Moveable.handleEnabled.
  cbv zeta. destruct p0 as [[] ], p1 as [[] ]. cbn.
  repeat match goal with
         | b : bool |- _ => destruct b
         end; repeat split; reflexivity.
Qed.

(** *** The playfield registers *)

Lemma PF_masks :
  0x000FFFF0 = Z.shiftl (Z.ones 16) 4
  /\ 0x000FF00F = Z.lor (Z.shiftl (Z.ones 8) 12) (Z.ones 4)
  /\ 0x00000FFF = Z.ones 12 /\ 0x0F = Z.ones 4 /\ 0xFF = Z.ones 8.
Proof. repeat split; reflexivity. Qed.

Ltac pf_bits v :=
  apply Z.bits_inj'; intros n Hn;
  repeat first
    [ rewrite Z.land_spec | rewrite Z.lor_spec
    | rewrite Z.shiftr_spec by lia | rewrite Z.shiftl_spec by lia
    | rewrite Z.testbit_ones_nonneg by lia
    | rewrite Z.testbit_ones by lia ];
  repeat match goal with
         | |- context [Z.ltb ?a ?b] => destruct (Z.ltb_spec a b)
         | |- context [Z.leb ?a ?b] => destruct (Z.leb_spec a b)
         end;
  rewrite ?(Z.testbit_neg_r v) by lia;
  rewrite ?(byte_high_bits v) by lia;
  rewrite ?andb_false_r, ?andb_true_r, ?orb_false_r, ?orb_false_l,
          ?andb_false_l, ?andb_true_l;
  try lia; try reflexivity;
  try (f_equal; lia).

(** X28: the three playfield registers are independent: a write of the byte
    [v] to PF0, PF1 or PF2 stores it (its high nibble for PF0) in the
    register's own bits of the 20-bit pattern (bits 0-3, 4-11 and 12-19) and
    keeps the bits of the other two; the pattern stays below 2^20, and the
    playfield is enabled exactly when the pattern is not 0. *)
Theorem X28_PF_registers_are_independent (v : Z) (p : Playfield.t) :
  0 <= v < 256 ->
  let q0 := Playfield.handleRegisterUpdate PF0 v p in
  let q1 := Playfield.handleRegisterUpdate PF1 v p in
  let q2 := Playfield.handleRegisterUpdate PF2 v p in
  (pf0Bits q0 = Z.shiftr v 4 /\ pf1Bits q0 = pf1Bits p /\ pf2Bits q0 = pf2Bits p)
  /\ (pf0Bits q1 = pf0Bits p /\ pf1Bits q1 = v /\ pf2Bits q1 = pf2Bits p)
  /\ (pf0Bits q2 = pf0Bits p /\ pf1Bits q2 = pf1Bits p /\ pf2Bits q2 = v)
  /\ (forall q, In q [q0; q1; q2] ->
        0 <= Playfield.myPF q < 2 ^ 20
        /\ Playfield.isEnabled q = negb (Playfield.myPF q =? 0)).
Proof.
  intros Hv. cbv zeta.
  assert (Hbelow : forall x, Z.land x (Z.ones 20) = x -> 0 <= x < 2 ^ 20).
  { intros x Hx. rewrite Z.land_ones in Hx by lia. rewrite <- Hx.
    apply Z.mod_pos_bound. reflexivity. }
  unfold pf0Bits, pf1Bits, pf2Bits, Playfield.handleRegisterUpdate,
         Playfield.handleEnabled, Playfield.set_myPF.
  cbv zeta. cbn [Playfield.myPF Playfield.isEnabled].
  rewrite !uInt32_small
    by (rewrite Z.shiftl_mul_pow2 by lia;
        first [change (2 ^ 4) with 16 | change (2 ^ 12) with 4096]; lia).
  destruct PF_masks as (-> & -> & -> & -> & ->).
  split; [repeat split; pf_bits v |].
  split; [repeat split; pf_bits v |].
  split; [repeat split; pf_bits v |].
  intros q [<- | [<- | [<- | []]]]; cbn [Playfield.myPF Playfield.isEnabled];
    (split; [apply Hbelow; pf_bits v | reflexivity]).
Qed.

Lemma X28_witness :
  Playfield.myPF (Playfield.handleRegisterUpdate PF1 0xA5 patterned) = 0x12A55
  /\ pf0Bits (Playfield.handleRegisterUpdate PF1 0xA5 patterned) = 0x5
  /\ pf1Bits (Playfield.handleRegisterUpdate PF1 0xA5 patterned) = 0xA5
  /\ pf2Bits (Playfield.handleRegisterUpdate PF1 0xA5 patterned) = 0x12.
Proof.
  pose proof (X28_PF_registers_are_independent 0xA5 patterned ltac:(lia))
    as (_ & (H0 & H1 & H2) & _).
  split; [reflexivity | split; [| split]].
  - rewrite H0. reflexivity.
  - exact H1.
  - rewrite H2. reflexivity.
Defined.

(** *** Frame after frame *)

Lemma stable_frameView : RenderStable frameView.
Proof. repeat constructor. Qed.

Ltac view_steps :=
  repeat match goal with
         | |- frameView (updateFrame _ _ _) = _ =>
             rewrite (updateFrame_stable frameView stable_frameView)
         | |- frameView (if ?c then _ else _) = _ => destruct c
         | |- frameView (?set ?v ?u) = _ =>
             let H := fresh in
             assert (H : forall v' u', frameView (set v' u') = frameView u')
               by (intros; reflexivity);
             rewrite (H v u); clear H
         end.

Lemma pokeRegister_frameView (E : Env) (io : BusInputs) (addr : TIARegister)
    (value clock : Z) (s : TIA) :
  frameView (pokeRegister E io addr value clock s) = frameView s.
Proof.
  destruct addr;
    unfold pokeRegister, pokeRESP, pokeColor, waitHorizontalSync;
    cbv zeta beta; view_steps; reflexivity.
Qed.

Lemma busStep_frameView (E : Env) (op : BusOp) (s : TIA) :
  frameView (snd (busStep E op s)) = frameView s.
Proof.
  destruct op as [io addr | io addr value | n]; cbn [busStep snd].
  - unfold peek. cbv zeta.
    destruct (readRegister E (Z.land addr 15)); cbn [snd];
      view_steps; reflexivity.
  - unfold poke. cbv zeta. rewrite pokeRegister_frameView.
    unfold pokeCatchUp. cbv zeta. view_steps; reflexivity.
  - reflexivity.
Qed.

Lemma runBus_frameView (E : Env) (ops : list BusOp) :
  forall s, frameView (runBus E ops s) = frameView s.
Proof.
  unfold runBus.
  induction ops as [| op ops IH]; intros s; cbn [fold_left];
    [reflexivity | rewrite IH; apply busStep_frameView].
Qed.

Lemma startFrame_swaps (E : Env) (s : TIA) :
  myStopDisplayOffset (startFrame E s) = myStopDisplayOffset s
  /\ myCurrentFrameBuffer (startFrame E s) = myPreviousFrameBuffer s
  /\ myPreviousFrameBuffer (startFrame E s) = myCurrentFrameBuffer s.
Proof.
  unfold startFrame, resetCycles, systemCyclesReset. cbv zeta.
  repeat (tia_cbn; split_if); repeat split; reflexivity.
Qed.

Lemma outsideBoth_swap (g h : FrameBuffer) (u u' : TIA) :
  myCurrentFrameBuffer u' = myPreviousFrameBuffer u ->
  myPreviousFrameBuffer u' = myCurrentFrameBuffer u ->
  outsideBoth g h u -> outsideBoth g h u'.
Proof.
  unfold outsideBoth. intros -> -> [Hu | Hu]; [right | left];
    intros i Hi; destruct (Hu i Hi); split; assumption.
Qed.

Lemma startFrame_safe (E : Env) (g h : FrameBuffer) (s : TIA) :
  0 < myStopDisplayOffset s <= SCANLINE_CLOCKS * BUFFER_LINES ->
  outsideBoth g h s ->
  beamAt 0 (startFrame E s)
  /\ 0 < myStopDisplayOffset (startFrame E s) <= SCANLINE_CLOCKS * BUFFER_LINES
  /\ outsideBoth g h (startFrame E s).
Proof.
  intros Hstop Hout.
  destruct (startFrame_swaps E s) as (Ho & Hc & Hp).
  split; [apply startFrame_beam; exact Hstop |].
  split; [rewrite Ho; exact Hstop |].
  apply (outsideBoth_swap g h s); assumption.
Qed.

Lemma memset_outside (fb : FrameBuffer) (off c n i : Z) :
  0 <= off -> off + n <= BUFFER_SIZE -> i < 0 \/ BUFFER_SIZE <= i ->
  memset fb off c n i = fb i.
Proof.
  intros Hoff Hn Hi. unfold memset.
  destruct (Z.leb_spec off i), (Z.ltb_spec i (off + n)); cbn [andb];
    first [lia | reflexivity].
Qed.

(** [endFrame] when the frame is counted: the renderer's bookkeeping is
    left alone, and the two buffers are cleared inside their bounds. *)
Lemma endFrame_counted (E : Env) (s : TIA) :
  (scanlines s <=? myStartScanline s) = false ->
  myClockAtLastUpdate (endFrame E s) = myClockAtLastUpdate s
  /\ myClocksToEndOfScanLine (endFrame E s) = myClocksToEndOfScanLine s
  /\ myClockWhenFrameStarted (endFrame E s) = myClockWhenFrameStarted s
  /\ myClockStopDisplay (endFrame E s) = myClockStopDisplay s
  /\ myFramePointer (endFrame E s) = myFramePointer s
  /\ forall i, i < 0 \/ BUFFER_SIZE <= i ->
       myCurrentFrameBuffer (endFrame E s) i = myCurrentFrameBuffer s i
       /\ myPreviousFrameBuffer (endFrame E s) i = myPreviousFrameBuffer s i.
Proof.
  intros Hshort.
  assert (Hlines : 0 <= scanlines s).
  { unfold scanlines. apply Z.div_pos; [| reflexivity].
    unfold uInt32. apply Z.mod_pos_bound. reflexivity. }
  unfold endFrame. cbv zeta. rewrite Hshort.
  repeat (tia_cbn; split_if); tia_cbn;
    (do 5 (split; [reflexivity |]));
    intros i Hi;
    repeat match goal with
           | H : (_ && _) = true |- _ =>
               apply andb_true_iff in H; destruct H
           | H : (_ <? _) = true |- _ => apply Z.ltb_lt in H
           end;
    change BUFFER_LINES with 320 in *; change SCANLINE_PIXEL with 160 in *;
    rewrite ?uInt32_small by lia;
    (split; apply memset_outside; change BUFFER_SIZE with 51200 in *; lia)
    || (split; reflexivity).
Qed.

Lemma endFrame_safe (E : Env) (g h : FrameBuffer) (line : Z) (s : TIA) :
  0 < myStopDisplayOffset s <= SCANLINE_CLOCKS * BUFFER_LINES ->
  beamAt line s -> outsideBoth g h s ->
  (exists line', beamAt line' (endFrame E s))
  /\ 0 < myStopDisplayOffset (endFrame E s) <= SCANLINE_CLOCKS * BUFFER_LINES
  /\ outsideBoth g h (endFrame E s).
Proof.
  intros Hstop Hbeam Hout.
  pose proof (endFrame_stopOffset E s ltac:(lia)) as Hoff.
  split; [| split; [lia |]];
    destruct (scanlines s <=? myStartScanline s) eqn:Hshort.
  - exists 0. unfold endFrame. rewrite Hshort.
    apply startFrame_beam. exact Hstop.
  - exists line.
    destruct (endFrame_counted E s Hshort) as (H1 & H2 & H3 & H4 & H5 & _).
    unfold beamAt in *. rewrite H1, H2, H3, H4, H5. exact Hbeam.
  - unfold endFrame. rewrite Hshort.
    apply (startFrame_safe E g h s Hstop Hout).
  - destruct (endFrame_counted E s Hshort) as (_ & _ & _ & _ & _ & Hfb).
    destruct Hout as [Hu | Hu]; [left | right]; intros i Hi;
      destruct (Hfb i Hi) as [-> ->]; apply Hu; exact Hi.
Qed.

(** One call of [update] keeps [frameSafe]. *)
Lemma update_safe (E : Env) (g h : FrameBuffer) (ops : list BusOp) (s : TIA) :
  frameSafe s -> outsideBoth g h s ->
  frameSafe (update E (runBus E ops) s)
  /\ outsideBoth g h (update E (runBus E ops) s).
Proof.
  intros (Hstop & Hfp & Hbeam) Hout. unfold update. cbv zeta.
  set (a := if negb (myPartialFrameFlag s) then startFrame E s else s).
  assert (Ha : (exists line, beamAt line a)
               /\ 0 < myStopDisplayOffset a <= SCANLINE_CLOCKS * BUFFER_LINES
               /\ outsideBoth g h a).
  { subst a. destruct (myPartialFrameFlag s); cbn [negb].
    - split; [apply Hbeam; reflexivity | split; assumption].
    - destruct (startFrame_safe E g h s Hstop Hout) as (Hb & Ho & Hk).
      split; [exists 0; exact Hb | split; assumption]. }
  clearbody a. destruct Ha as ([line Hline] & Hoff & Hboth).
  set (b := set_myPartialFrameFlag true a).
  set (c := runBus E ops b).
  destruct (runBus_inBuffer E (myCurrentFrameBuffer b) ops b)
    as [[line' Hline'] Hcur].
  { split; [exists line; exact Hline | intros i _; reflexivity]. }
  fold c in Hline', Hcur.
  pose proof (runBus_frameView E ops b) as Hview. fold c in Hview.
  unfold frameView in Hview.
  assert (Hoffc : myStopDisplayOffset c = myStopDisplayOffset a)
    by (exact (f_equal fst Hview)).
  assert (Hprev : myPreviousFrameBuffer c = myPreviousFrameBuffer a)
    by (exact (f_equal snd Hview)).
  assert (Hc : outsideBoth g h c).
  { destruct Hboth as [Hu | Hu]; [left | right]; intros i Hi;
      rewrite (Hcur i Hi), Hprev; apply Hu; exact Hi. }
  destruct (endFrame_safe E g h line' c ltac:(lia) Hline' Hc)
    as ([line'' Hend] & Hoffe & Houte).
  split; [| exact Houte].
  split; [exact Hoffe | split; [| intros _; exists line''; exact Hend]].
  exact (beamAt_bound line'' _ Hend).
Qed.

(** X29: frame after frame, whatever the CPU does on the bus between two
    calls of [update]: the stop-display offset stays within 320 scanlines,
    the frame pointer stays within the frame buffer, the bookkeeping of a
    frame under way stays coherent, and no pixel outside the two buffers is
    written, [startFrame] swapping them and [endFrame] clearing parts of
    them. *)
Theorem X29_frames_stay_in_buffer (E : Env) (g h : FrameBuffer)
    (frames : list (list BusOp)) (s : TIA) :
  frameSafe s -> outsideBoth g h s ->
  let s' := runFrames E frames s in
  0 <= myFramePointer s' <= BUFFER_SIZE
  /\ frameSafe s' /\ outsideBoth g h s'.
Proof.
  intros Hs Hout. cbv zeta.
  assert (Hrun : frameSafe (runFrames E frames s)
                 /\ outsideBoth g h (runFrames E frames s)).
  { unfold runFrames. revert s Hs Hout.
    induction frames as [| ops frames IH]; intros s Hs Hout; cbn [fold_left];
      [split; assumption |].
    destruct (update_safe E g h ops s Hs Hout) as [Hs' Hout'].
    apply IH; assumption. }
  destruct Hrun as [Hsafe Hboth].
  split; [apply Hsafe | split; assumption].
Qed.

Lemma X29_witness :
  let s' := runFrames stellaEnv [paintAndSync; paintAndPoll] powerOn in
  myPartialFrameFlag powerOn = false
  /\ myFrameCounter s' = 2
  /\ myFramePointer s' = 704
  /\ 0 <= myFramePointer s' <= BUFFER_SIZE
  /\ frameSafe s'.
Proof.
  assert (Hsafe : frameSafe powerOn).
  { split; [by_eval | split; [by_eval | intros Hflag; discriminate Hflag]]. }
  assert (Hout : outsideBoth (myCurrentFrameBuffer powerOn)
                   (myPreviousFrameBuffer powerOn) powerOn)
    by (left; intros i _; split; reflexivity).
  pose proof (X29_frames_stay_in_buffer stellaEnv _ _
                [paintAndSync; paintAndPoll] powerOn Hsafe Hout)
    as (Hfp & Hsafe' & _).
  split; [reflexivity | split; [reflexivity | split; [reflexivity |]]].
  split; [exact Hfp | exact Hsafe'].
Defined.

(** *** Collision latches from frame to frame (claim C2) *)

Lemma latchedIn_ext (T : TIATables) (c : CollisionBit) (u u' : TIA) :
  myCollision u' = myCollision u -> latchedIn T c u -> latchedIn T c u'.
Proof. unfold latchedIn. intros ->. exact id. Qed.

Section CollisionPersistence.

Context (E : Env) (idx : CollisionBit -> Z).
Hypothesis Hbits : oneBitPerPair E idx.

Lemma drawPixels_keeps_latch (c : CollisionBit) (n : nat) :
  forall hpos s,
    latchedIn E c s -> latchedIn E c (drawPixels E n hpos s).
Proof.
  induction n as [| n IH]; intros hpos s Hs; cbn [drawPixels]; [exact Hs |].
  apply IH. unfold latchedIn in *. unfold drawPixel. cbv zeta. tia_cbn.
  rewrite (latched_testbit E idx Hbits) in *.
  rewrite testbit_uInt16 by apply (idx_range E idx Hbits).
  rewrite Z.lor_spec, Hs. reflexivity.
Qed.

Lemma renderClocks_keeps_latch (c : CollisionBit) (a b : Z) (s : TIA) :
  latchedIn E c s -> latchedIn E c (renderClocks E a b s).
Proof.
  intros Hs. unfold renderClocks. cbv zeta.
  destruct (negb (b =? 0)); [| exact Hs].
  unfold latchedIn. tia_cbn. destruct (nonzero _); tia_cbn; [exact Hs |].
  apply drawPixels_keeps_latch. unfold latchedIn.
  rewrite (updateMasks_keeps _ keeps_collision). exact Hs.
Qed.

Lemma updateLine_keeps_latch (c : CollisionBit) (first : bool) (clock : Z)
    (s : TIA) :
  latchedIn E c s -> latchedIn E c (updateLine E first clock s).
Proof.
  intros Hs. unfold updateLine.
  set (s0 := if first then s else scanlineBoundary s).
  assert (H0 : latchedIn E c s0).
  { subst s0. destruct first; [exact Hs |].
    apply (latchedIn_ext E c s);
      [apply (scanlineBoundary_keeps _ keeps_collision) | exact Hs]. }
  clearbody s0.
  assert (H1 : latchedIn E c (snd (lineClocks clock s0))).
  { apply (latchedIn_ext E c s0); [| exact H0].
    unfold lineClocks. cbv zeta. destruct (clock >? _); reflexivity. }
  destruct (lineClocks clock s0) as [n s1]. cbn [snd] in H1.
  destruct (skipHBlank _ n) as [a b].
  eapply latchedIn_ext; [apply (endOfScanline_keeps _ keeps_collision) |].
  eapply latchedIn_ext; [apply (hmoveBlanks_keeps _ keeps_collision) |].
  apply renderClocks_keeps_latch. exact H1.
Qed.

Lemma updateFrame_keeps_latch (c : CollisionBit) (clock : Z) (s : TIA) :
  latchedIn E c s -> latchedIn E c (updateFrame E clock s).
Proof.
  assert (Hlines : forall n first cl u,
            latchedIn E c u -> latchedIn E c (updateLines E n first cl u)).
  { induction n as [| n IH]; intros first cl u Hu; cbn [updateLines];
      [exact Hu | apply IH, updateLine_keeps_latch, Hu]. }
  intros Hs. unfold updateFrame. cbv zeta.
  destruct (_ || _); [exact Hs | apply Hlines, Hs].
Qed.

Ltac latch_steps c :=
  repeat match goal with
         | |- latchedIn _ c (updateFrame _ _ _) =>
             apply updateFrame_keeps_latch
         | |- latchedIn _ c (if ?b then _ else _) => destruct b
         | |- latchedIn ?T c (?set ?v ?u) =>
             let H := fresh in
             assert (H : forall v' u', myCollision (set v' u') = myCollision u')
               by (intros; reflexivity);
             apply (latchedIn_ext T c u (set v u) (H v u)); clear H
         end.

Lemma pokeRegister_keeps_latch (c : CollisionBit) (io : BusInputs)
    (addr : TIARegister) (value clock : Z) (s : TIA) :
  addr <> CXCLR ->
  latchedIn E c s -> latchedIn E c (pokeRegister E io addr value clock s).
Proof.
  intros Haddr Hs.
  destruct addr; try congruence; clear Haddr;
    unfold pokeRegister, pokeRESP, pokeColor, waitHorizontalSync;
    cbv zeta beta; latch_steps c; exact Hs.
Qed.

Lemma busStep_keeps_latch (c : CollisionBit) (op : BusOp) (s : TIA) :
  keepsLatches E op ->
  latchedIn E c s -> latchedIn E c (snd (busStep E op s)).
Proof.
  intros Hop Hs.
  destruct op as [io addr | io addr value | n]; cbn [busStep snd].
  - unfold peek. cbv zeta.
    destruct (readRegister E (Z.land addr 15)); cbn [snd];
      latch_steps c; exact Hs.
  - unfold poke. cbv zeta. apply pokeRegister_keeps_latch; [exact Hop |].
    unfold pokeCatchUp. cbv zeta. latch_steps c; exact Hs.
  - exact Hs.
Qed.

Lemma runBus_keeps_latch (c : CollisionBit) (ops : list BusOp) :
  forall s, Forall (keepsLatches E) ops ->
    latchedIn E c s -> latchedIn E c (runBus E ops s).
Proof.
  unfold runBus.
  induction ops as [| op ops IH]; intros s Hops Hs; cbn [fold_left];
    [exact Hs |].
  inversion Hops as [| ? ? Hop Hrest]; subst.
  apply IH; [exact Hrest | apply busStep_keeps_latch; assumption].
Qed.

Lemma endFrame_collision (s : TIA) :
  myCollision (endFrame E s) = myCollision s.
Proof.
  unfold endFrame. cbv zeta.
  destruct (scanlines s <=? myStartScanline s);
    [apply startFrame_collision |].
  repeat (tia_cbn; split_if); reflexivity.
Qed.

Lemma update_keeps_latch (c : CollisionBit) (ops : list BusOp) (s : TIA) :
  Forall (keepsLatches E) ops ->
  latchedIn E c s -> latchedIn E c (update E (runBus E ops) s).
Proof.
  intros Hops Hs. unfold update. cbv zeta.
  eapply latchedIn_ext; [apply endFrame_collision |].
  apply runBus_keeps_latch; [exact Hops |].
  match goal with
  | |- latchedIn ?T c (set_myPartialFrameFlag true ?u) =>
      apply (latchedIn_ext T c u); [reflexivity |]
  end.
  destruct (negb (myPartialFrameFlag s)); [| exact Hs].
  apply (latchedIn_ext E c s); [apply startFrame_collision | exact Hs].
Qed.

Lemma runFrames_keeps_latch (c : CollisionBit) (frames : list (list BusOp)) :
  forall s, Forall (Forall (keepsLatches E)) frames ->
    latchedIn E c s -> latchedIn E c (runFrames E frames s).
Proof.
  unfold runFrames.
  induction frames as [| ops frames IH]; intros s Hframes Hs; cbn [fold_left];
    [exact Hs |].
  inversion Hframes as [| ? ? Hops Hrest]; subst.
  apply IH; [exact Hrest | apply update_keeps_latch; assumption].
Qed.

End CollisionPersistence.

Lemma poke_CXCLR (E : Env) (io : BusInputs) (addr value : Z) (s : TIA) :
  writeRegister E (Z.land addr 0x003f) = CXCLR ->
  myCollision (poke E io addr value s) = 0.
Proof. intros Haddr. unfold poke. cbv zeta. rewrite Haddr. reflexivity. Qed.

Lemma reset_collision (E : Env) (cfg : HostConfig) (s : TIA) :
  myCollision (reset E cfg s) = 0.
Proof. destruct cfg as [driven rate [|] loss]; reflexivity. Qed.


